(** * benchmark.py: the benchmark grid, its statistics and its reports

    A shallow embedding of [onnxruntime/python/tools/bert/benchmark.py].

    - Python [float] is the kernel's binary64 [float]; [int] is [Z];
      [str] is [string]; a Python exception is a value of [Exn] carried by
      [Res].
    - Code that logs, touches files, the global [optimize_model_statistics]
      or an external framework runs in the monad [M]: state passing over a
      [State] that survives a raised exception, as Python's effects do.
    - transformers, torch, onnxruntime, numpy, the file system and the clock
      are not part of the script; they enter as the fields of [Externals]
      and of [Numpy]. *)

From Stdlib Require Import ZArith List String Ascii Bool Lia Floats.
From stdpp Require Import base option list gmap strings pretty.

Set Warnings "-inexact-float".
Open Scope Z_scope.

(** ** Python values, exceptions and results *)

(** The scalars a result dictionary or a CSV row holds. *)
Inductive PyVal :=
| VStr (s : string)
| VInt (z : Z)
| VBool (b : bool).

(** Python's [==] on these scalars: [bool] is a subclass of [int]. *)
Definition py_eq (a b : PyVal) : bool :=
  match a, b with
  | VStr s, VStr t => bool_decide (s = t)
  | VInt x, VInt y => x =? y
  | VBool x, VBool y => Bool.eqb x y
  | VBool x, VInt y | VInt y, VBool x => y =? (if x then 1 else 0)
  | _, _ => false
  end.

(** [str(v)], as [csv] writes a cell. *)
Definition py_str (v : PyVal) : string :=
  match v with
  | VStr s => s
  | VInt z => pretty z
  | VBool b => if b then "True" else "False"
  end.

Inductive Exn :=
| ZeroDivisionError
| OverflowError
| AssertionError
| ValueError
| KeyError
| NameError
| StopIteration
| OSError
| RuntimeError
| OrtFail
| ExternalError (cls : string).

(** [isinstance(e, RuntimeError)] *)
Definition is_RuntimeError (e : Exn) : bool :=
  match e with RuntimeError => true | _ => false end.

Definition is_OSError (e : Exn) : bool :=
  match e with OSError => true | _ => false end.

Definition is_OrtFail (e : Exn) : bool :=
  match e with OrtFail => true | _ => false end.

Inductive Res (A : Type) :=
| Ok (a : A)
| Raise (e : Exn).
Arguments Ok {A} a.
Arguments Raise {A} e.

(** ** Dictionaries that keep insertion order *)

Definition odict (V : Type) := list (string * V).

Fixpoint od_get {V} (d : odict V) (k : string) : option V :=
  match d with
  | [] => None
  | (k', v) :: d' => if bool_decide (k' = k) then Some v else od_get d' k
  end.

(** [d[k] = v]: an existing key keeps its place. *)
Fixpoint od_set {V} (d : odict V) (k : string) (v : V) : odict V :=
  match d with
  | [] => [(k, v)]
  | (k', v') :: d' =>
      if bool_decide (k' = k) then (k, v) :: d' else (k', v') :: od_set d' k v
  end.

Definition od_keys {V} (d : odict V) : list string := map fst d.

(** ** Floats *)

(** [float(z)]: round to nearest even, [OverflowError] past the largest
    finite double. *)
Definition float_of_Z (z : Z) : Res float :=
  let f := SF2Prim (binary_normalize prec emax z 0 false) in
  if PrimFloat.is_infinity f then Raise OverflowError else Ok f.

(** [len(l)] is far below 2^53, the conversion is exact. *)
Definition float_of_len {A} (l : list A) : float :=
  SF2Prim (binary_normalize prec emax (Z.of_nat (length l)) 0 false).

(** [x / y] on Python floats. *)
Definition py_truediv (x y : float) : Res float :=
  if (y =? 0)%float then Raise ZeroDivisionError else Ok (x / y)%float.

(** [sum(l)]: starts from the integer [0] and adds left to right (CPython
    before 3.12; later versions compensate the rounding errors of the
    additions, which no property below depends on). *)
Definition py_sum (l : list float) : float :=
  fold_left PrimFloat.add l 0%float.

(** [n / d] rounded to the nearest integer, ties to even ([0 <= n], [0 < d]). *)
Definition round_half_even (n d : Z) : Z :=
  let q := n / d in
  match 2 * (n mod d) ?= d with
  | Lt => q
  | Gt => q + 1
  | Eq => if Z.even q then q else q + 1
  end.

(** The hundredths of [m * 2^e], correctly rounded. *)
Definition centi (m : positive) (e : Z) : Z :=
  if 0 <=? e then Z.pos m * 100 * 2 ^ e
  else round_half_even (Z.pos m * 100) (2 ^ (- e)).

Definition render_centi (c : Z) : string :=
  pretty (c / 100) +:+ "." +:+
  (if c mod 100 <? 10 then "0" else "") +:+ pretty (c mod 100).

(** ["{:.2f}".format(x)] *)
Definition format_2f (x : float) : string :=
  match Prim2SF x with
  | S754_nan => "nan"
  | S754_infinity s => if s then "-inf" else "inf"
  | S754_zero s => if s then "-0.00" else "0.00"
  | S754_finite s m e => (if s then "-" else "") +:+ render_centi (centi m e)
  end.

(** ** numpy *)

(** [numpy.var(l, dtype=float64)] and [numpy.percentile(l, q)]: library
    code, whose summation order and interpolation are numpy's own. *)
Class Numpy := {
  numpy_var : list float -> float;
  numpy_percentile : list float -> Z -> float
}.

(** ** get_latency_result *)

Record LatencyResult := {
  lr_test_times : Z;
  lr_latency_variance : string;
  lr_latency_90_percentile : string;
  lr_latency_95_percentile : string;
  lr_latency_99_percentile : string;
  lr_average_latency_ms : string;
  lr_QPS : string
}.

(** [sum(runtimes) / float(len(runtimes)) * 1000.0] *)
Definition latency_ms (runtimes : list float) : Res float :=
  match py_truediv (py_sum runtimes) (float_of_len runtimes) with
  | Ok mean => Ok (mean * 1000)%float
  | Raise e => Raise e
  end.

(** [batch_size * (1000.0 / latency_ms)]: the quotient is evaluated before
    the integer is converted. *)
Definition throughput (batch_size : Z) (lat : float) : Res float :=
  match py_truediv 1000 lat with
  | Ok per_ms =>
      match float_of_Z batch_size with
      | Ok b => Ok (b * per_ms)%float
      | Raise e => Raise e
      end
  | Raise e => Raise e
  end.

Definition get_latency_result `{Numpy} (runtimes : list float) (batch_size : Z)
  : Res LatencyResult :=
  match latency_ms runtimes with
  | Raise e => Raise e
  | Ok lat =>
      let latency_variance := (numpy_var runtimes * 1000)%float in
      match throughput batch_size lat with
      | Raise e => Raise e
      | Ok qps =>
          Ok {| lr_test_times := Z.of_nat (length runtimes);
                lr_latency_variance := format_2f latency_variance;
                lr_latency_90_percentile :=
                  format_2f (numpy_percentile runtimes 90 * 1000)%float;
                lr_latency_95_percentile :=
                  format_2f (numpy_percentile runtimes 95 * 1000)%float;
                lr_latency_99_percentile :=
                  format_2f (numpy_percentile runtimes 99 * 1000)%float;
                lr_average_latency_ms := format_2f lat;
                lr_QPS := format_2f qps |}
      end
  end.

(** ** A reference numpy

    The documented formulas, with left-to-right summation: the population
    variance [mean(|x - mean(x)|^2)] and the percentile by linear
    interpolation between closest ranks.  It instantiates [Numpy] where a
    statement is evaluated on concrete timings. *)

Definition ref_var (l : list float) : float :=
  let n := float_of_len l in
  let mean := (py_sum l / n)%float in
  (py_sum (map (fun x => ((x - mean) * (x - mean))%float) l) / n)%float.

Fixpoint insert_sorted (x : float) (l : list float) : list float :=
  match l with
  | [] => [x]
  | y :: l' => if (x <=? y)%float then x :: l else y :: insert_sorted x l'
  end.

Definition sort_floats (l : list float) : list float :=
  fold_right insert_sorted [] l.

Definition ref_percentile (l : list float) (q : Z) : float :=
  let s := sort_floats l in
  let pos := q * (Z.of_nat (length l) - 1) in
  let lo := Z.to_nat (pos / 100) in
  let t := (SF2Prim (binary_normalize prec emax (pos mod 100) 0 false) / 100)%float in
  let a := nth lo s nan in
  let b := nth (S lo) s a in
  (a + (b - a) * t)%float.

Definition numpy_reference : Numpy :=
  {| numpy_var := ref_var; numpy_percentile := ref_percentile |}.

(** ** Result records and arguments *)

(** The dictionary a runner builds for one grid cell: the nine tags, then
    the seven statistics of [get_latency_result]. *)
Module Result.
Record t := {
  engine : string;
  version : string;
  device : string;
  optimize : PyVal;
  fp16 : bool;
  model_name : string;
  inputs : Z;
  batch_size : Z;
  sequence_length : Z;
  stats : LatencyResult
}.

(** [result.items()], in insertion order. *)
Definition items (r : t) : list (string * PyVal) :=
  [ ("engine", VStr (engine r));
    ("version", VStr (version r));
    ("device", VStr (device r));
    ("optimize", optimize r);
    ("fp16", VBool (fp16 r));
    ("model_name", VStr (model_name r));
    ("inputs", VInt (inputs r));
    ("batch_size", VInt (batch_size r));
    ("sequence_length", VInt (sequence_length r));
    ("test_times", VInt (lr_test_times (stats r)));
    ("latency_variance", VStr (lr_latency_variance (stats r)));
    ("latency_90_percentile", VStr (lr_latency_90_percentile (stats r)));
    ("latency_95_percentile", VStr (lr_latency_95_percentile (stats r)));
    ("latency_99_percentile", VStr (lr_latency_99_percentile (stats r)));
    ("average_latency_ms", VStr (lr_average_latency_ms (stats r)));
    ("QPS", VStr (lr_QPS (stats r))) ].
End Result.

(** The namespace [parse_arguments] returns. *)
Module Args.
Record t := {
  models : list string;
  engines : list string;
  cache_dir : string;
  use_gpu : bool;
  fp16 : bool;
  verbose : bool;
  optimize_onnx : bool;
  validate_onnx : bool;
  fusion_csv : option string;
  detail_csv : option string;
  result_csv : option string;
  input_counts : list Z;
  test_times : Z;
  batch_sizes : list Z;
  sequence_lengths : list Z
}.

(** [args.fp16 = b] *)
Definition set_fp16 (b : bool) (a : t) : t :=
  {| models := models a; engines := engines a; cache_dir := cache_dir a;
     use_gpu := use_gpu a; fp16 := b; verbose := verbose a;
     optimize_onnx := optimize_onnx a; validate_onnx := validate_onnx a;
     fusion_csv := fusion_csv a; detail_csv := detail_csv a;
     result_csv := result_csv a; input_counts := input_counts a;
     test_times := test_times a; batch_sizes := batch_sizes a;
     sequence_lengths := sequence_lengths a |}.
End Args.

(** [MODELS]: a pretrained model's input names, opset version and
    optimization model type. *)
Definition MODELS (name : string) : option (list string * Z * string) :=
  if bool_decide (name = "bert-base-cased") then
    Some (["input_ids"; "attention_mask"; "token_type_ids"], 11, "bert")
  else if bool_decide (name = "distilbert-base-uncased") then
    Some (["input_ids"; "attention_mask"], 11, "bert")
  else if bool_decide (name = "roberta-base") then
    Some (["input_ids"; "attention_mask"], 11, "bert")
  else if bool_decide (name = "gpt2") then Some (["input_ids"], 11, "gpt2")
  else if bool_decide (name = "distilgpt2") then Some (["input_ids"], 11, "gpt2")
  else if bool_decide (name = "openai-gpt") then Some (["input_ids"], 11, "gpt2")
  else if bool_decide (name = "albert-base-v2") then Some (["input_ids"], 12, "bert")
  else if bool_decide (name = "xlnet-base-cased") then Some (["input_ids"], 12, "bert")
  else None.

(** ** State, trace and the monad *)

Inductive Level := DEBUG | INFO | WARNING | ERROR.

Inductive LogMsg :=
| Text (s : string)
| TextExc (s : string) (e : Exn)
| ExceptionMsg (e : Exn)
| ResultMsg (r : Result.t)
| ArgumentsMsg (a : Args.t).

(** What a run leaves behind besides files: log records, and the calls of
    [torch.cuda.empty_cache]. *)
Inductive Event :=
| Log (lvl : Level) (msg : LogMsg)
| CudaEmptyCache.

(** One written CSV line: the file it was appended to and its cells. *)
Definition CsvLine : Type := string * list string.

(** The state of a run over an outside world [W]. *)
Record State (W : Type) := {
  world : W;
  trace : list Event;
  optimize_model_statistics : odict (odict PyVal);
  csv : list CsvLine
}.
Arguments world {W} _.
Arguments trace {W} _.
Arguments optimize_model_statistics {W} _.
Arguments csv {W} _.
Arguments Build_State {W} _ _ _ _.

Definition M (W A : Type) : Type := State W -> Res A * State W.

Definition ret {W A} (a : A) : M W A := fun st => (Ok a, st).

Definition raise {W A} (e : Exn) : M W A := fun st => (Raise e, st).

Definition bind {W A B} (m : M W A) (k : A -> M W B) : M W B :=
  fun st =>
    match m st with
    | (Ok a, st') => k a st'
    | (Raise e, st') => (Raise e, st')
    end.

Global Instance M_bind {W} : MBind (M W) := fun A B k m => bind m k.
Global Instance M_ret {W} : MRet (M W) := fun A a => ret a.

(** [try: m  except <catches>: handler] *)
Definition try_except {W A} (m : M W A) (catches : Exn -> bool)
  (handler : Exn -> M W A) : M W A :=
  fun st =>
    match m st with
    | (Raise e, st') => if catches e then handler e st' else (Raise e, st')
    | r => r
    end.

Definition lift_res {W A} (r : Res A) : M W A :=
  match r with Ok a => ret a | Raise e => raise e end.

(** A [for] loop whose body updates the local [acc]; [continue] is
    [ret acc]. *)
Fixpoint for_acc {W A R} (xs : list A) (body : A -> R -> M W R) (acc : R)
  : M W R :=
  match xs with
  | [] => ret acc
  | x :: xs' => acc' ← body x acc; for_acc xs' body acc'
  end.

Definition for_each {W A} (xs : list A) (body : A -> M W unit) : M W unit :=
  for_acc xs (fun x _ => body x) tt.

Definition emit {W} (ev : Event) : M W unit :=
  fun st => (Ok tt, Build_State (world st) (trace st ++ [ev])
                      (optimize_model_statistics st) (csv st)).

Definition logger {W} (lvl : Level) (msg : LogMsg) : M W unit :=
  emit (Log lvl msg).

(** A call into the outside world. *)
Definition call {W A} (f : W -> Res A * W) : M W A :=
  fun st =>
    let '(r, w) := f (world st) in
    (r, Build_State w (trace st) (optimize_model_statistics st) (csv st)).

Definition ask {W A} (f : W -> A) : M W A :=
  fun st => (Ok (f (world st)), st).

Definition get_statistics {W} : M W (odict (odict PyVal)) :=
  fun st => (Ok (optimize_model_statistics st), st).

Definition put_statistics {W} (d : odict (odict PyVal)) : M W unit :=
  fun st => (Ok tt, Build_State (world st) (trace st) d (csv st)).

Definition with_world {W} (w : W) (st : State W) : State W :=
  Build_State w (trace st) (optimize_model_statistics st) (csv st).

Definition with_events {W} (evs : list Event) (st : State W) : State W :=
  Build_State (world st) (trace st ++ evs) (optimize_model_statistics st) (csv st).

(** One line appended to a file opened with [mode="a"]. *)
Definition csv_append {W} (file : string) (cells : list string) : M W unit :=
  fun st => (Ok tt, Build_State (world st) (trace st)
                      (optimize_model_statistics st) (csv st ++ [(file, cells)])).

Global Instance Res_bind : MBind Res :=
  fun A B k r => match r with Ok a => k a | Raise e => Raise e end.
Global Instance Res_ret : MRet Res := fun A a => Ok a.

(** A loop over [l] that updates [b] and stops at the first exception. *)
Fixpoint fold_res {A B} (f : A -> B -> Res B) (l : list A) (b : B) : Res B :=
  match l with
  | [] => Ok b
  | x :: l' => b' ← f x b; fold_res f l' b'
  end.

(** ** csv.DictWriter *)

(** The cells of [writerow(row)]: a key outside [fieldnames] raises
    [ValueError]; a missing key is written as the empty string. *)
Definition dictwriter_cells (fieldnames : list string) (row : gmap string PyVal)
  : Res (list string) :=
  if bool_decide (map_Forall (fun k _ => k ∈ fieldnames) row)
  then Ok (map (fun k => default "" (py_str <$> row !! k)) fieldnames)
  else Raise ValueError.

Definition writeheader {W} (file : string) (fieldnames : list string) : M W unit :=
  csv_append file fieldnames.

Definition writerow {W} (file : string) (fieldnames : list string)
  (row : gmap string PyVal) : M W unit :=
  cells ← lift_res (dictwriter_cells fieldnames row);
  csv_append file cells.

(** ** output_details *)

Definition detail_column_names : list string :=
  [ "engine"; "version"; "device"; "fp16"; "optimize"; "model_name"; "inputs";
    "batch_size"; "sequence_length"; "test_times"; "QPS"; "average_latency_ms";
    "latency_variance"; "latency_90_percentile"; "latency_95_percentile";
    "latency_99_percentile" ].

Definition output_details {W} (results : list Result.t) (csv_filename : string)
  : M W unit :=
  writeheader csv_filename detail_column_names;;
  for_each results (fun result =>
    writerow csv_filename detail_column_names (list_to_map (Result.items result)));;
  logger INFO (Text ("Detail results are saved to csv file: " +:+ csv_filename)).

(** ** output_summary *)

Definition header_names : list string :=
  [ "model_name"; "inputs"; "engine"; "version"; "device"; "fp16"; "optimize" ].

(** [f"b{batch_size}_s{sequence_length}"] *)
Definition data_name (b s : Z) : string :=
  "b" +:+ pretty b +:+ "_s" +:+ pretty s.

Definition summary_data_names (args : Args.t) : list string :=
  flat_map (fun b => map (fun s => data_name b s) (Args.sequence_lengths args))
           (Args.batch_sizes args).

(** [headers = {k: v for k, v in result.items() if k in header_names}] *)
Definition result_headers (result : Result.t) : gmap string PyVal :=
  list_to_map (filter (fun kv => kv.1 ∈ header_names) (Result.items result)).

(** [for k in header_names: assert row[k] == headers[k]] *)
Fixpoint assert_headers (ks : list string) (row headers : gmap string PyVal)
  : Res unit :=
  match ks with
  | [] => Ok tt
  | k :: ks' =>
      match row !! k, headers !! k with
      | Some a, Some b =>
          if py_eq a b then assert_headers ks' row headers
          else Raise AssertionError
      | _, _ => Raise KeyError
      end
  end.

(** The body of [for result in results] for one summary row. *)
Definition summary_update (data_names : list string)
  (model_name : string) (input_count : Z) (engine_name : string)
  (result : Result.t) (row : gmap string PyVal) : Res (gmap string PyVal) :=
  if bool_decide (Result.model_name result = model_name)
     && (Result.inputs result =? input_count)
     && bool_decide (Result.engine result = engine_name)
  then
    let headers := result_headers result in
    row' ← (if bool_decide (row = ∅)
            then Ok (list_to_map (map (fun k => (k, VStr "")) data_names)
                       ∪ (headers ∪ row))
            else assert_headers header_names row headers;; Ok row);
    Ok (<[data_name (Result.batch_size result) (Result.sequence_length result)
          := VStr (lr_average_latency_ms (Result.stats result))]> row')
  else Ok row.

Definition summary_row (results : list Result.t) (data_names : list string)
  (model_name : string) (input_count : Z) (engine_name : string)
  : Res (gmap string PyVal) :=
  fold_res (summary_update data_names model_name input_count engine_name)
           results ∅.

Definition output_summary {W} (results : list Result.t) (csv_filename : string)
  (args : Args.t) : M W unit :=
  let data_names := summary_data_names args in
  writeheader csv_filename (header_names ++ data_names);;
  for_each (Args.models args) (fun model_name =>
    for_each [1; 2; 3] (fun input_count =>
      for_each (Args.engines args) (fun engine_name =>
        row ← lift_res (summary_row results data_names
                          model_name input_count engine_name);
        writerow csv_filename (header_names ++ data_names) row)));;
  logger INFO (Text ("Summary results are saved to csv file: " +:+ csv_filename)).

(** ** output_fusion_statistics *)

(** The body of [for key in optimize_model_statistics.keys()]: the entry is
    tagged with its file name in place, then written. *)
Definition fusion_write_row {W} (csv_filename : string)
  (column_names : list string) (key : string) : M W unit :=
  d ← get_statistics;
  match od_get d key with
  | None => raise KeyError
  | Some entry =>
      let entry' := od_set entry "model_filename" (VStr key) in
      put_statistics (od_set d key entry');;
      writerow csv_filename column_names (list_to_map entry')
  end.

(** The argument is the global dictionary itself. *)
Definition output_fusion_statistics {W} (csv_filename : string) : M W unit :=
  d ← get_statistics;
  match d with
  | [] => raise StopIteration
  | (_, first) :: _ =>
      let column_names := "model_filename" :: od_keys first in
      writeheader csv_filename column_names;;
      for_each (od_keys d) (fusion_write_row csv_filename column_names);;
      logger INFO (Text ("Fusion statistics is saved to csv file: " +:+ csv_filename))
  end.

(** ** Strings and slices *)

(** [sub in s] *)
Fixpoint str_contains (sub s : string) : bool :=
  String.prefix sub s
  || match s with
     | EmptyString => false
     | String _ s' => str_contains sub s'
     end.

(** [s.replace(old, new)] for a non-empty [old]: every occurrence, left to
    right, without overlap.  [skip] counts the characters of a replaced
    occurrence still to drop. *)
Fixpoint replace_from (old new : string) (skip : nat) (s : string) : string :=
  match s with
  | EmptyString => EmptyString
  | String c s' =>
      match skip with
      | S k => replace_from old new k s'
      | O =>
          if String.prefix old s
          then new +:+ replace_from old new (String.length old - 1) s'
          else String c (replace_from old new 0 s')
      end
  end.

Definition py_replace (s old new : string) : string := replace_from old new 0 s.

(** [l[:n]], also for a negative [n]. *)
Definition py_slice_to {A} (l : list A) (n : Z) : list A :=
  if 0 <=? n then firstn (Z.to_nat n) l
  else firstn (Z.to_nat (Z.of_nat (length l) + n)) l.

(** [a or b] on an optional file name: [None] and the empty string are
    falsy. *)
Definition py_or (a : option string) (b : string) : string :=
  match a with
  | Some s => if bool_decide (s = "") then b else s
  | None => b
  end.

(** ** The outside world *)

(** What the script reads from a loaded configuration. *)
Record Pretrained := {
  vocab_size : Z;
  num_attention_heads : Z;
  hidden_size : Z
}.

(** The arrays of [create_onnxruntime_input], by how they are filled. *)
Inductive Tensor :=
| RandomIds (high : Z) (batch_size sequence_length : Z)
| Ones (batch_size sequence_length : Z)
| Zeros (batch_size sequence_length : Z).

(** How the outputs of a validation run compare with PyTorch's. *)
Inductive Comparison :=
| CountMismatch (expected got : Z)
| NotClose (i : Z)
| AllClose.

(** Every call that leaves the script.  A call that can change the world
    or raise returns both a result and the next world. *)
Record Externals (W Session : Type) := {
  is_torch_available : bool;
  torch_cuda_is_available : bool;
  get_available_providers : list string;
  onnxruntime_version : string;
  torch_version : string;
  (** [tokenizer.max_model_input_sizes]: a missing key is [None], a known
      model without a limit is [Some None] *)
  max_model_input_sizes : string -> option (option Z);
  os_path_exists : string -> W -> bool;
  os_mkdir : string -> W -> Res unit * W;
  (** [datetime.now().strftime(...)] *)
  time_stamp_now : W -> string;
  (** the three [from_pretrained] calls of [run_pytorch] and
      [model.num_parameters()]: model name, torchscript, cache directory *)
  load_pretrained : string -> bool -> string -> W -> Res Pretrained * W;
  (** [model.half()] when fp16, then [model.to(device)] *)
  model_to_device : string -> bool -> string -> W -> Res unit * W;
  (** [torch.randint]: vocabulary size, batch size, sequence length, device *)
  torch_randint : Z -> Z -> Z -> string -> W -> Res unit * W;
  (** tracing when torchscript, the warm-up call, then [timeit.repeat]:
      model name, torchscript, batch size, sequence length, repeat *)
  torch_timeit : string -> bool -> Z -> Z -> Z -> W -> Res (list float) * W;
  (** [export_onnx_model] up to the flattened example outputs: model name,
      cache directory, input names *)
  load_for_export : string -> string -> list string -> W -> Res Pretrained * W;
  (** [torch.onnx.export]: file name, model name, input names *)
  torch_onnx_export : string -> string -> list string -> W -> Res unit * W;
  (** [onnxruntime.InferenceSession]: model path, use_gpu *)
  InferenceSession : string -> bool -> W -> Res Session * W;
  (** the validation run and its comparison with the example outputs *)
  validation_run : Session -> W -> Res Comparison * W;
  (** [bert_opt.optimize_model(...).get_fused_operator_statistics()]:
      file name, model type, heads, hidden size, opt_level, only_onnxruntime *)
  optimize_model : string -> string -> Z -> Z -> Z -> bool -> W
                   -> Res (odict PyVal) * W;
  (** the float16 conversion when fp16, then [save_model_to_file] *)
  save_model_to_file : string -> bool -> W -> Res unit * W;
  (** [numpy.random.randint(low=0, high=vocab_size - 1, size=...)] *)
  numpy_random_randint : Z -> Z -> Z -> W -> Res unit * W;
  (** [timeit.repeat(lambda: ort_session.run(None, ort_input), number=1,
      repeat=repeat_times)] *)
  ort_timeit : Session -> odict Tensor -> Z -> W -> Res (list float) * W
}.
Arguments is_torch_available {W Session} _.
Arguments torch_cuda_is_available {W Session} _.
Arguments get_available_providers {W Session} _.
Arguments onnxruntime_version {W Session} _.
Arguments torch_version {W Session} _.
Arguments max_model_input_sizes {W Session} _ _.
Arguments os_path_exists {W Session} _ _ _.
Arguments os_mkdir {W Session} _ _ _.
Arguments time_stamp_now {W Session} _ _.
Arguments load_pretrained {W Session} _ _ _ _ _.
Arguments model_to_device {W Session} _ _ _ _ _.
Arguments torch_randint {W Session} _ _ _ _ _ _.
Arguments torch_timeit {W Session} _ _ _ _ _ _ _.
Arguments load_for_export {W Session} _ _ _ _ _.
Arguments torch_onnx_export {W Session} _ _ _ _ _.
Arguments InferenceSession {W Session} _ _ _ _.
Arguments validation_run {W Session} _ _ _.
Arguments optimize_model {W Session} _ _ _ _ _ _ _ _.
Arguments save_model_to_file {W Session} _ _ _ _.
Arguments numpy_random_randint {W Session} _ _ _ _ _.
Arguments ort_timeit {W Session} _ _ _ _ _.

(** ** The harness *)

Section Harness.

Context {W Session : Type} `{Numpy} (ext : Externals W Session).

Definition create_onnxruntime_session (onnx_model_path : string) (use_gpu : bool)
  : M W (option Session) :=
  try_except
    (session ← call (InferenceSession ext onnx_model_path use_gpu);
     mret (Some session))
    is_OrtFail
    (fun e => logger ERROR (TextExc "Failed to load model: " e);; mret None).

(** The dictionary [create_onnxruntime_input] returns. *)
Definition onnxruntime_inputs (vocab_size batch_size sequence_length : Z)
  (input_names : list string) : odict Tensor :=
  let inputs := [("input_ids", RandomIds (vocab_size - 1) batch_size sequence_length)] in
  let inputs :=
    if bool_decide ("attention_mask" ∈ input_names)
    then od_set inputs "attention_mask" (Ones batch_size sequence_length)
    else inputs in
  if bool_decide ("token_type_ids" ∈ input_names)
  then od_set inputs "token_type_ids" (Zeros batch_size sequence_length)
  else inputs.

Definition create_onnxruntime_input (vocab_size batch_size sequence_length : Z)
  (input_names : list string) : M W (odict Tensor) :=
  call (numpy_random_randint ext (vocab_size - 1) batch_size sequence_length);;
  mret (onnxruntime_inputs vocab_size batch_size sequence_length input_names).

Definition validate_onnx_model (onnx_model_filename : string) : M W bool :=
  let use_gpu := str_contains "_fp16" onnx_model_filename in
  test_session ← create_onnxruntime_session onnx_model_filename use_gpu;
  match test_session with
  | None =>
      logger ERROR (Text (onnx_model_filename +:+ " is an invalid ONNX model"));;
      mret false
  | Some session =>
      logger INFO (Text (onnx_model_filename +:+ " is a valid ONNX model"));;
      cmp ← call (validation_run ext session);
      match cmp with
      | CountMismatch expected got =>
          logger ERROR (Text ("Number of output tensors expected " +:+ pretty expected
                              +:+ ", got " +:+ pretty got));;
          mret false
      | NotClose i =>
          logger ERROR (Text ("Value of output tensor " +:+ pretty i
                              +:+ " is not close to expected result"));;
          mret false
      | AllClose =>
          logger INFO (Text ("inference result of onnxruntime is validated on "
                             +:+ onnx_model_filename));;
          mret true
      end
  end.

(** [optimize_model_statistics[key] = statistics] *)
Definition record_statistics (key : string) (statistics : odict PyVal) : M W unit :=
  d ← get_statistics;
  put_statistics (od_set d key statistics).

Definition optimize_onnx_model (onnx_model_filename model_type : string)
  (num_attention_heads hidden_size : Z) (fp16 : bool) : M W string :=
  let optimized_model_filename :=
    py_replace onnx_model_filename ".onnx"
               (if fp16 then "_fp16.onnx" else "_fp32.onnx") in
  existed ← ask (os_path_exists ext optimized_model_filename);
  (if negb existed then
     statistics ← call (optimize_model ext onnx_model_filename model_type
                          num_attention_heads hidden_size 99 true);
     record_statistics onnx_model_filename statistics;;
     statistics ← call (optimize_model ext onnx_model_filename model_type
                          num_attention_heads hidden_size 0 false);
     record_statistics optimized_model_filename statistics;;
     call (save_model_to_file ext optimized_model_filename fp16)
   else
     logger INFO (Text ("Skip optimization since model existed: "
                        +:+ optimized_model_filename)));;
  mret optimized_model_filename.

Definition export_onnx_model (model_name cache_dir : string)
  (input_names : list string) (fp16 optimize_onnx validate_onnx : bool)
  : M W (string * bool * Z * option Z) :=
  config ← call (load_for_export ext model_name cache_dir input_names);
  let onnx_model_filename :=
    model_name +:+ "_" +:+ pretty (Z.of_nat (length input_names)) +:+ ".onnx" in
  existed ← ask (os_path_exists ext onnx_model_filename);
  (if negb existed then
     logger INFO (Text ("Exporting ONNX model to " +:+ onnx_model_filename));;
     opset ← match MODELS model_name with
             | Some (_, opset, _) => mret opset
             | None => raise KeyError
             end;
     call (torch_onnx_export ext onnx_model_filename model_name input_names)
   else
     logger INFO (Text ("Skip export since model existed: " +:+ onnx_model_filename)));;
  is_valid_onnx_model ←
    (if validate_onnx then validate_onnx_model onnx_model_filename else mret true);
  '(onnx_model_filename, is_valid_onnx_model) ←
    (if optimize_onnx || fp16 then
       model_type ← match MODELS model_name with
                    | Some (_, _, model_type) => mret model_type
                    | None => raise KeyError
                    end;
       onnx_model_filename ←
         optimize_onnx_model onnx_model_filename model_type
                             (num_attention_heads config) (hidden_size config) fp16;
       is_valid_onnx_model ←
         (if validate_onnx then validate_onnx_model onnx_model_filename
          else mret is_valid_onnx_model);
       mret (onnx_model_filename, is_valid_onnx_model)
     else mret (onnx_model_filename, is_valid_onnx_model));
  max_sequence_length ← match max_model_input_sizes ext model_name with
                        | Some m => mret m
                        | None => raise KeyError
                        end;
  mret (onnx_model_filename, is_valid_onnx_model, vocab_size config,
        max_sequence_length).

(** [max is not None and sequence_length > max] *)
Definition exceeds (max_length : option Z) (sequence_length : Z) : bool :=
  match max_length with
  | Some m => m <? sequence_length
  | None => false
  end.

Definition device_of (use_gpu : bool) : string :=
  if use_gpu then "cuda" else "cpu".

Definition shape_text (batch_size sequence_length : Z) : string :=
  "[" +:+ pretty batch_size +:+ ", " +:+ pretty sequence_length +:+ "]".

(** *** run_onnxruntime *)

(** The body of [for sequence_length in sequence_lengths]. *)
Definition ort_cell (use_gpu fp16 optimize_onnx : bool) (repeat_times : Z)
  (model_name : string) (num_inputs : Z) (input_names : list string)
  (vocab_size : Z) (max_sequence_length : option Z) (ort_session : Session)
  (batch_size sequence_length : Z) (results : list Result.t)
  : M W (list Result.t) :=
  if exceeds max_sequence_length sequence_length then mret results
  else
    ort_input ← create_onnxruntime_input vocab_size batch_size sequence_length
                  input_names;
    logger INFO (Text ("Run onnxruntime on " +:+ model_name +:+ " with input shape "
                       +:+ shape_text batch_size sequence_length));;
    runtimes ← call (ort_timeit ext ort_session ort_input repeat_times);
    statistics ← lift_res (get_latency_result runtimes batch_size);
    let result :=
      {| Result.engine := "onnxruntime";
         Result.version := onnxruntime_version ext;
         Result.device := device_of use_gpu;
         Result.optimize := VBool optimize_onnx;
         Result.fp16 := fp16;
         Result.model_name := model_name;
         Result.inputs := num_inputs;
         Result.batch_size := batch_size;
         Result.sequence_length := sequence_length;
         Result.stats := statistics |} in
    logger INFO (ResultMsg result);;
    mret (results ++ [result]).

(** The body of [for batch_size in batch_sizes]. *)
Definition ort_batch (use_gpu fp16 optimize_onnx : bool) (repeat_times : Z)
  (sequence_lengths : list Z)
  (model_name : string) (num_inputs : Z) (input_names : list string)
  (vocab_size : Z) (max_sequence_length : option Z) (ort_session : Session)
  (batch_size : Z) (results : list Result.t) : M W (list Result.t) :=
  if batch_size <=? 0 then mret results
  else
    for_acc sequence_lengths
      (ort_cell use_gpu fp16 optimize_onnx repeat_times model_name num_inputs
                input_names vocab_size max_sequence_length ort_session batch_size)
      results.

(** The body of [for num_inputs in input_counts].  [torch.no_grad] needs
    the name [torch], which is bound only when torch is available. *)
Definition ort_inputs (use_gpu fp16 : bool) (batch_sizes sequence_lengths : list Z)
  (repeat_times : Z) (optimize_onnx validate_onnx : bool) (cache_dir : string)
  (model_name : string) (all_input_names : list string)
  (num_inputs : Z) (results : list Result.t) : M W (list Result.t) :=
  if Z.of_nat (length all_input_names) <? num_inputs then mret results
  else
    let input_names := py_slice_to all_input_names num_inputs in
    (if is_torch_available ext then mret tt else raise NameError);;
    '(onnx_model_file, is_valid_onnx_model, vocab_size, max_sequence_length) ←
      export_onnx_model model_name cache_dir input_names fp16 optimize_onnx
                        validate_onnx;
    if negb is_valid_onnx_model then mret results
    else
      ort_session ← create_onnxruntime_session onnx_model_file use_gpu;
      match ort_session with
      | None => mret results
      | Some ort_session =>
          for_acc batch_sizes
            (ort_batch use_gpu fp16 optimize_onnx repeat_times sequence_lengths
                       model_name num_inputs input_names vocab_size
                       max_sequence_length ort_session)
            results
      end.

(** The body of [for model_name in model_names]. *)
Definition ort_model (use_gpu fp16 : bool) (batch_sizes sequence_lengths : list Z)
  (repeat_times : Z) (input_counts : list Z) (optimize_onnx validate_onnx : bool)
  (cache_dir : string) (model_name : string) (results : list Result.t)
  : M W (list Result.t) :=
  match MODELS model_name with
  | None => raise KeyError
  | Some (all_input_names, _, _) =>
      for_acc input_counts
        (ort_inputs use_gpu fp16 batch_sizes sequence_lengths repeat_times
                    optimize_onnx validate_onnx cache_dir model_name all_input_names)
        results
  end.

Definition run_onnxruntime (use_gpu : bool) (model_names : list string)
  (fp16 : bool) (batch_sizes sequence_lengths : list Z) (repeat_times : Z)
  (input_counts : list Z) (optimize_onnx validate_onnx : bool)
  (cache_dir : string) (verbose : bool) : M W (list Result.t) :=
  let has_cuda :=
    bool_decide ("CUDAExecutionProvider" ∈ get_available_providers ext) in
  if use_gpu && negb has_cuda then
    logger ERROR (Text "Please install onnxruntime-gpu package instead of onnxruntime, and use a machine with GPU for testing gpu performance.");;
    mret []
  else
    (if negb use_gpu && has_cuda then
       logger WARNING (Text "Please install onnxruntime package instead of onnxruntime-gpu to get best cpu performance.")
     else mret tt);;
    for_acc model_names
      (ort_model use_gpu fp16 batch_sizes sequence_lengths repeat_times
                 input_counts optimize_onnx validate_onnx cache_dir)
      [].

(** *** run_pytorch *)

(** The [try] block of one grid cell. *)
Definition torch_try (fp16 torchscript : bool) (repeat_times : Z)
  (model_name device : string) (batch_size sequence_length : Z)
  (results : list Result.t) : M W (list Result.t) :=
  (if torchscript then
     logger DEBUG (Text ("Tracing model with input shape torch.Size("
                         +:+ shape_text batch_size sequence_length +:+ ")"))
   else mret tt);;
  runtimes ← call (torch_timeit ext model_name torchscript batch_size
                     sequence_length repeat_times);
  statistics ← lift_res (get_latency_result runtimes batch_size);
  let result :=
    {| Result.engine := if torchscript then "torchscript" else "torch";
       Result.version := torch_version ext;
       Result.device := device;
       Result.optimize := VStr "";
       Result.fp16 := fp16;
       Result.model_name := model_name;
       Result.inputs := 1;
       Result.batch_size := batch_size;
       Result.sequence_length := sequence_length;
       Result.stats := statistics |} in
  logger INFO (ResultMsg result);;
  mret (results ++ [result]).

(** The body of [for sequence_length in sequence_lengths]. *)
Definition torch_cell (fp16 torchscript : bool) (repeat_times : Z)
  (model_name device : string) (config : Pretrained) (max_input_size : option Z)
  (batch_size sequence_length : Z) (results : list Result.t)
  : M W (list Result.t) :=
  if exceeds max_input_size sequence_length then mret results
  else
    logger INFO (Text ("Run PyTorch on " +:+ model_name +:+ " with input shape "
                       +:+ shape_text batch_size sequence_length));;
    call (torch_randint ext (vocab_size config - 1) batch_size sequence_length
            device);;
    try_except
      (torch_try fp16 torchscript repeat_times model_name device batch_size
                 sequence_length results)
      is_RuntimeError
      (fun e => logger ERROR (ExceptionMsg e);; emit CudaEmptyCache;; mret results).

(** The body of [for batch_size in batch_sizes]. *)
Definition torch_batch (use_gpu fp16 torchscript : bool) (repeat_times : Z)
  (sequence_lengths : list Z) (model_name : string) (config : Pretrained)
  (max_input_size : option Z) (batch_size : Z) (results : list Result.t)
  : M W (list Result.t) :=
  if batch_size <=? 0 then mret results
  else
    let device := device_of use_gpu in
    call (model_to_device ext model_name fp16 device);;
    for_acc sequence_lengths
      (torch_cell fp16 torchscript repeat_times model_name device config
                  max_input_size batch_size)
      results.

(** The body of [for model_name in model_names]. *)
Definition torch_model (use_gpu fp16 : bool) (batch_sizes sequence_lengths : list Z)
  (repeat_times : Z) (torchscript : bool) (cache_dir : string)
  (model_name : string) (results : list Result.t) : M W (list Result.t) :=
  config ← call (load_pretrained ext model_name torchscript cache_dir);
  max_input_size ← match max_model_input_sizes ext model_name with
                   | Some m => mret m
                   | None => raise KeyError
                   end;
  logger DEBUG (Text ("Model " +:+ model_name));;
  logger DEBUG (Text "Number of parameters");;
  for_acc batch_sizes
    (torch_batch use_gpu fp16 torchscript repeat_times sequence_lengths
                 model_name config max_input_size)
    results.

Definition run_pytorch (use_gpu : bool) (model_names : list string) (fp16 : bool)
  (batch_sizes sequence_lengths : list Z) (repeat_times : Z)
  (torchscript : bool) (cache_dir : string) (verbose : bool)
  : M W (list Result.t) :=
  if use_gpu && negb (torch_cuda_is_available ext) then
    logger ERROR (Text "Please install PyTorch with Cuda, and use a machine with GPU for testing gpu performance.");;
    mret []
  else
    for_acc model_names
      (torch_model use_gpu fp16 batch_sizes sequence_lengths repeat_times
                   torchscript cache_dir)
      [].

(** *** The records a runner can emit *)

Definition ort_record (use_gpu fp16 optimize_onnx : bool) (model_name : string)
  (num_inputs batch_size sequence_length : Z) (statistics : LatencyResult)
  : Result.t :=
  {| Result.engine := "onnxruntime";
     Result.version := onnxruntime_version ext;
     Result.device := device_of use_gpu;
     Result.optimize := VBool optimize_onnx;
     Result.fp16 := fp16;
     Result.model_name := model_name;
     Result.inputs := num_inputs;
     Result.batch_size := batch_size;
     Result.sequence_length := sequence_length;
     Result.stats := statistics |}.

Definition torch_record (use_gpu fp16 torchscript : bool) (model_name : string)
  (batch_size sequence_length : Z) (statistics : LatencyResult) : Result.t :=
  {| Result.engine := if torchscript then "torchscript" else "torch";
     Result.version := torch_version ext;
     Result.device := device_of use_gpu;
     Result.optimize := VStr "";
     Result.fp16 := fp16;
     Result.model_name := model_name;
     Result.inputs := 1;
     Result.batch_size := batch_size;
     Result.sequence_length := sequence_length;
     Result.stats := statistics |}.

(** A record of [run_onnxruntime] comes from a cell of the grid that passed
    the skip rules. *)
Definition ort_emitted (use_gpu fp16 optimize_onnx : bool)
  (model_names : list string) (input_counts batch_sizes sequence_lengths : list Z)
  (r : Result.t) : Prop :=
  exists model_name num_inputs batch_size sequence_length statistics max_length,
    r = ort_record use_gpu fp16 optimize_onnx model_name num_inputs batch_size
                   sequence_length statistics
    /\ model_name ∈ model_names /\ num_inputs ∈ input_counts
    /\ batch_size ∈ batch_sizes /\ sequence_length ∈ sequence_lengths
    /\ 0 < batch_size
    /\ max_model_input_sizes ext model_name = Some max_length
    /\ exceeds max_length sequence_length = false.

Definition torch_emitted (use_gpu fp16 torchscript : bool)
  (model_names : list string) (batch_sizes sequence_lengths : list Z)
  (r : Result.t) : Prop :=
  exists model_name batch_size sequence_length statistics max_length,
    r = torch_record use_gpu fp16 torchscript model_name batch_size
                     sequence_length statistics
    /\ model_name ∈ model_names
    /\ batch_size ∈ batch_sizes /\ sequence_length ∈ sequence_lengths
    /\ 0 < batch_size
    /\ max_model_input_sizes ext model_name = Some max_length
    /\ exceeds max_length sequence_length = false.

(** The skip rules, read off a record: a positive batch size, and a
    sequence length within the model's limit when the limit is known. *)
Definition within_grid_rules (r : Result.t) : Prop :=
  0 < Result.batch_size r
  /\ forall max_length,
       max_model_input_sizes ext (Result.model_name r) = Some (Some max_length) ->
       Result.sequence_length r <= max_length.

(** *** main *)

(** [if args.fp16 and not args.use_gpu: ...; args.fp16 = False] *)
Definition coerce_fp16 (args : Args.t) : M W Args.t :=
  if Args.fp16 args && negb (Args.use_gpu args) then
    logger WARNING (Text "--fp16 is for GPU only");;
    mret (Args.set_fp16 false args)
  else mret args.

(** The cache directory is created when it is missing. *)
Definition ensure_cache_dir (args : Args.t) : M W unit :=
  existed ← ask (os_path_exists ext (Args.cache_dir args));
  if negb existed then
    try_except
      (call (os_mkdir ext (Args.cache_dir args)))
      is_OSError
      (fun _ => logger ERROR (Text ("Creation of the directory "
                                    +:+ Args.cache_dir args +:+ " failed")))
  else mret tt.

(** The two PyTorch engines; [None] is the early [return] of [main]. *)
Definition main_pytorch (args : Args.t) : M W (option (list Result.t)) :=
  let enable_torch := bool_decide ("torch" ∈ Args.engines args) in
  let enable_torchscript := bool_decide ("torchscript" ∈ Args.engines args) in
  if enable_torch || enable_torchscript then
    if negb (is_torch_available ext) then
      logger ERROR (Text "Trying to run a PyTorch benchmark but PyTorch was not found in the environment.");;
      mret None
    else
      (if bool_decide (Args.input_counts args ≠ [1]) then
         logger WARNING (Text "--input_counts is not implemented for torch or torchscript engine.")
       else mret tt);;
      results ←
        (if enable_torchscript then
           run_pytorch (Args.use_gpu args) (Args.models args) (Args.fp16 args)
                       (Args.batch_sizes args) (Args.sequence_lengths args)
                       (Args.test_times args) true (Args.cache_dir args)
                       (Args.verbose args)
         else mret []);
      results ←
        (if enable_torch then
           more ← run_pytorch (Args.use_gpu args) (Args.models args) (Args.fp16 args)
                    (Args.batch_sizes args) (Args.sequence_lengths args)
                    (Args.test_times args) false (Args.cache_dir args)
                    (Args.verbose args);
           mret (results ++ more)
         else mret results);
      mret (Some results)
  else mret (Some []).

(** The onnxruntime engine under the bare [except:] of [main]. *)
Definition main_onnxruntime (args : Args.t) (results : list Result.t)
  : M W (list Result.t) :=
  if bool_decide ("onnxruntime" ∈ Args.engines args) then
    try_except
      (more ← run_onnxruntime (Args.use_gpu args) (Args.models args)
                (Args.fp16 args) (Args.batch_sizes args)
                (Args.sequence_lengths args) (Args.test_times args)
                (Args.input_counts args) (Args.optimize_onnx args)
                (Args.validate_onnx args) (Args.cache_dir args)
                (Args.verbose args);
       mret (results ++ more))
      (fun _ => true)
      (fun e => logger ERROR (TextExc "Exception" e);; mret results)
  else mret results.

(** Every engine [args] selects; [None] when [main] returned early. *)
Definition main_engines (args : Args.t) : M W (option (list Result.t)) :=
  r ← main_pytorch args;
  match r with
  | None => mret None
  | Some results => results ← main_onnxruntime args results; mret (Some results)
  end.

(** From [time_stamp = ...] to the end of [main]. *)
Definition main_report (args : Args.t) (results : list Result.t) : M W unit :=
  time_stamp ← ask (time_stamp_now ext);
  statistics ← get_statistics;
  (if bool_decide (statistics ≠ []) then
     output_fusion_statistics
       (py_or (Args.fusion_csv args) ("benchmark_fusion_" +:+ time_stamp +:+ ".csv"))
   else mret tt);;
  if bool_decide (results = []) then
    logger WARNING (Text "No any result avaiable.")
  else
    output_details results
      (py_or (Args.detail_csv args) ("benchmark_detail_" +:+ time_stamp +:+ ".csv"));;
    output_summary results
      (py_or (Args.result_csv args) ("benchmark_summary_" +:+ time_stamp +:+ ".csv"))
      args.

Definition main (args : Args.t) : M W unit :=
  args ← coerce_fp16 args;
  logger INFO (ArgumentsMsg args);;
  ensure_cache_dir args;;
  r ← main_engines args;
  match r with
  | None => mret tt
  | Some results => main_report args results
  end.

End Harness.

(** ** A small concrete world

    The world is the number of timed runs made so far; the [n]-th timed
    run ends as the [n]-th entry of [outcomes] says (a run past the list
    takes 10 ms per repetition).  Nothing exists on disk, every other
    external call succeeds, and sequences are limited to 512 tokens. *)

Definition ex_timed (outcomes : list (Res (list float))) (repeat_times : Z)
  (w : nat) : Res (list float) * nat :=
  (nth w outcomes (Ok (repeat 0.01%float (Z.to_nat repeat_times))), S w).

Definition ex_passes (opt_level : Z) (extra : bool) : odict PyVal :=
  if extra && (opt_level =? 0)
  then [("Attention", VInt 12); ("Gelu", VInt 12); ("FastGelu", VInt 0)]
  else [("Attention", VInt 12); ("Gelu", VInt 12)].

Definition ex_config : Pretrained :=
  {| vocab_size := 50257; num_attention_heads := 12; hidden_size := 768 |}.

Definition ex_ext (outcomes : list (Res (list float))) (extra_pass : bool)
  : Externals nat unit :=
  {| is_torch_available := true;
     torch_cuda_is_available := false;
     get_available_providers := ["CPUExecutionProvider"];
     onnxruntime_version := "1.3.0";
     torch_version := "1.5.0";
     max_model_input_sizes := fun _ => Some (Some 512);
     os_path_exists := fun _ _ => false;
     os_mkdir := fun _ w => (Ok tt, w);
     time_stamp_now := fun _ => "20200601-120000";
     load_pretrained := fun _ _ _ w => (Ok ex_config, w);
     model_to_device := fun _ _ _ w => (Ok tt, w);
     torch_randint := fun _ _ _ _ w => (Ok tt, w);
     torch_timeit := fun _ _ _ _ n w => ex_timed outcomes n w;
     load_for_export := fun _ _ _ w => (Ok ex_config, w);
     torch_onnx_export := fun _ _ _ w => (Ok tt, w);
     InferenceSession := fun _ _ w => (Ok tt, w);
     validation_run := fun _ w => (Ok AllClose, w);
     optimize_model := fun _ _ _ _ lvl _ w => (Ok (ex_passes lvl extra_pass), w);
     save_model_to_file := fun _ _ w => (Ok tt, w);
     numpy_random_randint := fun _ _ _ w => (Ok tt, w);
     ort_timeit := fun _ _ n w => ex_timed outcomes n w |}.

Definition ex_state : State nat :=
  Build_State 0%nat [] [] [].

Definition ex_args (engines : list string) (fp16 optimize_onnx : bool)
  (batch_sizes sequence_lengths : list Z) : Args.t :=
  {| Args.models := ["gpt2"];
     Args.engines := engines;
     Args.cache_dir := "./cache_models";
     Args.use_gpu := false;
     Args.fp16 := fp16;
     Args.verbose := false;
     Args.optimize_onnx := optimize_onnx;
     Args.validate_onnx := false;
     Args.fusion_csv := None;
     Args.detail_csv := None;
     Args.result_csv := None;
     Args.input_counts := [1];
     Args.test_times := 3;
     Args.batch_sizes := batch_sizes;
     Args.sequence_lengths := sequence_lengths |}.

(** ** Vocabulary of the statements *)

(** The log record that announces a grid cell. *)
Definition run_message (engine model_name : string)
  (batch_size sequence_length : Z) : Event :=
  Log INFO (Text ("Run " +:+ engine +:+ " on " +:+ model_name
                  +:+ " with input shape "
                  +:+ shape_text batch_size sequence_length)).

(** The debug record of a traced cell. *)
Definition tracing_message (torchscript : bool)
  (batch_size sequence_length : Z) : list Event :=
  if torchscript then
    [Log DEBUG (Text ("Tracing model with input shape torch.Size("
                      +:+ shape_text batch_size sequence_length +:+ ")"))]
  else [].

(** The onnxruntime run of the concrete world over two sequence lengths,
    the first timed run failing. *)
Definition ex_failing_outcomes : list (Res (list float)) := [Raise RuntimeError].

Definition ex_ort_run (outcomes : list (Res (list float)))
  (batch_sizes sequence_lengths : list Z) : Res (list Result.t) * State nat :=
  run_onnxruntime (H := numpy_reference) (ex_ext outcomes false) false ["gpt2"]
    false batch_sizes sequence_lengths 3 [1] false false "./cache_models" false
    ex_state.

(** A record [main] collects comes from an engine [args] selects, run on
    the grid of [args]. *)
Definition emitted_by_main {W Session : Type} (ext : Externals W Session)
  (args : Args.t) (r : Result.t) : Prop :=
  ("onnxruntime" ∈ Args.engines args
   /\ ort_emitted ext (Args.use_gpu args) (Args.fp16 args) (Args.optimize_onnx args)
        (Args.models args) (Args.input_counts args) (Args.batch_sizes args)
        (Args.sequence_lengths args) r)
  \/ exists torchscript : bool,
      (if torchscript then "torchscript" else "torch") ∈ Args.engines args
      /\ torch_emitted ext (Args.use_gpu args) (Args.fp16 args) torchscript
           (Args.models args) (Args.batch_sizes args) (Args.sequence_lengths args) r.

(** The columns of the fusion report, from the first recorded entry. *)
Definition fusion_columns (first : odict PyVal) : list string :=
  "model_filename" :: od_keys first.

(** An entry after [entry["model_filename"] = key]. *)
Definition tagged (key : string) (entry : odict PyVal) : odict PyVal :=
  od_set entry "model_filename" (VStr key).

(** The cells [DictWriter] writes for a tagged entry. *)
Definition fusion_cells (column_names : list string) (key : string)
  (entry : odict PyVal) : list string :=
  map (fun k => default "" (py_str <$> (list_to_map (tagged key entry)
                                          : gmap string PyVal) !! k))
      column_names.


(** The three file names of [main], at the clock of [st]. *)
Definition fusion_file {W Session} (ext : Externals W Session) (args : Args.t)
  (st : State W) : string :=
  py_or (Args.fusion_csv args)
        ("benchmark_fusion_" +:+ time_stamp_now ext (world st) +:+ ".csv").

Definition detail_file {W Session} (ext : Externals W Session) (args : Args.t)
  (st : State W) : string :=
  py_or (Args.detail_csv args)
        ("benchmark_detail_" +:+ time_stamp_now ext (world st) +:+ ".csv").

Definition summary_file {W Session} (ext : Externals W Session) (args : Args.t)
  (st : State W) : string :=
  py_or (Args.result_csv args)
        ("benchmark_summary_" +:+ time_stamp_now ext (world st) +:+ ".csv").

(** The end of [main] after the fusion report. *)
Definition report_results {W} (args : Args.t) (results : list Result.t)
  (detail summary : string) : M W unit :=
  if bool_decide (results = []) then
    logger WARNING (Text "No any result avaiable.")
  else
    output_details results detail;;
    output_summary results summary args.

(** Two recorded models with the same pass names. *)
Definition ex_statistics : odict (odict PyVal) :=
  [ ("gpt2_1.onnx", [("Attention", VInt 12); ("Gelu", VInt 12)]);
    ("gpt2_1_fp32.onnx", [("Attention", VInt 12); ("Gelu", VInt 0)]) ].

Definition ex_recorded_state : State nat :=
  Build_State 0%nat [] ex_statistics [].

(** A run of [main] in the concrete world with optimization on, whose
    second optimization reports a pass the first did not. *)
Definition ex_main_extra_pass : Res unit * State nat :=
  main (H := numpy_reference) (ex_ext [] true)
    (ex_args ["onnxruntime"] false true [1] [8]) ex_state.

(** The test of [output_summary] on a record. *)
Definition matches (model_name : string) (input_count : Z) (engine_name : string)
  (result : Result.t) : bool :=
  bool_decide (Result.model_name result = model_name)
  && (Result.inputs result =? input_count)
  && bool_decide (Result.engine result = engine_name).

(** The values under [header_names], in that order. *)
Definition identifying (r : Result.t) : list PyVal :=
  [ VStr (Result.model_name r); VInt (Result.inputs r); VStr (Result.engine r);
    VStr (Result.version r); VStr (Result.device r); VBool (Result.fp16 r);
    Result.optimize r ].

(** Two records agree on every identifying field, by Python's [==]. *)
Definition agree (r1 r2 : Result.t) : bool :=
  forallb (fun ab => py_eq ab.1 ab.2) (zip (identifying r1) (identifying r2)).

(** The record's cell is a column of the summary. *)
Definition on_grid (args : Args.t) (r : Result.t) : Prop :=
  data_name (Result.batch_size r) (Result.sequence_length r)
  ∈ summary_data_names args.

(** The row keeps the identifying values of the first matching record. *)
Definition row_of (r0 : Result.t) (row : gmap string PyVal) : Prop :=
  map (fun k => row !! k) header_names = map Some (identifying r0).

(** The triples [output_summary] visits, in its order. *)
Definition summary_triples (args : Args.t) : list (string * Z * string) :=
  flat_map (fun model_name =>
    flat_map (fun input_count =>
      map (fun engine_name => (model_name, input_count, engine_name))
          (Args.engines args))
      [1; 2; 3])
    (Args.models args).

(** The cells of the row of one triple. *)
Definition summary_cells (results : list Result.t) (args : Args.t)
  (t : string * Z * string) : Res (list string) :=
  row ← summary_row results (summary_data_names args) t.1.1 t.1.2 t.2;
  dictwriter_cells (header_names ++ summary_data_names args) row.

(** The rows written before the first exception, and that exception. *)
Fixpoint rows_until_raise (l : list (Res (list string)))
  : list (list string) * option Exn :=
  match l with
  | [] => ([], None)
  | Ok cells :: l' => let '(rows, e) := rows_until_raise l' in (cells :: rows, e)
  | Raise e :: _ => ([], Some e)
  end.

(** A record of the onnxruntime engine of the concrete world, at a given
    engine version. *)
Definition ex_result (version : string) (batch_size sequence_length : Z)
  : Result.t :=
  {| Result.engine := "onnxruntime";
     Result.version := version;
     Result.device := "cpu";
     Result.optimize := VBool false;
     Result.fp16 := false;
     Result.model_name := "gpt2";
     Result.inputs := 1;
     Result.batch_size := batch_size;
     Result.sequence_length := sequence_length;
     Result.stats :=
       {| lr_test_times := 3; lr_latency_variance := "0.00";
          lr_latency_90_percentile := "10.00";
          lr_latency_95_percentile := "10.00";
          lr_latency_99_percentile := "10.00";
          lr_average_latency_ms := "10.00"; lr_QPS := "100.00" |} |}.

(** A run of [main] in the concrete world: one model, one engine, one
    grid cell. *)
Definition ex_main_one_cell : Res unit * State nat :=
  main (H := numpy_reference) (ex_ext [] false)
    (ex_args ["onnxruntime"] false false [1] [8]) ex_state.

(** ** Rounding in binary64

    What [binary_round_aux] of the specification floats computes, in
    closed form; the vocabulary of the properties of [float(n)] and of
    float products. *)

(** The least exponent a number of [x] digits is rounded at. *)
Local Abbreviation fexp64 := (SpecFloat.fexp prec emax).

(** The float a rounded mantissa and its exponent stand for. *)
Definition finalize (s : bool) (q E : Z) : spec_float :=
  match q with
  | Z0 => S754_zero s
  | Z.pos p => if E <=? 971 then S754_finite s p E else S754_infinity s
  | Z.neg _ => S754_nan
  end.

(** What [binary_round_aux] keeps of [m * 2^e]. *)
Definition norm_pair (m : positive) (e : Z) : Z * Z :=
  let E := fexp64 (Z.pos (digits2_pos m) + e) in
  let q := round_half_even (Z.pos m) (2 ^ (E - e)) in
  if q =? 2 ^ 53 then (2 ^ 52, E + 1) else (q, E).

(** The input asks for no shift to the left. *)
Definition no_left_shift (m : positive) (e : Z) : Prop :=
  e <= fexp64 (Z.pos (digits2_pos m) + e).

(** A mantissa and exponent in canonical form: at most 53 digits, and
    fewer only at the least exponent. *)
Definition canonical_pair (q E : Z) : Prop :=
  0 <= q < 2 ^ 53 /\ -1074 <= E /\ (-1074 < E -> 2 ^ 52 <= q).

(** The order of two canonical pairs, as floats. *)
Definition pair_le (q1 E1 q2 E2 : Z) : Prop :=
  q1 = 0 \/ (0 < q1 /\ 0 < q2 /\ (E1 < E2 \/ (E1 = E2 /\ q1 <= q2))).

(** The mantissa and exponent of [float(z)], for a positive [z]. *)
Definition of_pos_pair (p : positive) : Z * Z :=
  let out := shl_align p 0 (fexp64 (Z.pos (digits2_pos p) + 0)) in
  norm_pair out.1 out.2.

(** The hundredths a formatted field prints; [None] for inf and nan. *)
Definition sf_centi (x : spec_float) : option Z :=
  match x with
  | S754_zero _ => Some 0
  | S754_finite s m e => Some (if s then - centi m e else centi m e)
  | _ => None
  end.

(** The same, of a Python float. *)
Definition printed_centi (x : float) : option Z := sf_centi (Prim2SF x).

(** A zero, finite number or infinity of sign [s]. *)
Definition has_sign (s : bool) (x : spec_float) : Prop :=
  match x with
  | S754_zero s' | S754_infinity s' | S754_finite s' _ _ => s' = s
  | S754_nan => False
  end.

(** [sum(runtimes) / float(len(runtimes)) * 1000.0], when the division is
    defined. *)
Definition mean_ms (runtimes : list float) : float :=
  (py_sum runtimes / float_of_len runtimes * 1000)%float.

(** The spec's example run: five repetitions, in seconds. *)
Definition ex_runtimes : list float :=
  [0.010; 0.012; 0.011; 0.013; 0.010]%float.

(** ** The helpers of export_onnx_model *)

(** A value that is a tensor, or a list or tuple of such values. *)
#[warnings="-register-all"] Inductive Nested (A : Type) :=
| Leaf (a : A)
| Seq (items : list (Nested A)).
Arguments Leaf {A} a.
Arguments Seq {A} items.

(** [[[flatten(i) for i in inputs] if isinstance(inputs, (list, tuple))
     else inputs]]: always a list of one element. *)
Fixpoint flatten {A} (inputs : Nested A) : list (Nested A) :=
  match inputs with
  | Leaf a => [Leaf a]
  | Seq items => [Seq (map (fun i => Seq (flatten i)) items)]
  end.

(** The body of the loop of [update_flatten_list]: a tensor is appended to
    [res_list], a list or tuple is walked by the recursive call. *)
Fixpoint update_flatten_step {A} (i : Nested A) (res_list : list A) : list A :=
  match i with
  | Leaf a => res_list ++ [a]
  | Seq items => fold_left (fun res j => update_flatten_step j res) items res_list
  end.

(** [for i in inputs: ...; return res_list] *)
Definition update_flatten_list {A} (inputs : list (Nested A)) (res_list : list A)
  : list A :=
  fold_left (fun res i => update_flatten_step i res) inputs res_list.

(** The tensors of a nested value, left to right. *)
Fixpoint leaves {A} (x : Nested A) : list A :=
  match x with
  | Leaf a => [a]
  | Seq items => flat_map leaves items
  end.

(** [filter_inputs]: [inputs[input_name]] raises [KeyError] on a missing
    name. *)
Definition filter_inputs {V} (inputs : odict V) (input_names : list string)
  : Res (odict V) :=
  fold_res (fun input_name remaining_model_inputs =>
              match od_get inputs input_name with
              | Some v => Ok (od_set remaining_model_inputs input_name v)
              | None => Raise KeyError
              end)
           input_names [].

(** The axes [build_dynamic_axes] declares dynamic for one output of shape
    [dims]: axis 0 is the batch, then every axis whose extent equals the
    sequence length of the example is marked, axis 0 included. *)
Definition output_dynamic_axes (sequence_length : Z) (dims : list Z)
  : gmap nat string :=
  fold_left (fun axes jd =>
               if jd.2 =? sequence_length then <[jd.1 := "seq_len"]> axes else axes)
            (zip (seq 0 (length dims)) dims)
            {[ 0%nat := "batch_size" ]}.

(** [build_dynamic_axes] on the shapes of the example inputs and of the
    flattened outputs.  A missing "input_ids" raises [KeyError]; a
    zero-dimensional one has no [shape[-1]]. *)
Definition build_dynamic_axes (example_inputs : odict (list Z))
  (outputs_flatten : list (list Z))
  : Res (odict (gmap nat string) * list string) :=
  match od_get example_inputs "input_ids" with
  | None => Raise KeyError
  | Some shape =>
      match last shape with
      | None => Raise (ExternalError "IndexError")
      | Some sequence_length =>
          let dynamic_axes :=
            fold_left (fun axes key =>
                         od_set axes key {[ 0%nat := "batch_size"; 1%nat := "seq_len" ]})
                      (od_keys example_inputs) [] in
          let output_names :=
            map (fun i => "output_" +:+ pretty (Z.of_nat i + 1))
                (seq 0 (length outputs_flatten)) in
          Ok (fold_left (fun axes no =>
                           od_set axes no.1 (output_dynamic_axes sequence_length no.2))
                        (zip output_names outputs_flatten) dynamic_axes,
              output_names)
      end
  end.


(** A two-input BERT export: an encoding of 7 tokens, a sequence output and
    a pooled output. *)
Definition ex_example_inputs : odict (list Z) :=
  [("input_ids", [1; 7]); ("attention_mask", [1; 7])].

Definition ex_outputs_flatten : list (list Z) := [[1; 7; 768]; [1; 768]].

(** ** What a computation leaves as it was *)

(** Whatever [m] returns or raises, the part [proj] of the state is after
    the run what it was before. *)
Definition preserves {W X A} (proj : State W -> X) (m : M W A) : Prop :=
  forall st, proj (m st).2 = proj st.

(** The concrete world with every file on disk already. *)
Definition ex_ext_cached : Externals nat unit :=
  {| is_torch_available := true;
     torch_cuda_is_available := false;
     get_available_providers := ["CPUExecutionProvider"];
     onnxruntime_version := "1.3.0";
     torch_version := "1.5.0";
     max_model_input_sizes := fun _ => Some (Some 512);
     os_path_exists := fun _ _ => true;
     os_mkdir := fun _ w => (Ok tt, w);
     time_stamp_now := fun _ => "20200601-120000";
     load_pretrained := fun _ _ _ w => (Ok ex_config, w);
     model_to_device := fun _ _ _ w => (Ok tt, w);
     torch_randint := fun _ _ _ _ w => (Ok tt, w);
     torch_timeit := fun _ _ _ _ n w => ex_timed [] n w;
     load_for_export := fun _ _ _ w => (Ok ex_config, w);
     torch_onnx_export := fun _ _ _ w => (Ok tt, w);
     InferenceSession := fun _ _ w => (Ok tt, w);
     validation_run := fun _ w => (Ok AllClose, w);
     optimize_model := fun _ _ _ _ lvl _ w => (Ok (ex_passes lvl false), w);
     save_model_to_file := fun _ _ w => (Ok tt, w);
     numpy_random_randint := fun _ _ _ w => (Ok tt, w);
     ort_timeit := fun _ _ n w => ex_timed [] n w |}.

(** The concrete world without PyTorch. *)
Definition ex_ext_without_torch : Externals nat unit :=
  {| is_torch_available := false;
     torch_cuda_is_available := false;
     get_available_providers := ["CPUExecutionProvider"];
     onnxruntime_version := "1.3.0";
     torch_version := "1.5.0";
     max_model_input_sizes := fun _ => Some (Some 512);
     os_path_exists := fun _ _ => false;
     os_mkdir := fun _ w => (Ok tt, w);
     time_stamp_now := fun _ => "20200601-120000";
     load_pretrained := fun _ _ _ w => (Ok ex_config, w);
     model_to_device := fun _ _ _ w => (Ok tt, w);
     torch_randint := fun _ _ _ _ w => (Ok tt, w);
     torch_timeit := fun _ _ _ _ n w => ex_timed [] n w;
     load_for_export := fun _ _ _ w => (Ok ex_config, w);
     torch_onnx_export := fun _ _ _ w => (Ok tt, w);
     InferenceSession := fun _ _ w => (Ok tt, w);
     validation_run := fun _ w => (Ok AllClose, w);
     optimize_model := fun _ _ _ _ lvl _ w => (Ok (ex_passes lvl false), w);
     save_model_to_file := fun _ _ w => (Ok tt, w);
     numpy_random_randint := fun _ _ _ w => (Ok tt, w);
     ort_timeit := fun _ _ n w => ex_timed [] n w |}.

(** The arguments of the concrete world with the GPU asked for. *)
Definition ex_args_gpu (engines : list string) : Args.t :=
  {| Args.models := ["gpt2"];
     Args.engines := engines;
     Args.cache_dir := "./cache_models";
     Args.use_gpu := true;
     Args.fp16 := false;
     Args.verbose := false;
     Args.optimize_onnx := false;
     Args.validate_onnx := false;
     Args.fusion_csv := None;
     Args.detail_csv := None;
     Args.result_csv := None;
     Args.input_counts := [1];
     Args.test_times := 3;
     Args.batch_sizes := [1];
     Args.sequence_lengths := [8] |}.

(** ** Vocabulary of the reports *)


(** [c in s], for a character. *)
Fixpoint has_char (c : ascii) (s : string) : bool :=
  match s with
  | EmptyString => false
  | String c' s' => bool_decide (c' = c) || has_char c s'
  end.

(** The latency [output_summary] leaves in the cell of batch size [b] and
    sequence length [s] of the row of a triple: that of the last record of
    the triple with this batch size and sequence length, or nothing. *)
Definition latest_latency (model_name : string) (input_count : Z)
  (engine_name : string) (b s : Z) (results : list Result.t) : string :=
  fold_left (fun cell r =>
               if matches model_name input_count engine_name r
                  && (Result.batch_size r =? b) && (Result.sequence_length r =? s)
               then lr_average_latency_ms (Result.stats r) else cell)
            results "".

(** The records of a run of the engines, when it returns some. *)
Definition engine_results {W} (run : Res (option (list Result.t)) * State W)
  : list Result.t :=
  match run.1 with
  | Ok (Some results) => results
  | _ => []
  end.

(** [acc'] is [acc] followed by at most [k] more elements. *)
Definition extends_by {B} (k : nat) (acc acc' : list B) : Prop :=
  exists new, acc' = acc ++ new /\ (length new <= k)%nat.

(** * Properties *)

(** ** The monad *)

Lemma bind_unfold {W A B} (m : M W A) (k : A -> M W B) (st : State W) :
  (m ≫= k) st =
  match m st with
  | (Ok a, st') => k a st'
  | (Raise e, st') => (Raise e, st')
  end.
Proof. reflexivity. Qed.

Lemma bind_Ok_inv {W A B} (m : M W A) (k : A -> M W B) st b st' :
  (m ≫= k) st = (Ok b, st') ->
  exists a st1, m st = (Ok a, st1) /\ k a st1 = (Ok b, st').
Proof.
  rewrite bind_unfold. destruct (m st) as [[a|e] st1]; [eauto | discriminate].
Qed.

Lemma bind_Ok {W A B} (m : M W A) (k : A -> M W B) st a st1 :
  m st = (Ok a, st1) -> (m ≫= k) st = k a st1.
Proof. intros E. rewrite bind_unfold, E. reflexivity. Qed.

Lemma bind_Raise {W A B} (m : M W A) (k : A -> M W B) st e st1 :
  m st = (Raise e, st1) -> (m ≫= k) st = (Raise e, st1).
Proof. intros E. rewrite bind_unfold, E. reflexivity. Qed.

Lemma mret_unfold {W A} (a : A) (st : State W) : (mret a : M W A) st = (Ok a, st).
Proof. reflexivity. Qed.

Lemma for_acc_cons {W A R} (x : A) xs (body : A -> R -> M W R) acc :
  for_acc (x :: xs) body acc = (body x acc ≫= for_acc xs body).
Proof. reflexivity. Qed.

(** A property of the accumulator that every iteration keeps holds when the
    loop ends. *)
Lemma for_acc_invariant {W A R} (P : R -> Prop) (body : A -> R -> M W R) xs :
  (forall x acc st acc' st',
      x ∈ xs -> P acc -> body x acc st = (Ok acc', st') -> P acc') ->
  forall acc st acc' st',
    P acc -> for_acc xs body acc st = (Ok acc', st') -> P acc'.
Proof.
  induction xs as [|x xs IH]; intros Hbody acc st acc' st' HP Hrun.
  - cbn in Hrun. injection Hrun as <- _. exact HP.
  - rewrite for_acc_cons in Hrun.
    apply bind_Ok_inv in Hrun as (acc1 & st1 & Hx & Hrest).
    eapply IH; [ | | exact Hrest].
    + intros; eapply Hbody; eauto. now apply list_elem_of_further.
    + eapply Hbody; eauto. apply list_elem_of_here.
Qed.

(** An exception in one iteration ends the loop: the iterations after it
    do not run. *)
Lemma for_acc_raise {W A R} (body : A -> R -> M W R) xs x rest acc st acc1 st1 e st2 :
  for_acc xs body acc st = (Ok acc1, st1) ->
  body x acc1 st1 = (Raise e, st2) ->
  for_acc (xs ++ x :: rest) body acc st = (Raise e, st2).
Proof.
  revert acc st. induction xs as [|y xs IH]; intros acc st Hpre Hx.
  - cbn in Hpre. injection Hpre as <- <-.
    cbn [app]. rewrite for_acc_cons. now apply bind_Raise.
  - rewrite for_acc_cons in Hpre.
    apply bind_Ok_inv in Hpre as (a & s & Hy & Hrest).
    cbn [app]. rewrite for_acc_cons, (bind_Ok _ _ _ _ _ Hy). now apply IH.
Qed.

Lemma for_acc_app {W A R} (body : A -> R -> M W R) xs ys acc st :
  for_acc (xs ++ ys) body acc st = (for_acc xs body acc ≫= for_acc ys body) st.
Proof.
  revert acc st. induction xs as [|x xs IH]; intros acc st.
  - reflexivity.
  - cbn [app]. rewrite !for_acc_cons, !bind_unfold.
    destruct (body x acc st) as [[a|e] st1]; [apply IH | reflexivity].
Qed.

Lemma try_except_Ok_inv {W A} (m : M W A) catches handler st a st' :
  try_except m catches handler st = (Ok a, st') ->
  m st = (Ok a, st')
  \/ exists e st1, m st = (Raise e, st1) /\ catches e = true
                   /\ handler e st1 = (Ok a, st').
Proof.
  unfold try_except. destruct (m st) as [[b|e] st1]; [now left|].
  destruct (catches e) eqn:E; [|discriminate]. right. eauto.
Qed.

(** ** The grid runners *)

Section Runners.

Context {W Session : Type} `{Numpy} (ext : Externals W Session).

Lemma exceeds_false_le max_length s m :
  exceeds max_length s = false -> max_length = Some m -> s <= m.
Proof. intros E ->. cbn in E. lia. Qed.

Lemma ort_emitted_rules use_gpu fp16 opt ms ics bs ss r :
  ort_emitted ext use_gpu fp16 opt ms ics bs ss r -> within_grid_rules ext r.
Proof.
  intros (m & ni & b & s & stat & mx & -> & _ & _ & _ & _ & Hb & Hmx & Hex).
  split; [exact Hb|]. cbn. intros m' Hm'. rewrite Hmx in Hm'.
  injection Hm' as ->. now apply (exceeds_false_le _ _ _ Hex).
Qed.

Lemma torch_emitted_rules use_gpu fp16 ts ms bs ss r :
  torch_emitted ext use_gpu fp16 ts ms bs ss r -> within_grid_rules ext r.
Proof.
  intros (m & b & s & stat & mx & -> & _ & _ & _ & Hb & Hmx & Hex).
  split; [exact Hb|]. cbn. intros m' Hm'. rewrite Hmx in Hm'.
  injection Hm' as ->. now apply (exceeds_false_le _ _ _ Hex).
Qed.

Lemma ort_cell_Ok use_gpu fp16 opt n model ni names vs mx sess b s results st rs st' :
  ort_cell ext use_gpu fp16 opt n model ni names vs mx sess b s results st
    = (Ok rs, st') ->
  rs = results
  \/ (exceeds mx s = false
      /\ exists statistics,
          rs = results ++ [ort_record ext use_gpu fp16 opt model ni b s statistics]).
Proof.
  unfold ort_cell. destruct (exceeds mx s) eqn:E.
  - intros [= <- _]. now left.
  - intros Hrun. right. split; [reflexivity|].
    apply bind_Ok_inv in Hrun as (inp & st1 & _ & Hrun).
    apply bind_Ok_inv in Hrun as ([] & st2 & _ & Hrun).
    apply bind_Ok_inv in Hrun as (rt & st3 & _ & Hrun).
    apply bind_Ok_inv in Hrun as (stat & st4 & _ & Hrun).
    apply bind_Ok_inv in Hrun as ([] & st5 & _ & Hrun).
    injection Hrun as <- _. now exists stat.
Qed.

Lemma torch_try_Ok fp16 ts n model use_gpu b s results st rs st' :
  torch_try ext fp16 ts n model (device_of use_gpu) b s results st = (Ok rs, st') ->
  exists statistics,
    rs = results ++ [torch_record ext use_gpu fp16 ts model b s statistics].
Proof.
  unfold torch_try. intros Hrun.
  apply bind_Ok_inv in Hrun as ([] & st1 & _ & Hrun).
  apply bind_Ok_inv in Hrun as (rt & st2 & _ & Hrun).
  apply bind_Ok_inv in Hrun as (stat & st3 & _ & Hrun).
  apply bind_Ok_inv in Hrun as ([] & st4 & _ & Hrun).
  injection Hrun as <- _. now exists stat.
Qed.

Lemma torch_cell_Ok fp16 ts n model use_gpu cfg mx b s results st rs st' :
  torch_cell ext fp16 ts n model (device_of use_gpu) cfg mx b s results st
    = (Ok rs, st') ->
  rs = results
  \/ (exceeds mx s = false
      /\ exists statistics,
          rs = results ++ [torch_record ext use_gpu fp16 ts model b s statistics]).
Proof.
  unfold torch_cell. destruct (exceeds mx s) eqn:E.
  - intros [= <- _]. now left.
  - intros Hrun.
    apply bind_Ok_inv in Hrun as ([] & st1 & _ & Hrun).
    apply bind_Ok_inv in Hrun as ([] & st2 & _ & Hrun).
    apply try_except_Ok_inv in Hrun as [Htry|(e & st3 & _ & _ & Hh)].
    + right. split; [reflexivity|]. now apply torch_try_Ok in Htry.
    + left. apply bind_Ok_inv in Hh as ([] & st4 & _ & Hh).
      apply bind_Ok_inv in Hh as ([] & st5 & _ & Hh).
      now injection Hh as <- _.
Qed.

Lemma export_onnx_model_max model cache names fp16 opt val st f v vs mx st' :
  export_onnx_model ext model cache names fp16 opt val st
    = (Ok (f, v, vs, mx), st') ->
  max_model_input_sizes ext model = Some mx.
Proof.
  unfold export_onnx_model. intros Hrun.
  apply bind_Ok_inv in Hrun as (cfg & st1 & _ & Hrun).
  apply bind_Ok_inv in Hrun as (ex & st2 & _ & Hrun).
  apply bind_Ok_inv in Hrun as ([] & st3 & _ & Hrun).
  apply bind_Ok_inv in Hrun as (v1 & st4 & _ & Hrun).
  apply bind_Ok_inv in Hrun as ([f2 v2] & st5 & _ & Hrun).
  apply bind_Ok_inv in Hrun as (mx' & st6 & Hmx & Hrun).
  injection Hrun as _ _ _ <- _.
  destruct (max_model_input_sizes ext model); [|discriminate].
  now injection Hmx as <- _.
Qed.

Section Grid.

Variables (use_gpu fp16 opt val : bool) (model_names : list string)
  (input_counts batch_sizes seqs : list Z) (n : Z) (cache : string).

Local Abbreviation ort_ok :=
  (ort_emitted ext use_gpu fp16 opt model_names input_counts batch_sizes seqs).

Lemma ort_batch_emitted model ni names vs mx sess b results st rs st' :
  model ∈ model_names -> ni ∈ input_counts -> b ∈ batch_sizes ->
  max_model_input_sizes ext model = Some mx ->
  Forall ort_ok results ->
  ort_batch ext use_gpu fp16 opt n seqs model ni names vs mx sess b results st
    = (Ok rs, st') ->
  Forall ort_ok rs.
Proof.
  intros Hm Hni Hb Hmx HP. unfold ort_batch.
  destruct (b <=? 0) eqn:Eb; [now intros [= <- _]|].
  apply Z.leb_gt in Eb.
  apply (for_acc_invariant (Forall ort_ok)); [|exact HP].
  intros s acc st0 acc' st0' Hs Hacc Hcell.
  apply ort_cell_Ok in Hcell as [->|(Hex & stat & ->)]; [exact Hacc|].
  apply Forall_app; split; [exact Hacc|]. constructor; [|constructor].
  exists model, ni, b, s, stat, mx. repeat split; assumption.
Qed.

Lemma ort_inputs_emitted model all ni results st rs st' :
  model ∈ model_names -> ni ∈ input_counts ->
  Forall ort_ok results ->
  ort_inputs ext use_gpu fp16 batch_sizes seqs n opt val cache model all ni
             results st = (Ok rs, st') ->
  Forall ort_ok rs.
Proof.
  intros Hm Hni HP. unfold ort_inputs.
  destruct (_ <? ni); [now intros [= <- _]|].
  intros Hrun.
  apply bind_Ok_inv in Hrun as ([] & st1 & _ & Hrun).
  apply bind_Ok_inv in Hrun as ([[[f v] vs] mx] & st2 & Hexp & Hrun).
  apply export_onnx_model_max in Hexp.
  destruct v; cbn [negb] in Hrun; [|now injection Hrun as <- _].
  apply bind_Ok_inv in Hrun as (sess & st3 & _ & Hrun).
  destruct sess as [sess|]; [|now injection Hrun as <- _].
  revert Hrun. apply (for_acc_invariant (Forall ort_ok)); [|exact HP].
  intros b acc st0 acc' st0' Hb Hacc. now apply ort_batch_emitted.
Qed.

Lemma run_onnxruntime_emitted verbose st rs st' :
  run_onnxruntime ext use_gpu model_names fp16 batch_sizes seqs n input_counts
                  opt val cache verbose st = (Ok rs, st') ->
  Forall ort_ok rs.
Proof.
  unfold run_onnxruntime. destruct (use_gpu && _).
  - intros Hrun. apply bind_Ok_inv in Hrun as ([] & st1 & _ & Hrun).
    injection Hrun as <- _. constructor.
  - intros Hrun. apply bind_Ok_inv in Hrun as ([] & st1 & _ & Hrun).
    revert Hrun. apply (for_acc_invariant (Forall ort_ok)); [|constructor].
    intros model acc st0 acc' st0' Hm Hacc. unfold ort_model.
    destruct (MODELS model) as [[[all ?] ?]|]; [|discriminate].
    apply (for_acc_invariant (Forall ort_ok)); [|exact Hacc].
    intros ni acc1 st2 acc2 st3 Hni Hacc1. now apply ort_inputs_emitted.
Qed.

Variable torchscript : bool.

Local Abbreviation torch_ok :=
  (torch_emitted ext use_gpu fp16 torchscript model_names batch_sizes seqs).

Lemma torch_batch_emitted model cfg mx b results st rs st' :
  model ∈ model_names -> b ∈ batch_sizes ->
  max_model_input_sizes ext model = Some mx ->
  Forall torch_ok results ->
  torch_batch ext use_gpu fp16 torchscript n seqs model cfg mx b results st
    = (Ok rs, st') ->
  Forall torch_ok rs.
Proof.
  intros Hm Hb Hmx HP. unfold torch_batch.
  destruct (b <=? 0) eqn:Eb; [now intros [= <- _]|].
  apply Z.leb_gt in Eb. intros Hrun.
  apply bind_Ok_inv in Hrun as ([] & st1 & _ & Hrun). revert Hrun.
  apply (for_acc_invariant (Forall torch_ok)); [|exact HP].
  intros s acc st0 acc' st0' Hs Hacc Hcell.
  apply torch_cell_Ok in Hcell as [->|(Hex & stat & ->)]; [exact Hacc|].
  apply Forall_app; split; [exact Hacc|]. constructor; [|constructor].
  exists model, b, s, stat, mx. repeat split; assumption.
Qed.

Lemma run_pytorch_emitted verbose st rs st' :
  run_pytorch ext use_gpu model_names fp16 batch_sizes seqs n torchscript cache
              verbose st = (Ok rs, st') ->
  Forall torch_ok rs.
Proof.
  unfold run_pytorch. destruct (use_gpu && _).
  - intros Hrun. apply bind_Ok_inv in Hrun as ([] & st1 & _ & Hrun).
    injection Hrun as <- _. constructor.
  - apply (for_acc_invariant (Forall torch_ok)); [|constructor].
    intros model acc st0 acc' st0' Hm Hacc. unfold torch_model. intros Hrun.
    apply bind_Ok_inv in Hrun as (cfg & st1 & _ & Hrun).
    apply bind_Ok_inv in Hrun as (mx & st2 & Hmx & Hrun).
    assert (max_model_input_sizes ext model = Some mx) as Hmx'.
    { destruct (max_model_input_sizes ext model); [|discriminate].
      now injection Hmx as <- _. }
    apply bind_Ok_inv in Hrun as ([] & st3 & _ & Hrun).
    apply bind_Ok_inv in Hrun as ([] & st4 & _ & Hrun). revert Hrun.
    apply (for_acc_invariant (Forall torch_ok)); [|exact Hacc].
    intros b acc1 st5 acc2 st6 Hb Hacc1. now apply torch_batch_emitted.
Qed.

End Grid.
End Runners.

(** ** Skip rules *)

(** C4. Every record either runner returns has a positive batch size and,
    when the model's maximum input length is known, a sequence length within
    it; a batch size that is not positive and a sequence length past a known
    maximum leave the results and the state as they were. *)
Theorem C4_records_respect_skip_rules {W Session : Type} `{Numpy}
  (ext : Externals W Session) (use_gpu fp16 opt val torchscript verbose : bool)
  (model_names : list string) (input_counts batch_sizes seqs : list Z) (n : Z)
  (cache : string) (st : State W) :
  (forall rs st',
      run_onnxruntime ext use_gpu model_names fp16 batch_sizes seqs n
        input_counts opt val cache verbose st = (Ok rs, st') ->
      Forall (within_grid_rules ext) rs)
  /\ (forall rs st',
         run_pytorch ext use_gpu model_names fp16 batch_sizes seqs n torchscript
           cache verbose st = (Ok rs, st') ->
         Forall (within_grid_rules ext) rs)
  /\ (forall model ni names vs mx sess b results,
         b <= 0 ->
         ort_batch ext use_gpu fp16 opt n seqs model ni names vs mx sess b
           results st = (Ok results, st))
  /\ (forall model cfg mx b results,
         b <= 0 ->
         torch_batch ext use_gpu fp16 torchscript n seqs model cfg mx b
           results st = (Ok results, st))
  /\ (forall model ni names vs mx sess b s results,
         mx < s ->
         ort_cell ext use_gpu fp16 opt n model ni names vs (Some mx) sess b s
           results st = (Ok results, st))
  /\ (forall model dev cfg mx b s results,
         mx < s ->
         torch_cell ext fp16 torchscript n model dev cfg (Some mx) b s
           results st = (Ok results, st)).
Proof.
  repeat split.
  - intros rs st' Hrun. apply run_onnxruntime_emitted in Hrun.
    eapply Forall_impl; [exact Hrun|]. intros r. apply ort_emitted_rules.
  - intros rs st' Hrun. apply run_pytorch_emitted in Hrun.
    eapply Forall_impl; [exact Hrun|]. intros r. apply torch_emitted_rules.
  - intros * Hb. unfold ort_batch. now rewrite (proj2 (Z.leb_le b 0) Hb).
  - intros * Hb. unfold torch_batch. now rewrite (proj2 (Z.leb_le b 0) Hb).
  - intros * Hs. unfold ort_cell, exceeds. now rewrite (proj2 (Z.ltb_lt mx s) Hs).
  - intros * Hs. unfold torch_cell, exceeds. now rewrite (proj2 (Z.ltb_lt mx s) Hs).
Qed.

(** On batch sizes 0 and 1 and sequence lengths 8 and 1024, with a limit
    of 512, the run returns one record, for batch size 1 and length 8. *)
Lemma C4_witness :
  exists r,
    (ex_ort_run [] [0; 1] [8; 1024]).1 = Ok [r]
    /\ Result.batch_size r = 1 /\ Result.sequence_length r = 8
    /\ Forall (within_grid_rules (ex_ext [] false)) [r].
Proof.
  eexists. split; [vm_compute; reflexivity|].
  split; [reflexivity|]. split; [reflexivity|].
  eapply (proj1 (C4_records_respect_skip_rules (H := numpy_reference)
                   (ex_ext [] false) false false false false false false
                   ["gpt2"] [1] [0; 1] [8; 1024] 3 "./cache_models" ex_state)).
  vm_compute. reflexivity.
Defined.

(** ** A failing timed run *)

Section Failures.

Context {W Session : Type} `{Numpy} (ext : Externals W Session).

Lemma torch_cell_sampling_raises fp16 ts n model dev cfg mx b s results st w1 e w2 :
  exceeds mx s = false ->
  torch_randint ext (vocab_size cfg - 1) b s dev (world st) = (Ok tt, w1) ->
  torch_timeit ext model ts b s n w1 = (Raise e, w2) ->
  torch_cell ext fp16 ts n model dev cfg mx b s results st =
  if is_RuntimeError e then
    (Ok results,
     Build_State w2
       (trace st ++ run_message "PyTorch" model b s :: tracing_message ts b s
                 ++ [Log ERROR (ExceptionMsg e); CudaEmptyCache])
       (optimize_model_statistics st) (csv st))
  else
    (Raise e,
     Build_State w2
       (trace st ++ run_message "PyTorch" model b s :: tracing_message ts b s)
       (optimize_model_statistics st) (csv st)).
Proof.
  intros Hex Hrand Htime. unfold torch_cell. rewrite Hex.
  unfold torch_try, try_except, mbind, M_bind, bind, logger, emit, call. cbn.
  rewrite Hrand. destruct ts; cbn; rewrite Htime; destruct (is_RuntimeError e); cbn;
    rewrite <- ?app_assoc; reflexivity.
Qed.

Lemma ort_cell_sampling_raises use_gpu fp16 opt n model ni names vs mx sess b s
  results st w1 e w2 :
  exceeds mx s = false ->
  numpy_random_randint ext (vs - 1) b s (world st) = (Ok tt, w1) ->
  ort_timeit ext sess (onnxruntime_inputs vs b s names) n w1 = (Raise e, w2) ->
  ort_cell ext use_gpu fp16 opt n model ni names vs mx sess b s results st =
  (Raise e,
   Build_State w2 (trace st ++ [run_message "onnxruntime" model b s])
     (optimize_model_statistics st) (csv st)).
Proof.
  intros Hex Hrand Htime. unfold ort_cell. rewrite Hex.
  unfold create_onnxruntime_input, mbind, M_bind, bind, logger, emit, call. cbn.
  rewrite Hrand. cbn. rewrite Htime. reflexivity.
Qed.

Lemma main_onnxruntime_catches args results st e st' :
  "onnxruntime" ∈ Args.engines args ->
  run_onnxruntime ext (Args.use_gpu args) (Args.models args)
    (Args.fp16 args) (Args.batch_sizes args) (Args.sequence_lengths args)
    (Args.test_times args) (Args.input_counts args) (Args.optimize_onnx args)
    (Args.validate_onnx args) (Args.cache_dir args) (Args.verbose args) st
    = (Raise e, st') ->
  main_onnxruntime ext args results st =
  (Ok results, with_events [Log ERROR (TextExc "Exception" e)] st').
Proof.
  intros Hin Hrun. unfold main_onnxruntime.
  rewrite bool_decide_eq_true_2 by exact Hin.
  unfold try_except. rewrite (bind_Raise _ _ _ _ _ Hrun). reflexivity.
Qed.

End Failures.

(** C1, as the code has it. In [run_pytorch] a [RuntimeError] of the timed
    run is logged, [torch.cuda.empty_cache] runs, no record is added and the
    loop goes on with the next sequence length; any other exception leaves
    the loop. In [run_onnxruntime] the timed run is unguarded: its exception
    ends the loop over the sequence lengths, and when it leaves
    [run_onnxruntime], [main] logs it and goes on with the results it had
    before that engine. *)
Theorem C1_sampling_failure {W Session : Type} `{Numpy}
  (ext : Externals W Session) :
  (forall fp16 ts n model dev cfg mx b s rest results st w1 e w2,
      exceeds mx s = false ->
      torch_randint ext (vocab_size cfg - 1) b s dev (world st) = (Ok tt, w1) ->
      torch_timeit ext model ts b s n w1 = (Raise e, w2) ->
      is_RuntimeError e = true ->
      for_acc (s :: rest) (torch_cell ext fp16 ts n model dev cfg mx b) results st
      = for_acc rest (torch_cell ext fp16 ts n model dev cfg mx b) results
          (Build_State w2
             (trace st ++ run_message "PyTorch" model b s :: tracing_message ts b s
                       ++ [Log ERROR (ExceptionMsg e); CudaEmptyCache])
             (optimize_model_statistics st) (csv st)))
  /\ (forall fp16 ts n model dev cfg mx b s rest results st w1 e w2,
         exceeds mx s = false ->
         torch_randint ext (vocab_size cfg - 1) b s dev (world st) = (Ok tt, w1) ->
         torch_timeit ext model ts b s n w1 = (Raise e, w2) ->
         is_RuntimeError e = false ->
         for_acc (s :: rest) (torch_cell ext fp16 ts n model dev cfg mx b) results st
         = (Raise e,
            Build_State w2
              (trace st ++ run_message "PyTorch" model b s :: tracing_message ts b s)
              (optimize_model_statistics st) (csv st)))
  /\ (forall use_gpu fp16 opt n model ni names vs mx sess b s rest results st w1 e w2,
         exceeds mx s = false ->
         numpy_random_randint ext (vs - 1) b s (world st) = (Ok tt, w1) ->
         ort_timeit ext sess (onnxruntime_inputs vs b s names) n w1 = (Raise e, w2) ->
         for_acc (s :: rest)
           (ort_cell ext use_gpu fp16 opt n model ni names vs mx sess b) results st
         = (Raise e,
            Build_State w2 (trace st ++ [run_message "onnxruntime" model b s])
              (optimize_model_statistics st) (csv st)))
  /\ (forall args results st e st',
         "onnxruntime" ∈ Args.engines args ->
         run_onnxruntime ext (Args.use_gpu args) (Args.models args)
           (Args.fp16 args) (Args.batch_sizes args) (Args.sequence_lengths args)
           (Args.test_times args) (Args.input_counts args)
           (Args.optimize_onnx args) (Args.validate_onnx args)
           (Args.cache_dir args) (Args.verbose args) st = (Raise e, st') ->
         main_onnxruntime ext args results st
         = (Ok results, with_events [Log ERROR (TextExc "Exception" e)] st')).
Proof.
  repeat split.
  - intros * Hex Hrand Htime He. rewrite for_acc_cons.
    erewrite bind_Ok; [reflexivity|].
    rewrite (torch_cell_sampling_raises ext _ _ _ _ _ _ _ _ _ _ _ _ _ _ Hex Hrand Htime).
    now rewrite He.
  - intros * Hex Hrand Htime He. rewrite for_acc_cons.
    apply bind_Raise.
    rewrite (torch_cell_sampling_raises ext _ _ _ _ _ _ _ _ _ _ _ _ _ _ Hex Hrand Htime).
    now rewrite He.
  - intros * Hex Hrand Htime. rewrite for_acc_cons. apply bind_Raise.
    now apply ort_cell_sampling_raises with (w1 := w1).
  - intros *. apply main_onnxruntime_catches.
Qed.

(** In the concrete world, PyTorch's first timed run raising a
    [RuntimeError]: the loop over lengths 8 and 32 goes on with length 32. *)
Lemma C1_witness :
  for_acc [8; 32]
    (torch_cell (H := numpy_reference) (ex_ext ex_failing_outcomes false)
       false false 3 "gpt2" "cpu" ex_config (Some 512) 1) [] ex_state
  = for_acc [32]
      (torch_cell (H := numpy_reference) (ex_ext ex_failing_outcomes false)
         false false 3 "gpt2" "cpu" ex_config (Some 512) 1) []
      (Build_State 1%nat
         [run_message "PyTorch" "gpt2" 1 8;
          Log ERROR (ExceptionMsg RuntimeError); CudaEmptyCache] [] []).
Proof.
  apply (proj1 (C1_sampling_failure (H := numpy_reference)
                  (ex_ext ex_failing_outcomes false))
           false false 3 "gpt2" "cpu" ex_config (Some 512) 1 8 [32] [] ex_state
           0%nat RuntimeError 1%nat); reflexivity.
Defined.

(** C1 fails for [run_onnxruntime]: the first timed run raising ends the
    whole run with that exception after a single timed run; the cell of
    length 32 is never tried, although alone it yields a record. *)
Lemma C1_onnxruntime_aborts :
  (ex_ort_run ex_failing_outcomes [1] [8; 32]).1 = Raise RuntimeError
  /\ world (ex_ort_run ex_failing_outcomes [1] [8; 32]).2 = 1%nat
  /\ length (match (ex_ort_run [] [1] [32]).1 with Ok rs => rs | Raise _ => [] end)
     = 1%nat.
Proof. vm_compute. repeat split. Qed.

(** ** The engines of main *)

Section MainEngines.

Context {W Session : Type} `{Numpy} (ext : Externals W Session).

Lemma main_pytorch_emitted args st rs st' :
  main_pytorch ext args st = (Ok (Some rs), st') ->
  Forall (emitted_by_main ext args) rs.
Proof.
  unfold main_pytorch.
  destruct (bool_decide ("torch" ∈ _)) eqn:Et;
    destruct (bool_decide ("torchscript" ∈ _)) eqn:Es; cbn [orb];
    try (intros [= <- _]; constructor);
    (destruct (is_torch_available ext); cbn [negb];
     [|intros Hrun; apply bind_Ok_inv in Hrun as ([] & ? & _ & Hrun); discriminate]);
    intros Hrun;
    apply bind_Ok_inv in Hrun as ([] & st1 & _ & Hrun);
    apply bind_Ok_inv in Hrun as (r1 & st2 & H1 & Hrun);
    apply bind_Ok_inv in Hrun as (r2 & st3 & H2 & Hrun);
    injection Hrun as <- _.
  - apply run_pytorch_emitted in H1.
    apply bind_Ok_inv in H2 as (more & st4 & H2 & Hret). injection Hret as <- _.
    apply run_pytorch_emitted in H2.
    apply bool_decide_eq_true in Et, Es.
    apply Forall_app; split; (eapply Forall_impl; [eassumption|]);
      intros r Hr; right; [exists true | exists false]; auto.
  - injection H1 as <- _.
    apply bind_Ok_inv in H2 as (more & st4 & H2 & Hret). injection Hret as <- _.
    apply run_pytorch_emitted in H2. apply bool_decide_eq_true in Et.
    eapply Forall_impl; [exact H2|]. intros r Hr; right; exists false; auto.
  - injection H2 as <- _. apply run_pytorch_emitted in H1.
    apply bool_decide_eq_true in Es.
    eapply Forall_impl; [exact H1|]. intros r Hr; right; exists true; auto.
Qed.

Lemma main_onnxruntime_emitted args results st rs st' :
  Forall (emitted_by_main ext args) results ->
  main_onnxruntime ext args results st = (Ok rs, st') ->
  Forall (emitted_by_main ext args) rs.
Proof.
  intros HP. unfold main_onnxruntime.
  destruct (bool_decide ("onnxruntime" ∈ _)) eqn:Eo; [|now intros [= <- _]].
  apply bool_decide_eq_true in Eo. intros Hrun.
  apply try_except_Ok_inv in Hrun as [Hrun|(e & st1 & _ & _ & Hh)].
  - apply bind_Ok_inv in Hrun as (more & st1 & Hrun & Hret). injection Hret as <- _.
    apply run_onnxruntime_emitted in Hrun.
    apply Forall_app; split; [exact HP|].
    eapply Forall_impl; [exact Hrun|]. intros r Hr. left. auto.
  - apply bind_Ok_inv in Hh as ([] & st2 & _ & Hh). now injection Hh as <- _.
Qed.

Lemma main_engines_emitted args st rs st' :
  main_engines ext args st = (Ok (Some rs), st') ->
  Forall (emitted_by_main ext args) rs.
Proof.
  unfold main_engines. intros Hrun.
  apply bind_Ok_inv in Hrun as ([r0|] & st1 & H0 & Hrun); [|discriminate].
  apply bind_Ok_inv in Hrun as (r1 & st2 & H1 & Hrun). injection Hrun as <- _.
  apply main_pytorch_emitted in H0. eapply main_onnxruntime_emitted; eauto.
Qed.

Lemma emitted_by_main_tags args r :
  emitted_by_main ext args r ->
  Result.fp16 r = Args.fp16 args /\ Result.device r = device_of (Args.use_gpu args).
Proof.
  intros [(_ & (m & ni & b & s & stat & mx & -> & _))
         |(ts & _ & (m & b & s & stat & mx & -> & _))]; split; reflexivity.
Qed.

Lemma set_fp16_same args : Args.fp16 args = false -> Args.set_fp16 false args = args.
Proof. destruct args; cbn. now intros ->. Qed.

(** C10. Without the GPU flag [main] behaves as on the same arguments with
    fp16 off, after the warning when fp16 was asked for; every record the
    engines then return carries fp16 = False and the device cpu. *)
Theorem C10_fp16_coerced_on_cpu (args : Args.t) (st : State W) :
  Args.use_gpu args = false ->
  main ext args st
  = main ext (Args.set_fp16 false args)
      (if Args.fp16 args
       then with_events [Log WARNING (Text "--fp16 is for GPU only")] st
       else st)
  /\ forall st1 rs st2,
      main_engines ext (Args.set_fp16 false args) st1 = (Ok (Some rs), st2) ->
      Forall (fun r => Result.fp16 r = false /\ Result.device r = "cpu") rs.
Proof.
  intros Hgpu. split.
  - unfold main, coerce_fp16. rewrite !bind_unfold. cbn [Args.set_fp16 Args.fp16 Args.use_gpu].
    rewrite Hgpu. cbn [negb andb]. destruct (Args.fp16 args) eqn:E.
    + reflexivity.
    + cbn. rewrite (set_fp16_same _ E). reflexivity.
  - intros st1 rs st2 Hrun. apply main_engines_emitted in Hrun.
    eapply Forall_impl; [exact Hrun|]. intros r Hr.
    apply emitted_by_main_tags in Hr as [-> ->]. cbn. now rewrite Hgpu.
Qed.
End MainEngines.

(** fp16 asked for on a CPU run of the concrete world. *)
Lemma C10_witness :
  main (H := numpy_reference) (ex_ext [] false)
    (ex_args ["onnxruntime"] true false [1] [8]) ex_state
  = main (H := numpy_reference) (ex_ext [] false)
      (Args.set_fp16 false (ex_args ["onnxruntime"] true false [1] [8]))
      (with_events [Log WARNING (Text "--fp16 is for GPU only")] ex_state)
  /\ forall st1 rs st2,
      main_engines (H := numpy_reference) (ex_ext [] false)
        (Args.set_fp16 false (ex_args ["onnxruntime"] true false [1] [8])) st1
      = (Ok (Some rs), st2) ->
      Forall (fun r => Result.fp16 r = false /\ Result.device r = "cpu") rs.
Proof.
  apply (C10_fp16_coerced_on_cpu (H := numpy_reference) (ex_ext [] false)
           (ex_args ["onnxruntime"] true false [1] [8]) ex_state).
  reflexivity.
Defined.

(** ** The fusion report *)

Lemma od_get_app {V} (prefix suffix : odict V) key e :
  key ∉ od_keys prefix ->
  od_get (prefix ++ (key, e) :: suffix) key = Some e.
Proof.
  induction prefix as [|[k v] p IH]; cbn; intros Hk.
  - now rewrite bool_decide_eq_true_2.
  - apply not_elem_of_cons in Hk as [Hne Hk].
    rewrite bool_decide_eq_false_2 by congruence. now apply IH.
Qed.

Lemma od_set_app {V} (prefix suffix : odict V) key e e' :
  key ∉ od_keys prefix ->
  od_set (prefix ++ (key, e) :: suffix) key e' = prefix ++ (key, e') :: suffix.
Proof.
  induction prefix as [|[k v] p IH]; cbn; intros Hk.
  - now rewrite bool_decide_eq_true_2.
  - apply not_elem_of_cons in Hk as [Hne Hk].
    rewrite bool_decide_eq_false_2 by congruence. now rewrite IH.
Qed.

Lemma od_keys_set {V} (d : odict V) key v k :
  k ∈ od_keys (od_set d key v) <-> k = key \/ k ∈ od_keys d.
Proof.
  induction d as [|[k' v'] d IH]; cbn.
  - rewrite list_elem_of_singleton. split; [auto|]. intros [->|Hk]; [reflexivity|].
    now apply elem_of_nil in Hk.
  - destruct (bool_decide (k' = key)) eqn:E; cbn; rewrite !elem_of_cons.
    + apply bool_decide_eq_true in E. subst. tauto.
    + rewrite IH. tauto.
Qed.

Lemma dictwriter_cells_Ok fieldnames (l : odict PyVal) :
  (forall k, k ∈ od_keys l -> k ∈ fieldnames) ->
  dictwriter_cells fieldnames (list_to_map l)
  = Ok (map (fun k => default "" (py_str <$> (list_to_map l : gmap string PyVal) !! k))
            fieldnames).
Proof.
  intros Hk. unfold dictwriter_cells. rewrite bool_decide_eq_true_2; [reflexivity|].
  intros k v Hkv. apply elem_of_list_to_map_2 in Hkv. apply Hk.
  unfold od_keys. apply list_elem_of_fmap. now exists (k, v).
Qed.

Section Fusion.

Context {W : Type}.

Lemma fusion_loop file cols suffix : forall prefix (st : State W),
  optimize_model_statistics st = prefix ++ suffix ->
  NoDup (od_keys (prefix ++ suffix)) ->
  (forall key entry k, (key, entry) ∈ suffix -> k ∈ od_keys entry -> k ∈ cols) ->
  "model_filename" ∈ cols ->
  for_each (od_keys suffix) (fusion_write_row file cols) st
  = (Ok tt,
     Build_State (world st) (trace st)
       (prefix ++ map (fun ke => (ke.1, tagged ke.1 ke.2)) suffix)
       (csv st ++ map (fun ke => (file, fusion_cells cols ke.1 ke.2)) suffix)).
Proof.
  induction suffix as [|[key entry] suffix IH]; intros prefix st Hst Hnd Hcols Hmf.
  - cbn. rewrite !app_nil_r. rewrite app_nil_r in Hst. rewrite <- Hst.
    now destruct st.
  - unfold for_each.
    change (od_keys ((key, entry) :: suffix)) with (key :: od_keys suffix).
    rewrite for_acc_cons.
    assert (key ∉ od_keys prefix) as Hkey.
    { unfold od_keys in Hnd. rewrite map_app in Hnd. cbn in Hnd.
      apply NoDup_app in Hnd as (_ & Hd & _). intros Hin. apply (Hd _ Hin).
      apply list_elem_of_here. }
    assert (fusion_write_row file cols key st
            = (Ok tt, Build_State (world st) (trace st)
                        (prefix ++ (key, tagged key entry) :: suffix)
                        (csv st ++ [(file, fusion_cells cols key entry)]))) as Hrow.
    { unfold fusion_write_row, get_statistics. rewrite bind_unfold. rewrite Hst.
      rewrite od_get_app by exact Hkey. rewrite od_set_app by exact Hkey.
      unfold writerow. rewrite !bind_unfold. cbn [put_statistics].
      rewrite dictwriter_cells_Ok; [reflexivity|].
      intros k Hk. apply od_keys_set in Hk as [->|Hk]; [exact Hmf|].
      eapply Hcols; [apply list_elem_of_here|exact Hk]. }
    erewrite bind_Ok by exact Hrow. cbv beta.
    specialize (IH (prefix ++ [(key, tagged key entry)])
                  (Build_State (world st) (trace st)
                        (prefix ++ (key, tagged key entry) :: suffix)
                        (csv st ++ [(file, fusion_cells cols key entry)]))).
    unfold for_each in IH. rewrite IH.
    + cbn. rewrite <- !app_assoc. reflexivity.
    + cbn. now rewrite <- app_assoc.
    + rewrite <- app_assoc. cbn. unfold od_keys in *. rewrite !map_app in *. cbn in *. exact Hnd.
    + intros k e k' Hin Hk. eapply Hcols; [apply list_elem_of_further, Hin|exact Hk].
    + exact Hmf.
Qed.
End Fusion.

Section Growth.
Context {W : Type} (P : CsvLine -> Prop).











End Growth.

Section Report.
Context {W : Type}.


Lemma output_fusion_statistics_Ok file key0 first rest (st : State W) :
  let d := (key0, first) :: rest in
  optimize_model_statistics st = d ->
  NoDup (od_keys d) ->
  (forall key entry k, (key, entry) ∈ d -> k ∈ od_keys entry -> k ∈ od_keys first) ->
  output_fusion_statistics file st
  = (Ok tt,
     Build_State (world st)
       (trace st ++ [Log INFO (Text ("Fusion statistics is saved to csv file: " +:+ file))])
       (map (fun ke => (ke.1, tagged ke.1 ke.2)) d)
       (csv st ++ (file, fusion_columns first)
                  :: map (fun ke => (file, fusion_cells (fusion_columns first) ke.1 ke.2)) d)).
Proof.
  intros d Hst Hnd Hkeys. unfold output_fusion_statistics. rewrite bind_unfold.
  cbn [get_statistics]. rewrite Hst. unfold d at 1. fold d.
  unfold writeheader. rewrite bind_unfold. cbn [csv_append].
  rewrite bind_unfold.
  rewrite (fusion_loop file (fusion_columns first) d []).
  - cbn. rewrite <- app_assoc. reflexivity.
  - exact Hst.
  - exact Hnd.
  - intros key entry k Hin Hk. apply list_elem_of_further. eapply Hkeys; eauto.
  - apply list_elem_of_here.
Qed.
End Report.

Section ReportStage.

Context {W Session : Type} (ext : Externals W Session).

Lemma main_report_unfold args results (st : State W) :
  main_report ext args results st
  = ((if bool_decide (optimize_model_statistics st ≠ [])
      then output_fusion_statistics (fusion_file ext args st)
      else mret tt);;
     report_results args results (detail_file ext args st)
                    (summary_file ext args st)) st.
Proof.
  reflexivity.
Qed.


End ReportStage.

(** C5, as the code has it. [main] writes the fusion report exactly when
    the statistics dictionary is not empty. Its columns are model_filename
    and the pass names of the first recorded model. When the pass names of
    every recorded model are among those of the first, these are the pass
    names of all recorded models, and the report has one row for each
    recorded model file, in the order of recording. *)
Theorem C5_fusion_statistics_report {W Session : Type}
  (ext : Externals W Session) (args : Args.t) (results : list Result.t)
  (st : State W) :
  (optimize_model_statistics st = [] ->
   main_report ext args results st
   = report_results args results (detail_file ext args st)
       (summary_file ext args st) st)
  /\ (optimize_model_statistics st <> [] ->
      main_report ext args results st
      = (output_fusion_statistics (fusion_file ext args st);;
         report_results args results (detail_file ext args st)
           (summary_file ext args st)) st)
  /\ (forall file key0 first rest,
         optimize_model_statistics st = (key0, first) :: rest ->
         NoDup (od_keys ((key0, first) :: rest)) ->
         (forall key entry k,
             (key, entry) ∈ (key0, first) :: rest ->
             k ∈ od_keys entry -> k ∈ od_keys first) ->
         output_fusion_statistics file st
         = (Ok tt,
            Build_State (world st)
              (trace st ++ [Log INFO (Text ("Fusion statistics is saved to csv file: "
                                            +:+ file))])
              (map (fun ke => (ke.1, tagged ke.1 ke.2)) ((key0, first) :: rest))
              (csv st ++ (file, fusion_columns first)
                 :: map (fun ke => (file, fusion_cells (fusion_columns first) ke.1 ke.2))
                        ((key0, first) :: rest)))
         /\ forall k,
             k ∈ od_keys first
             <-> exists key entry,
                 (key, entry) ∈ (key0, first) :: rest /\ k ∈ od_keys entry).
Proof.
  split; [|split].
  - intros Hst. rewrite main_report_unfold.
    rewrite bool_decide_eq_false_2 by (now intros Hne). reflexivity.
  - intros Hst. rewrite main_report_unfold.
    now rewrite bool_decide_eq_true_2.
  - intros file key0 first rest Hst Hnd Hkeys. split.
    + now apply output_fusion_statistics_Ok.
    + intros k. split.
      * intros Hk. exists key0, first. split; [apply list_elem_of_here|exact Hk].
      * intros (key & entry & Hin & Hk). eapply Hkeys; eauto.
Qed.

(** Two recorded models with the same two passes: a header and two rows. *)
Lemma C5_witness :
  output_fusion_statistics "fusion.csv" ex_recorded_state
  = (Ok tt,
     Build_State 0%nat
       [Log INFO (Text "Fusion statistics is saved to csv file: fusion.csv")]
       [ ("gpt2_1.onnx",
          [("Attention", VInt 12); ("Gelu", VInt 12);
           ("model_filename", VStr "gpt2_1.onnx")]);
         ("gpt2_1_fp32.onnx",
          [("Attention", VInt 12); ("Gelu", VInt 0);
           ("model_filename", VStr "gpt2_1_fp32.onnx")]) ]
       [ ("fusion.csv", ["model_filename"; "Attention"; "Gelu"]);
         ("fusion.csv", ["gpt2_1.onnx"; "12"; "12"]);
         ("fusion.csv", ["gpt2_1_fp32.onnx"; "12"; "0"]) ]).
Proof.
  refine (proj1 (proj2 (proj2 (C5_fusion_statistics_report
            (ex_ext [] false) (ex_args [] false false [] []) [] ex_recorded_state))
            "fusion.csv" "gpt2_1.onnx" _ _ eq_refl _ _)).
  - repeat constructor; cbn; rewrite ?elem_of_cons, ?elem_of_nil; intuition discriminate.
  - intros key entry k Hin Hk.
    apply elem_of_cons in Hin as [Hin|Hin]; [injection Hin as -> ->; exact Hk|].
    apply list_elem_of_singleton in Hin. injection Hin as -> ->. exact Hk.
Defined.

(** C5 fails when a later model has a pass of its own: FastGelu, recorded
    for the optimized model, is no column, and the row of that model raises
    [ValueError] after the first row was written. *)
Lemma C5_columns_are_the_first_models :
  ex_main_extra_pass.1 = Raise ValueError
  /\ csv ex_main_extra_pass.2
     = [ ("benchmark_fusion_20200601-120000.csv",
          ["model_filename"; "Attention"; "Gelu"]);
         ("benchmark_fusion_20200601-120000.csv", ["gpt2_1.onnx"; "12"; "12"]) ]
  /\ od_keys <$> od_get (optimize_model_statistics ex_main_extra_pass.2)
                        "gpt2_1_fp32.onnx"
     = Some ["Attention"; "Gelu"; "FastGelu"; "model_filename"].
Proof. vm_compute. repeat split. Qed.



(** ** The summary report *)

Lemma py_eq_refl a : py_eq a a = true.
Proof.
  destruct a as [s|z|[]]; cbn; try reflexivity.
  - now apply bool_decide_eq_true.
  - apply Z.eqb_refl.
Qed.

Lemma py_eq_sym a b : py_eq a b = py_eq b a.
Proof.
  destruct a as [s|x|x], b as [t|y|y]; cbn; try reflexivity.
  - apply bool_decide_ext. split; congruence.
  - apply Z.eqb_sym.
  - now destruct x, y.
Qed.

Lemma py_eq_trans a b c : py_eq a b = true -> py_eq b c = true -> py_eq a c = true.
Proof.
  destruct a as [s|x|x], b as [t|y|y], c as [u|z|z]; cbn; try discriminate;
    rewrite ?bool_decide_eq_true, ?Z.eqb_eq;
    try (intros; subst; reflexivity); try congruence.
  all: try (destruct x, y; cbn; congruence).
  all: try (destruct x, z; cbn; intros; try reflexivity; lia).
  all: try (destruct y, z; cbn; intros; try reflexivity; lia).
  all: try (destruct y; destruct x; cbn; intros; subst; try reflexivity; try discriminate; lia).
Qed.

Lemma forallb_zip_refl (l : list PyVal) :
  forallb (fun ab => py_eq ab.1 ab.2) (zip l l) = true.
Proof. induction l; cbn; [reflexivity|]. now rewrite py_eq_refl. Qed.

Lemma agree_refl r : agree r r = true.
Proof. apply forallb_zip_refl. Qed.

Lemma forallb_zip_sym (l1 l2 : list PyVal) :
  forallb (fun ab => py_eq ab.1 ab.2) (zip l1 l2)
  = forallb (fun ab => py_eq ab.1 ab.2) (zip l2 l1).
Proof.
  revert l2. induction l1 as [|a l1 IH]; intros [|b l2]; cbn; try reflexivity.
  now rewrite py_eq_sym, IH.
Qed.

Lemma agree_sym r1 r2 : agree r1 r2 = agree r2 r1.
Proof. apply forallb_zip_sym. Qed.

Lemma agree_trans r1 r2 r3 :
  agree r1 r2 = true -> agree r2 r3 = true -> agree r1 r3 = true.
Proof.
  unfold agree, identifying. cbn [zip zip_with forallb fst snd].
  rewrite !andb_true_iff.
  intros (A1 & A2 & A3 & A4 & A5 & A6 & A7 & _) (B1 & B2 & B3 & B4 & B5 & B6 & B7 & _).
  repeat split; eapply py_eq_trans; eassumption.
Qed.

Lemma result_headers_lookups r :
  map (fun k => result_headers r !! k) header_names = map Some (identifying r).
Proof. reflexivity. Qed.

Lemma result_headers_keys r k :
  is_Some (result_headers r !! k) -> k ∈ header_names.
Proof.
  intros [v Hv]. unfold result_headers in Hv.
  apply elem_of_list_to_map_2 in Hv. apply list_elem_of_filter in Hv as [Hk _].
  exact Hk.
Qed.

Lemma data_name_not_header b s : data_name b s ∉ header_names.
Proof.
  unfold data_name, header_names. cbn.
  rewrite !not_elem_of_cons. repeat split; try discriminate. apply not_elem_of_nil.
Qed.

Lemma data_names_not_header args k :
  k ∈ summary_data_names args -> k ∉ header_names.
Proof.
  unfold summary_data_names. rewrite list_elem_of_In, in_flat_map.
  intros (b & _ & Hk). apply in_map_iff in Hk as (s & <- & _).
  apply data_name_not_header.
Qed.

(** The assertion loop, when both dictionaries have the keys. *)
Lemma assert_headers_spec ks (row headers : gmap string PyVal) vs ws :
  map (fun k => row !! k) ks = map Some vs ->
  map (fun k => headers !! k) ks = map Some ws ->
  assert_headers ks row headers
  = if forallb (fun ab => py_eq ab.1 ab.2) (zip vs ws) then Ok tt
    else Raise AssertionError.
Proof.
  revert vs ws. induction ks as [|k ks IH]; intros [|v vs] [|w ws]; cbn;
    try discriminate; try reflexivity.
  intros [= Hv Hvs] [= Hw Hws]. rewrite Hv, Hw.
  destruct (py_eq v w); cbn; [now apply IH|reflexivity].
Qed.

Section Row.
Variables (data_names : list string) (model : string) (ic : Z) (en : string).

Local Abbreviation step := (summary_update data_names model ic en).

Lemma row_of_nonempty r0 row : row_of r0 row -> row ≠ ∅.
Proof.
  intros Hrow ->. unfold row_of in Hrow. cbn in Hrow. discriminate.
Qed.

Lemma row_of_insert r0 row b s v :
  row_of r0 row -> row_of r0 (<[data_name b s := v]> row).
Proof.
  unfold row_of. intros <-. apply map_ext_in. intros k Hk.
  apply lookup_insert_ne. intros <-.
  apply (data_name_not_header b s). now apply list_elem_of_In.
Qed.

Lemma step_skip r row : matches model ic en r = false -> step r row = Ok row.
Proof. unfold summary_update, matches. now intros ->. Qed.

Hypothesis Hdn : forall k, k ∈ data_names -> k ∉ header_names.

Lemma res_bind_Ok {A B} (a : A) (k : A -> Res B) : (Ok a ≫= k) = k a.
Proof. reflexivity. Qed.

Lemma res_bind_Raise {A B} (e : Exn) (k : A -> Res B) : (Raise e ≫= k) = Raise e.
Proof. reflexivity. Qed.

Lemma step_first r :
  matches model ic en r = true ->
  exists row, step r ∅ = Ok row /\ row_of r row.
Proof.
  unfold summary_update, matches. intros ->.
  rewrite bool_decide_eq_true_2 by reflexivity. rewrite res_bind_Ok.
  eexists. split; [reflexivity|]. apply row_of_insert.
  unfold row_of. rewrite <- result_headers_lookups. apply map_ext_in.
  intros k Hk. rewrite map_union_empty.
  apply lookup_union_r. apply not_elem_of_list_to_map_1.
  rewrite <- list_fmap_compose.
  replace (fst ∘ (fun k0 : string => (k0, VStr ""))) with (@id string) by reflexivity.
  rewrite list_fmap_id.
  intros Hin. apply (Hdn _ Hin). now apply list_elem_of_In.
Qed.

Lemma step_next r0 r row :
  row_of r0 row ->
  matches model ic en r = true ->
  step r row
  = if agree r0 r
    then Ok (<[data_name (Result.batch_size r) (Result.sequence_length r)
               := VStr (lr_average_latency_ms (Result.stats r))]> row)
    else Raise AssertionError.
Proof.
  intros Hrow. unfold summary_update, matches. intros ->.
  rewrite bool_decide_eq_false_2 by (eapply row_of_nonempty; eauto).
  rewrite (assert_headers_spec _ _ _ _ _ Hrow (result_headers_lookups r)).
  fold (agree r0 r). now destruct (agree r0 r).
Qed.

(** Once a record has matched, the loop either keeps its row or fails the
    assertion, as the later matching records agree with it or not. *)
Lemma fold_after_first r0 rest : forall row,
  row_of r0 row ->
  if forallb (agree r0) (List.filter (matches model ic en) rest)
  then exists row', fold_res step rest row = Ok row' /\ row_of r0 row'
  else fold_res step rest row = Raise AssertionError.
Proof.
  induction rest as [|r rest IH]; intros row Hrow.
  - cbn [List.filter forallb fold_res]. eauto.
  - cbn [List.filter fold_res]. destruct (matches model ic en r) eqn:Hm.
    + rewrite (step_next r0 r row Hrow Hm). cbn [forallb].
      destruct (agree r0 r); cbn [andb]; [|reflexivity].
      rewrite res_bind_Ok. apply IH. now apply row_of_insert.
    + rewrite (step_skip r row Hm), res_bind_Ok. now apply IH.
Qed.

Lemma summary_row_spec results :
  match List.filter (matches model ic en) results with
  | [] => summary_row results data_names model ic en = Ok ∅
  | r0 :: more =>
      if forallb (agree r0) more
      then exists row,
          summary_row results data_names model ic en = Ok row /\ row_of r0 row
      else summary_row results data_names model ic en = Raise AssertionError
  end.
Proof.
  unfold summary_row. induction results as [|r results IH].
  - reflexivity.
  - cbn [List.filter fold_res]. destruct (matches model ic en r) eqn:Hm.
    + destruct (step_first r Hm) as (row & Hstep & Hrow).
      rewrite Hstep, res_bind_Ok.
      apply (fold_after_first r results row Hrow).
    + rewrite (step_skip r ∅ Hm), res_bind_Ok. exact IH.
Qed.
End Row.

Lemma fold_res_invariant {A B} (P : B -> Prop) (f : A -> B -> Res B) l :
  (forall x b b', x ∈ l -> P b -> f x b = Ok b' -> P b') ->
  forall b b', P b -> fold_res f l b = Ok b' -> P b'.
Proof.
  induction l as [|x l IH]; intros Hf b b' Hb; cbn.
  - now intros [= <-].
  - destruct (f x b) as [b1|e] eqn:E; cbn; [|discriminate].
    apply IH.
    + intros y c c' Hy. apply Hf. now apply list_elem_of_further.
    + eapply Hf; eauto. apply list_elem_of_here.
Qed.

Section Loops.
Context {W : Type}.

Lemma for_each_cons {A} (x : A) xs (body : A -> M W unit) st :
  for_each (x :: xs) body st = (body x;; for_each xs body) st.
Proof.
  unfold for_each. rewrite for_acc_cons, !bind_unfold.
  now destruct (body x st) as [[[]|e] st1].
Qed.

Lemma for_each_app {A} xs ys (body : A -> M W unit) st :
  for_each (xs ++ ys) body st = (for_each xs body;; for_each ys body) st.
Proof.
  unfold for_each. rewrite for_acc_app, !bind_unfold.
  now destruct (for_acc xs _ tt st) as [[[]|e] st1].
Qed.

Lemma for_each_flat_map {A B} (f : A -> list B) (body : B -> M W unit) xs st :
  for_each xs (fun x => for_each (f x) body) st = for_each (flat_map f xs) body st.
Proof.
  revert st. induction xs as [|x xs IH]; intros st; [reflexivity|].
  cbn [flat_map]. rewrite for_each_cons, for_each_app, !bind_unfold.
  destruct (for_each (f x) body st) as [[[]|e] st1]; [apply IH|reflexivity].
Qed.

Lemma for_each_map {A B} (g : A -> B) (body : B -> M W unit) xs st :
  for_each xs (fun x => body (g x)) st = for_each (map g xs) body st.
Proof.
  revert st. induction xs as [|x xs IH]; intros st; [reflexivity|].
  cbn [map]. rewrite !for_each_cons, !bind_unfold.
  destruct (body (g x) st) as [[[]|e] st1]; [apply IH|reflexivity].
Qed.

Lemma for_each_ext {A} (body1 body2 : A -> M W unit) xs st :
  (forall x st, body1 x st = body2 x st) ->
  for_each xs body1 st = for_each xs body2 st.
Proof.
  intros Hb. revert st. induction xs as [|x xs IH]; intros st; [reflexivity|].
  rewrite !for_each_cons, !bind_unfold, Hb.
  destruct (body2 x st) as [[[]|e] st1]; [apply IH|reflexivity].
Qed.

(** A loop that computes cells without looking at the state and appends
    them writes the rows up to the first exception. *)
Lemma for_each_rows {A} file (cells : A -> Res (list string)) xs (st : State W) :
  for_each xs (fun x => c ← lift_res (cells x); csv_append file c) st
  = (match (rows_until_raise (map cells xs)).2 with
     | None => Ok tt
     | Some e => Raise e
     end,
     Build_State (world st) (trace st) (optimize_model_statistics st)
       (csv st ++ map (pair file) (rows_until_raise (map cells xs)).1)).
Proof.
  revert st. induction xs as [|x xs IH]; intros st.
  - cbn. rewrite app_nil_r. now destruct st.
  - rewrite for_each_cons, bind_unfold. cbn [map rows_until_raise].
    rewrite bind_unfold.
    destruct (cells x) as [c|e]; cbn [lift_res ret raise csv_append].
    + rewrite IH. cbn.
      destruct (rows_until_raise (map cells xs)) as [rows e']. cbn.
      now rewrite <- app_assoc.
    + cbn. rewrite app_nil_r. now destruct st.
Qed.

Lemma output_summary_rows results file args (st : State W) :
  output_summary results file args st
  = (writeheader file (header_names ++ summary_data_names args);;
     for_each (summary_triples args)
       (fun t => c ← lift_res (summary_cells results args t); csv_append file c);;
     logger INFO (Text ("Summary results are saved to csv file: " +:+ file))) st.
Proof.
  unfold output_summary. rewrite !bind_unfold.
  destruct (writeheader _ _ st) as [[[]|e] st1]; [|reflexivity].
  rewrite !bind_unfold.
  replace (for_each (Args.models args) _ st1)
    with (for_each (summary_triples args)
            (fun t => c ← lift_res (summary_cells results args t);
                      csv_append file c) st1); [reflexivity|].
  unfold summary_triples. rewrite <- for_each_flat_map.
  apply for_each_ext. intros m st2. rewrite <- for_each_flat_map.
  apply for_each_ext. intros ic st3. rewrite <- for_each_map.
  apply for_each_ext. intros en st4.
  unfold summary_cells, writerow. cbn [fst snd]. rewrite !bind_unfold.
  destruct (summary_row _ _ _ _ _) as [row|e]; reflexivity.
Qed.
End Loops.

Lemma rows_until_raise_all l rows :
  rows_until_raise l = (rows, None) -> l = map Ok rows.
Proof.
  revert rows. induction l as [|[c|e] l IH]; intros rows; cbn.
  - now intros [= <-].
  - destruct (rows_until_raise l) as [rows' e']. intros [= <- ->].
    cbn. now rewrite (IH rows').
  - discriminate.
Qed.

Lemma rows_until_raise_some l rows e :
  rows_until_raise l = (rows, Some e) -> Raise e ∈ l.
Proof.
  revert rows. induction l as [|[c|e'] l IH]; intros rows; cbn.
  - discriminate.
  - destruct (rows_until_raise l) as [rows' e'']. intros [= <- ->].
    apply list_elem_of_further. eapply IH. reflexivity.
  - intros [= <- <-]. apply list_elem_of_here.
Qed.

Lemma rows_until_raise_none l rows :
  rows_until_raise l = (rows, None) -> forall e, Raise e ∉ l.
Proof.
  intros Hl e. rewrite (rows_until_raise_all _ _ Hl).
  intros Hin. apply list_elem_of_fmap in Hin as (c & Hc & _). discriminate.
Qed.

Lemma length_flat_map_const {A B} (f : A -> list B) (n : nat) l :
  (forall x, length (f x) = n) -> length (flat_map f l) = (length l * n)%nat.
Proof.
  intros Hf. induction l as [|x l IH]; [reflexivity|].
  change (flat_map f (x :: l)) with (f x ++ flat_map f l).
  rewrite length_app, IH, Hf. reflexivity.
Qed.

Lemma summary_triples_length args :
  length (summary_triples args)
  = (length (Args.models args) * 3 * length (Args.engines args))%nat.
Proof.
  unfold summary_triples.
  rewrite (length_flat_map_const _ (3 * length (Args.engines args))); [lia|].
  intros m. rewrite (length_flat_map_const _ (length (Args.engines args))).
  - reflexivity.
  - intros ic. apply length_map.
Qed.

Lemma summary_triples_elem args m ic en :
  (m, ic, en) ∈ summary_triples args
  <-> m ∈ Args.models args /\ ic ∈ [1; 2; 3] /\ en ∈ Args.engines args.
Proof.
  unfold summary_triples. rewrite list_elem_of_In, in_flat_map. split.
  - intros (m' & Hm & Ht). apply in_flat_map in Ht as (ic' & Hic & Ht).
    apply in_map_iff in Ht as (en' & [= -> -> ->] & Hen).
    rewrite !list_elem_of_In. auto.
  - rewrite !list_elem_of_In. intros (Hm & Hic & Hen). exists m. split; [exact Hm|].
    apply in_flat_map. exists ic. split; [exact Hic|].
    apply in_map_iff. exists en. auto.
Qed.

Lemma matches_true m ic en r :
  matches m ic en r = true
  <-> Result.model_name r = m /\ Result.inputs r = ic /\ Result.engine r = en.
Proof.
  unfold matches. rewrite !andb_true_iff, !bool_decide_eq_true, Z.eqb_eq. tauto.
Qed.

Section Cells.
Variables (results : list Result.t) (args : Args.t).

Local Abbreviation dn := (summary_data_names args).
Local Abbreviation cols := (header_names ++ summary_data_names args).

Lemma summary_update_keys m ic en r row row' :
  on_grid args r ->
  (forall k, is_Some (row !! k) -> k ∈ cols) ->
  summary_update dn m ic en r row = Ok row' ->
  forall k, is_Some (row' !! k) -> k ∈ cols.
Proof.
  intros Hgrid Hrow. unfold summary_update.
  destruct (_ && _ && _); [|now intros [= <-]].
  destruct (bool_decide (row = ∅)).
  - rewrite res_bind_Ok. intros [= <-] k Hk.
    apply lookup_insert_is_Some' in Hk as [<-|Hk].
    { apply elem_of_app. now right. }
    apply lookup_union_is_Some in Hk as [Hk|Hk].
    + apply elem_of_app. right. destruct Hk as [v Hv].
      apply elem_of_list_to_map_2 in Hv.
      apply list_elem_of_fmap in Hv as (k' & [= <- _] & Hk'). exact Hk'.
    + apply lookup_union_is_Some in Hk as [Hk|Hk]; [|now apply Hrow].
      apply elem_of_app. left. now apply result_headers_keys in Hk.
  - destruct (assert_headers _ _ _) as [[]|e]; [|discriminate].
    rewrite !res_bind_Ok. intros [= <-] k Hk.
    apply lookup_insert_is_Some' in Hk as [<-|Hk]; [|now apply Hrow].
    apply elem_of_app. now right.
Qed.

Hypothesis Hgrid : forall r, r ∈ results -> on_grid args r.

Lemma summary_row_keys m ic en row :
  summary_row results dn m ic en = Ok row ->
  forall k, is_Some (row !! k) -> k ∈ cols.
Proof.
  unfold summary_row.
  apply (fold_res_invariant (fun row => forall k, is_Some (row !! k) -> k ∈ cols)).
  - intros r b b' Hr Hb. apply summary_update_keys; auto.
  - intros k [v Hv]. now rewrite lookup_empty in Hv.
Qed.

Lemma dictwriter_cells_keys fieldnames (row : gmap string PyVal) :
  (forall k, is_Some (row !! k) -> k ∈ fieldnames) ->
  dictwriter_cells fieldnames row
  = Ok (map (fun k => default "" (py_str <$> row !! k)) fieldnames).
Proof.
  intros Hk. unfold dictwriter_cells. rewrite bool_decide_eq_true_2; [reflexivity|].
  intros k v Hkv. apply Hk. now exists v.
Qed.

(** On the grid of [args] a row is written or fails the assertion. *)
Lemma summary_cells_on_grid t :
  (exists cells, summary_cells results args t = Ok cells)
  \/ summary_cells results args t = Raise AssertionError.
Proof.
  unfold summary_cells.
  pose proof (summary_row_spec dn t.1.1 t.1.2 t.2 (data_names_not_header args) results) as Hspec.
  destruct (summary_row results dn t.1.1 t.1.2 t.2) as [row|e] eqn:Hrow.
  - left. rewrite res_bind_Ok.
    rewrite dictwriter_cells_keys; [eauto|]. now apply (summary_row_keys _ _ _ _ Hrow).
  - right. rewrite res_bind_Raise.
    destruct (List.filter _ results) as [|r0 more]; [discriminate|].
    destruct (forallb (agree r0) more).
    + destruct Hspec as (row & Hrow' & _). discriminate.
    + congruence.
Qed.
End Cells.

Lemma dictwriter_cells_ValueError fieldnames row e :
  dictwriter_cells fieldnames row = Raise e -> e = ValueError.
Proof. unfold dictwriter_cells. destruct (bool_decide _); congruence. Qed.

Lemma filter_matches_none results m ic en :
  (forall r, r ∈ results -> matches m ic en r = false) ->
  List.filter (matches m ic en) results = [].
Proof.
  induction results as [|r rs IH]; intros Hno; [reflexivity|].
  cbn [List.filter]. rewrite Hno by apply list_elem_of_here.
  apply IH. intros r' Hr'. apply Hno. now apply list_elem_of_further.
Qed.

Lemma summary_cells_blank results args m ic en :
  (forall r, r ∈ results -> matches m ic en r = false) ->
  summary_cells results args (m, ic, en)
  = Ok (map (fun _ => "") (header_names ++ summary_data_names args)).
Proof.
  intros Hno. unfold summary_cells. cbn [fst snd].
  pose proof (summary_row_spec (summary_data_names args) m ic en
                (data_names_not_header args) results) as Hspec.
  rewrite (filter_matches_none _ _ _ _ Hno) in Hspec.
  rewrite Hspec, res_bind_Ok. unfold dictwriter_cells.
  rewrite bool_decide_eq_true_2 by apply map_Forall_empty.
  reflexivity.
Qed.

Lemma summary_cells_identified results args m ic en r cells :
  r ∈ results -> matches m ic en r = true ->
  summary_cells results args (m, ic, en) = Ok cells ->
  take 3 cells = [m; pretty ic; en].
Proof.
  intros Hr Hm. unfold summary_cells. cbn [fst snd].
  pose proof (summary_row_spec (summary_data_names args) m ic en
                (data_names_not_header args) results) as Hspec.
  assert (r ∈ List.filter (matches m ic en) results) as Hin.
  { apply list_elem_of_In, filter_In. split; [now apply list_elem_of_In|exact Hm]. }
  destruct (List.filter (matches m ic en) results) as [|r0 more] eqn:Hf.
  { now apply elem_of_nil in Hin. }
  assert (matches m ic en r0 = true) as Hm0.
  { assert (In r0 (List.filter (matches m ic en) results)) as H0
      by (rewrite Hf; now left).
    now apply filter_In in H0. }
  apply matches_true in Hm0 as (Hmodel & Hic & Hen).
  destruct (forallb (agree r0) more).
  - destruct Hspec as (row & -> & Hrow). rewrite res_bind_Ok.
    unfold dictwriter_cells. destruct (bool_decide _); [|discriminate].
    intros [= <-]. unfold row_of in Hrow.
    unfold header_names in *. cbn [map app] in *.
    injection Hrow as -> -> -> _. cbn [identifying take fmap option_fmap option_map default py_str].
    now rewrite Hmodel, Hic, Hen.
  - rewrite Hspec, res_bind_Raise. discriminate.
Qed.

Lemma rows_until_raise_only l e0 :
  Raise e0 ∈ l ->
  (forall e, Raise e ∈ l -> e = e0) ->
  (rows_until_raise l).2 = Some e0.
Proof.
  induction l as [|[c|e] l IH]; intros Hin Hall.
  - now apply elem_of_nil in Hin.
  - cbn [rows_until_raise]. destruct (rows_until_raise l) as [rows e'] eqn:E.
    cbn [snd] in *. apply IH.
    + apply elem_of_cons in Hin as [Hin|Hin]; [discriminate|exact Hin].
    + intros e Hl. apply Hall. now apply list_elem_of_further.
  - cbn. f_equal. apply Hall. apply list_elem_of_here.
Qed.

Lemma filter_matches_elem results m ic en r :
  r ∈ List.filter (matches m ic en) results
  <-> r ∈ results /\ matches m ic en r = true.
Proof. now rewrite !list_elem_of_In, filter_In. Qed.

Lemma forallb_agree_elem r0 more r :
  forallb (agree r0) more = true -> r ∈ more -> agree r0 r = true.
Proof.
  intros Hall Hin. rewrite forallb_forall in Hall. apply Hall.
  now apply list_elem_of_In.
Qed.

(** Two matching records that disagree make the row fail. *)
Lemma summary_row_disagreement results dn m ic en r1 r2 :
  (forall k, k ∈ dn -> k ∉ header_names) ->
  r1 ∈ results -> r2 ∈ results ->
  matches m ic en r1 = true -> matches m ic en r2 = true ->
  agree r1 r2 = false ->
  summary_row results dn m ic en = Raise AssertionError.
Proof.
  intros Hdn H1 H2 M1 M2 Hdis.
  pose proof (summary_row_spec dn m ic en Hdn results) as Hspec.
  assert (r1 ∈ List.filter (matches m ic en) results) as F1
    by now apply filter_matches_elem.
  assert (r2 ∈ List.filter (matches m ic en) results) as F2
    by now apply filter_matches_elem.
  destruct (List.filter (matches m ic en) results) as [|r0 more].
  { now apply elem_of_nil in F1. }
  destruct (forallb (agree r0) more) eqn:Hall; [|exact Hspec].
  assert (forall r, r ∈ r0 :: more -> agree r0 r = true) as Hag.
  { intros r Hr. apply elem_of_cons in Hr as [->|Hr]; [apply agree_refl|].
    eapply forallb_agree_elem; eauto. }
  pose proof (Hag _ F1) as A1. pose proof (Hag _ F2) as A2.
  rewrite agree_sym in A1. rewrite (agree_trans _ _ _ A1 A2) in Hdis. discriminate.
Qed.

(** Matching records that all agree keep the row. *)
Lemma summary_row_agreement results dn m ic en :
  (forall k, k ∈ dn -> k ∉ header_names) ->
  (forall r1 r2, r1 ∈ results -> r2 ∈ results ->
                 matches m ic en r1 = true -> matches m ic en r2 = true ->
                 agree r1 r2 = true) ->
  exists row, summary_row results dn m ic en = Ok row.
Proof.
  intros Hdn Hag.
  pose proof (summary_row_spec dn m ic en Hdn results) as Hspec.
  destruct (List.filter (matches m ic en) results) as [|r0 more] eqn:Hf; [eauto|].
  assert (forallb (agree r0) more = true) as Hall.
  { apply forallb_forall. intros r Hr.
    assert (r0 ∈ List.filter (matches m ic en) results) as F0
      by (rewrite Hf; apply list_elem_of_here).
    assert (r ∈ List.filter (matches m ic en) results) as F
      by (rewrite Hf; apply list_elem_of_further; now apply list_elem_of_In).
    apply filter_matches_elem in F0 as [? ?], F as [? ?]. now apply Hag. }
  rewrite Hall in Hspec. destruct Hspec as (row & Hrow & _). eauto.
Qed.

Section Summary.
Context {W : Type}.

Lemma output_summary_outcome results file args (st : State W) :
  output_summary results file args st
  = let out := rows_until_raise (map (summary_cells results args) (summary_triples args)) in
    match out.2 with
    | None =>
        (Ok tt,
         Build_State (world st)
           (trace st ++ [Log INFO (Text ("Summary results are saved to csv file: " +:+ file))])
           (optimize_model_statistics st)
           (csv st ++ (file, header_names ++ summary_data_names args)
                   :: map (pair file) out.1))
    | Some e =>
        (Raise e,
         Build_State (world st) (trace st) (optimize_model_statistics st)
           (csv st ++ (file, header_names ++ summary_data_names args)
                   :: map (pair file) out.1))
    end.
Proof.
  rewrite output_summary_rows. unfold writeheader. rewrite bind_unfold.
  cbn [csv_append]. rewrite bind_unfold, for_each_rows. cbv zeta.
  cbn [world trace optimize_model_statistics csv].
  destruct (rows_until_raise _) as [rows [e|]]; cbn [fst snd];
    rewrite <- app_assoc; reflexivity.
Qed.

(** C2, as the code has it. The summary has one row for every element of
    models x [1, 2, 3] x engines, in that order, whatever the configured
    input counts and the results are: the row of a triple without a record
    is blank in every column, the row of a triple with a record starts with
    the model, the input count and the engine. *)
Theorem C2_summary_rows (results : list Result.t) (file : string)
  (args : Args.t) (st : State W) :
  (forall st',
      output_summary results file args st = (Ok tt, st') ->
      exists rows,
        csv st' = csv st ++ (file, header_names ++ summary_data_names args)
                         :: map (pair file) rows
        /\ Forall2 (fun t cells => summary_cells results args t = Ok cells)
                   (summary_triples args) rows)
  /\ length (summary_triples args)
     = (length (Args.models args) * 3 * length (Args.engines args))%nat
  /\ (forall m ic en,
         (forall r, r ∈ results -> matches m ic en r = false) ->
         summary_cells results args (m, ic, en)
         = Ok (map (fun _ => "") (header_names ++ summary_data_names args)))
  /\ (forall m ic en r cells,
         r ∈ results -> matches m ic en r = true ->
         summary_cells results args (m, ic, en) = Ok cells ->
         take 3 cells = [m; pretty ic; en]).
Proof.
  repeat split.
  - intros st'. rewrite output_summary_outcome. cbv zeta.
    destruct (rows_until_raise _) as [rows [e|]] eqn:Hrows; cbn [fst snd];
      [discriminate|].
    intros [= <-]. exists rows. split; [reflexivity|].
    apply rows_until_raise_all in Hrows.
    revert rows Hrows. induction (summary_triples args) as [|t ts IH];
      intros [|c rows]; cbn [map]; try discriminate.
    + constructor.
    + intros [= Ht Hts]. constructor; [exact Ht|now apply IH].
  - apply summary_triples_length.
  - apply summary_cells_blank.
  - apply summary_cells_identified.
Qed.

(** C9. When two records of one summary row (a triple the report visits)
    disagree on an identifying field, [output_summary] ends with
    [AssertionError]; when the records of every triple agree on the
    identifying fields, it never does. *)
Theorem C9_summary_assertion (results : list Result.t) (file : string)
  (args : Args.t) (st : State W) :
  (forall r1 r2,
      (forall r, r ∈ results -> on_grid args r) ->
      r1 ∈ results -> r2 ∈ results ->
      Result.model_name r1 ∈ Args.models args ->
      Result.inputs r1 ∈ [1; 2; 3] ->
      Result.engine r1 ∈ Args.engines args ->
      matches (Result.model_name r1) (Result.inputs r1) (Result.engine r1) r2 = true ->
      agree r1 r2 = false ->
      exists st', output_summary results file args st = (Raise AssertionError, st'))
  /\ ((forall r1 r2,
          r1 ∈ results -> r2 ∈ results ->
          matches (Result.model_name r1) (Result.inputs r1) (Result.engine r1) r2 = true ->
          agree r1 r2 = true) ->
      forall st', output_summary results file args st <> (Raise AssertionError, st')).
Proof.
  split.
  - intros r1 r2 Hgrid H1 H2 Hm Hic Hen M2 Hdis.
    rewrite output_summary_outcome. cbv zeta.
    rewrite (rows_until_raise_only _ AssertionError); [eauto| |].
    + apply list_elem_of_fmap.
      exists (Result.model_name r1, Result.inputs r1, Result.engine r1). split.
      * unfold summary_cells. cbn [fst snd].
        rewrite (summary_row_disagreement results _ _ _ _ r1 r2); auto.
        -- apply data_names_not_header.
        -- apply matches_true. auto.
      * now apply summary_triples_elem.
    + intros e He. apply list_elem_of_fmap in He as (t & He & _).
      destruct (summary_cells_on_grid results args Hgrid t) as [(c & Hc)|Hc];
        congruence.
  - intros Hag st'. rewrite output_summary_outcome. cbv zeta.
    destruct (rows_until_raise _) as [rows [e|]] eqn:Hrows; cbn [fst snd];
      [|discriminate].
    intros [= -> _]. apply rows_until_raise_some in Hrows.
    apply list_elem_of_fmap in Hrows as ([[m ic] en] & He & _).
    unfold summary_cells in He. cbn [fst snd] in He.
    destruct (summary_row_agreement results (summary_data_names args) m ic en)
      as (row & Hrow).
    + apply data_names_not_header.
    + intros r1 r2 H1 H2 M1 M2. apply Hag; auto.
      apply matches_true in M1 as (-> & -> & ->). exact M2.
    + rewrite Hrow, res_bind_Ok in He. symmetry in He.
      apply dictwriter_cells_ValueError in He. discriminate.
Qed.
End Summary.

(** The records [main] collects are on the grid of the summary. *)
Lemma elem_of_summary_data_names args b s :
  b ∈ Args.batch_sizes args -> s ∈ Args.sequence_lengths args ->
  data_name b s ∈ summary_data_names args.
Proof.
  intros Hb Hs. unfold summary_data_names. apply list_elem_of_In, in_flat_map.
  exists b. split; [now apply list_elem_of_In|].
  apply in_map. now apply list_elem_of_In.
Qed.


(** One record, one model, one engine: a header and three rows. *)
Lemma C2_witness :
  exists rows,
    csv (output_summary [ex_result "1.3.0" 1 8] "summary.csv"
           (ex_args ["onnxruntime"] false false [1] [8]) ex_state).2
    = csv ex_state
      ++ ("summary.csv",
          header_names
          ++ summary_data_names (ex_args ["onnxruntime"] false false [1] [8]))
         :: map (pair "summary.csv") rows
    /\ Forall2
         (fun t cells =>
            summary_cells [ex_result "1.3.0" 1 8]
              (ex_args ["onnxruntime"] false false [1] [8]) t = Ok cells)
         (summary_triples (ex_args ["onnxruntime"] false false [1] [8])) rows.
Proof.
  apply (proj1 (C2_summary_rows [ex_result "1.3.0" 1 8] "summary.csv"
                  (ex_args ["onnxruntime"] false false [1] [8]) ex_state)).
  vm_compute. reflexivity.
Defined.

(** C2 fails on a run of [main] with input count 1 only: the summary has
    a row for input counts 2 and 3 too, blank in every column, although no
    record exists for them. *)
Lemma C2_blank_rows_are_written :
  List.filter
    (fun line => bool_decide (line.1 = "benchmark_summary_20200601-120000.csv"))
    (csv ex_main_one_cell.2)
  = [ ("benchmark_summary_20200601-120000.csv",
       ["model_name"; "inputs"; "engine"; "version"; "device"; "fp16";
        "optimize"; "b1_s8"]);
      ("benchmark_summary_20200601-120000.csv",
       ["gpt2"; "1"; "onnxruntime"; "1.3.0"; "cpu"; "False"; "False"; "10.00"]);
      ("benchmark_summary_20200601-120000.csv", [""; ""; ""; ""; ""; ""; ""; ""]);
      ("benchmark_summary_20200601-120000.csv", [""; ""; ""; ""; ""; ""; ""; ""]) ].
Proof. vm_compute. reflexivity. Qed.

(** Two records of one cell that differ in the engine version. *)
Lemma C9_witness :
  exists st',
    output_summary [ex_result "1.3.0" 1 8; ex_result "1.2.0" 1 8] "summary.csv"
      (ex_args ["onnxruntime"] false false [1] [8]) ex_state
    = (Raise AssertionError, st').
Proof.
  apply (proj1 (C9_summary_assertion
                  [ex_result "1.3.0" 1 8; ex_result "1.2.0" 1 8] "summary.csv"
                  (ex_args ["onnxruntime"] false false [1] [8]) ex_state)
           (ex_result "1.3.0" 1 8) (ex_result "1.2.0" 1 8)).
  - intros r Hr. apply elem_of_summary_data_names.
    + apply elem_of_cons in Hr as [->|Hr]; [apply list_elem_of_here|].
      apply list_elem_of_singleton in Hr as ->. apply list_elem_of_here.
    + apply elem_of_cons in Hr as [->|Hr]; [apply list_elem_of_here|].
      apply list_elem_of_singleton in Hr as ->. apply list_elem_of_here.
  - apply list_elem_of_here.
  - apply list_elem_of_further, list_elem_of_here.
  - apply list_elem_of_here.
  - apply list_elem_of_here.
  - apply list_elem_of_here.
  - reflexivity.
  - reflexivity.
Defined.

(** ** Rounding of binary64, on the specification floats *)

Lemma fexp64_eq x : fexp64 x = Z.max (x - 53) (-1074).
Proof. reflexivity. Qed.

Lemma digits2_pos_bounds (m : positive) :
  2 ^ (Z.pos (digits2_pos m) - 1) <= Z.pos m < 2 ^ Z.pos (digits2_pos m).
Proof.
  induction m as [m IH|m IH|]; cbn [digits2_pos].
  - rewrite Pos2Z.inj_succ.
    replace (Z.succ (Z.pos (digits2_pos m)) - 1) with (Z.succ (Z.pos (digits2_pos m) - 1)) by lia.
    rewrite !Z.pow_succ_r by lia. lia.
  - rewrite Pos2Z.inj_succ.
    replace (Z.succ (Z.pos (digits2_pos m)) - 1) with (Z.succ (Z.pos (digits2_pos m) - 1)) by lia.
    rewrite !Z.pow_succ_r by lia. lia.
  - cbn. lia.
Qed.

(** The number of digits is the only [d] with [2^(d-1) <= m < 2^d]. *)
Lemma digits2_pos_unique (m : positive) (d : Z) :
  2 ^ (d - 1) <= Z.pos m < 2 ^ d -> Z.pos (digits2_pos m) = d.
Proof.
  intros [Hlo Hhi]. pose proof (digits2_pos_bounds m) as [Hlo' Hhi'].
  assert (0 < d) as Hd.
  { destruct (Z.lt_ge_cases 0 d) as [|Hle]; [assumption|].
    assert (2 ^ d <= 2 ^ 0) by (destruct (Z.eq_dec d 0) as [->|]; [lia|rewrite Z.pow_neg_r by lia; cbn; lia]).
    cbn in *. lia. }
  destruct (Z.lt_trichotomy (Z.pos (digits2_pos m)) d) as [Hlt|[Heq|Hgt]]; [|exact Heq|].
  - assert (2 ^ Z.pos (digits2_pos m) <= 2 ^ (d - 1)) by (apply Z.pow_le_mono_r; lia). lia.
  - assert (2 ^ d <= 2 ^ (Z.pos (digits2_pos m) - 1)) by (apply Z.pow_le_mono_r; lia). lia.
Qed.

Lemma digits2_pos_mul_pow2 (m : positive) (k : Z) :
  0 <= k ->
  forall p, Z.pos p = Z.pos m * 2 ^ k -> Z.pos (digits2_pos p) = Z.pos (digits2_pos m) + k.
Proof.
  intros Hk p Hp. apply digits2_pos_unique. rewrite Hp.
  pose proof (digits2_pos_bounds m) as [Hlo Hhi].
  replace (Z.pos (digits2_pos m) + k - 1) with ((Z.pos (digits2_pos m) - 1) + k) by lia.
  rewrite !Z.pow_add_r by lia.
  assert (0 < 2 ^ k) by (apply Z.pow_pos_nonneg; lia). nia.
Qed.

(** ** Shifting right *)

Lemma iter_pos_nat {A} (f : A -> A) (p : positive) (x : A) :
  SpecFloat.iter_pos f p x = Nat.iter (Pos.to_nat p) f x.
Proof.
  revert x. induction p as [p IH|p IH|]; intros x; cbn [SpecFloat.iter_pos].
  - rewrite !IH, Pos2Nat.inj_xI. cbn [Nat.iter].
    rewrite <- Nat.iter_add. replace (Pos.to_nat p + Pos.to_nat p)%nat with (2 * Pos.to_nat p)%nat by lia.
    rewrite <- Nat.iter_succ_r. reflexivity.
  - rewrite !IH, Pos2Nat.inj_xO. rewrite <- Nat.iter_add.
    f_equal. lia.
  - reflexivity.
Qed.

Lemma shr_1_spec m r s :
  0 <= m ->
  shr_1 (Build_shr_record m r s) = Build_shr_record (m / 2) (Z.odd m) (r || s).
Proof.
  intros Hm. destruct m as [|[p|p|]|p]; cbn [shr_1]; try lia.
  - reflexivity.
  - replace (Z.pos p~1 / 2) with (Z.pos p); [reflexivity|].
    apply Z.div_unique with 1; lia.
  - replace (Z.pos p~0 / 2) with (Z.pos p); [reflexivity|].
    apply Z.div_unique with 0; lia.
  - reflexivity.
Qed.

(** After [k >= 1] steps from [m] the record holds the quotient by [2^k],
    the bit below it, and whether anything lies below that bit. *)
Lemma shr_iter_spec (m : Z) (k : nat) :
  0 <= m ->
  exists low,
    let rec := Nat.iter (S k) shr_1 (Build_shr_record m false false) in
    shr_m rec = m / 2 ^ Z.of_nat (S k)
    /\ 0 <= low < 2 ^ Z.of_nat k
    /\ m mod 2 ^ Z.of_nat (S k)
       = (if shr_r rec then 2 ^ Z.of_nat k else 0) + low
    /\ shr_s rec = negb (low =? 0).
Proof.
  intros Hm. induction k as [|k (low & Hq & Hlow & Hmod & Hs)].
  - exists 0. cbn [Nat.iter]. rewrite shr_1_spec by exact Hm. cbn [shr_m shr_r shr_s].
    change (2 ^ Z.of_nat 1) with 2. change (2 ^ Z.of_nat 0) with 1.
    repeat split; try lia.
    rewrite Zmod_odd. destruct (Z.odd m); reflexivity.
  - set (rec := Nat.iter (S k) shr_1 (Build_shr_record m false false)) in *.
    cbv zeta in *.
    exists ((if shr_r rec then 2 ^ Z.of_nat k else 0) + low).
    change (Nat.iter (S (S k)) shr_1 (Build_shr_record m false false)) with (shr_1 rec).
    destruct rec as [q r s]. cbn [shr_m shr_r shr_s] in *.
    assert (0 < 2 ^ Z.of_nat k) as Hpk by (apply Z.pow_pos_nonneg; lia).
    assert (2 ^ Z.of_nat (S k) = 2 * 2 ^ Z.of_nat k) as HS
      by (rewrite Nat2Z.inj_succ, Z.pow_succ_r; lia).
    assert (2 ^ Z.of_nat (S (S k)) = 2 * 2 ^ Z.of_nat (S k)) as HSS
      by (rewrite (Nat2Z.inj_succ (S k)), Z.pow_succ_r; lia).
    assert (0 <= q) as Hq0 by (rewrite Hq; apply Z.div_pos; lia).
    rewrite shr_1_spec by exact Hq0. cbn [shr_m shr_r shr_s].
    pose proof (Z.div_mod m (2 ^ Z.of_nat (S k)) ltac:(lia)) as Hdm.
    pose proof (Z.div_mod q 2 ltac:(lia)) as Hq2.
    pose proof (Z.mod_pos_bound q 2 ltac:(lia)) as Hq2b.
    rewrite Zmod_odd in Hq2, Hq2b.
    assert (m = 2 ^ Z.of_nat (S (S k)) * (q / 2)
                + ((if Z.odd q then 2 ^ Z.of_nat (S k) else 0)
                   + ((if r then 2 ^ Z.of_nat k else 0) + low))) as Hm2.
    { rewrite <- Hmod, HSS. rewrite <- Hq in Hdm. destruct (Z.odd q); lia. }
    assert (0 <= (if Z.odd q then 2 ^ Z.of_nat (S k) else 0)
                   + ((if r then 2 ^ Z.of_nat k else 0) + low)
            < 2 ^ Z.of_nat (S (S k))) as Hbound.
    { destruct (Z.odd q), r; lia. }
    repeat split.
    + exact (Z.div_unique_pos m _ (q / 2) _ Hbound Hm2).
    + destruct r; lia.
    + destruct r; lia.
    + symmetry. exact (Z.mod_unique_pos m _ (q / 2) _ Hbound Hm2).
    + rewrite Hs. destruct r; cbn [orb].
      * symmetry. apply negb_true_iff, Z.eqb_neq. lia.
      * reflexivity.
Qed.

(** Rounding the shifted record to nearest even is [round_half_even]. *)
Lemma shr_round (m : Z) (e : Z) (p : positive) :
  0 <= m ->
  let out := shr (Build_shr_record m false false) e (Z.pos p) in
  round_nearest_even (shr_m out.1) (loc_of_shr_record out.1)
  = round_half_even m (2 ^ Z.pos p)
  /\ out.2 = e + Z.pos p.
Proof.
  intros Hm. cbn [shr fst snd]. split; [|reflexivity].
  rewrite iter_pos_nat.
  destruct (Pos2Nat.is_succ p) as (k & Hk). rewrite Hk.
  destruct (shr_iter_spec m k Hm) as (low & Hq & Hlow & Hmod & Hs).
  cbv zeta in *.
  assert (Z.pos p = Z.of_nat (S k)) as Hp by lia. rewrite Hp.
  destruct (Nat.iter (S k) shr_1 (Build_shr_record m false false)) as [q r s].
  cbn [shr_m shr_r shr_s] in *. unfold round_half_even.
  rewrite <- Hq, Hmod.
  assert (2 ^ Z.of_nat (S k) = 2 * 2 ^ Z.of_nat k) as HS
    by (rewrite Nat2Z.inj_succ, Z.pow_succ_r; lia).
  rewrite HS.
  assert (0 < 2 ^ Z.of_nat k) as Hpk by (apply Z.pow_pos_nonneg; lia).
  destruct r, s; cbn [loc_of_shr_record round_nearest_even];
    symmetry in Hs; rewrite ?negb_true_iff, ?negb_false_iff, ?Z.eqb_eq, ?Z.eqb_neq in Hs.
  - replace (2 * (2 ^ Z.of_nat k + low) ?= 2 * 2 ^ Z.of_nat k) with Gt; [reflexivity|].
    symmetry. apply Z.compare_gt_iff. lia.
  - subst low. replace (2 * (2 ^ Z.of_nat k + 0) ?= 2 * 2 ^ Z.of_nat k) with Eq; [reflexivity|].
    symmetry. apply Z.compare_eq_iff. lia.
  - replace (2 * (0 + low) ?= 2 * 2 ^ Z.of_nat k) with Lt; [reflexivity|].
    symmetry. apply Z.compare_lt_iff. lia.
  - subst low. replace (2 * (0 + 0) ?= 2 * 2 ^ Z.of_nat k) with Lt; [reflexivity|].
    symmetry. apply Z.compare_lt_iff. lia.
Qed.

(** ** Rounding to nearest, ties to even *)

Lemma round_half_even_one m : round_half_even m 1 = m.
Proof.
  unfold round_half_even. rewrite Z.mod_1_r, Z.div_1_r. reflexivity.
Qed.

Lemma round_half_even_cases n d :
  0 < d ->
  round_half_even n d = n / d \/ round_half_even n d = n / d + 1.
Proof.
  intros _. unfold round_half_even.
  destruct (2 * (n mod d) ?= d); [destruct (Z.even (n / d))| |]; auto.
Qed.

(** Below [c * d] the rounded quotient is at most [c]; from [c * d] on it
    is at least [c]. *)
Lemma round_half_even_upper n d c :
  0 < d -> n < c * d -> round_half_even n d <= c.
Proof.
  intros Hd Hn. assert (n / d < c) by (apply Z.div_lt_upper_bound; lia).
  destruct (round_half_even_cases n d Hd) as [-> | ->]; lia.
Qed.

Lemma round_half_even_lower n d c :
  0 < d -> c * d <= n -> c <= round_half_even n d.
Proof.
  intros Hd Hn. assert (c <= n / d) by (apply Z.div_le_lower_bound; lia).
  destruct (round_half_even_cases n d Hd) as [-> | ->]; lia.
Qed.

Lemma round_half_even_mono a b c d :
  0 < b -> 0 < d -> a * d <= c * b ->
  round_half_even a b <= round_half_even c d.
Proof.
  intros Hb Hd Hle. unfold round_half_even.
  pose proof (Z.div_mod a b ltac:(lia)) as Ha.
  pose proof (Z.div_mod c d ltac:(lia)) as Hc.
  pose proof (Z.mod_pos_bound a b Hb) as Hra.
  pose proof (Z.mod_pos_bound c d Hd) as Hrc.
  set (q1 := a / b) in *. set (r1 := a mod b) in *.
  set (q2 := c / d) in *. set (r2 := c mod d) in *.
  assert (q1 <= q2) as Hq.
  { destruct (Z.le_gt_cases q1 q2) as [|Hgt]; [assumption|exfalso].
    assert (0 < b * d) by (apply Z.mul_pos_pos; lia).
    assert (b * d * (q2 + 1) <= b * d * q1)
      by (apply Z.mul_le_mono_nonneg_l; lia).
    assert (r2 * b < d * b) by (apply Z.mul_lt_mono_pos_r; lia).
    assert (0 <= r1 * d) by (apply Z.mul_nonneg_nonneg; lia).
    rewrite Ha, Hc in Hle. lia. }
  destruct (Z.eq_dec q1 q2) as [Heq|Hne].
  - rewrite <- Heq in *.
    assert (r1 * d <= r2 * b) as Hr by (rewrite Ha, Hc in Hle; lia).
    destruct (Z.compare_spec (2 * r1) b) as [E1|E1|E1];
      destruct (Z.compare_spec (2 * r2) d) as [E2|E2|E2];
      try (destruct (Z.even q1)); try lia;
      try (assert (0 < (2 * r1 - b) * d) by (apply Z.mul_pos_pos; lia));
      try (assert (0 < (d - 2 * r2) * b) by (apply Z.mul_pos_pos; lia));
      try (assert ((2 * r1 - b) * d = 0) by (rewrite E1; lia));
      try (assert ((d - 2 * r2) * b = 0) by (rewrite E2; lia));
      lia.
  - assert (q1 + 1 <= q2) by lia.
    destruct (2 * r1 ?= b); destruct (2 * r2 ?= d);
      try (destruct (Z.even q1)); try (destruct (Z.even q2)); lia.
Qed.

(** ** [binary_round_aux] on an exact, positive input *)

Lemma binary_round_aux_exact s (m : positive) (e : Z) :
  let E := fexp64 (Z.pos (digits2_pos m) + e) in
  let q := round_half_even (Z.pos m) (2 ^ (E - e)) in
  e <= E ->
  0 <= q <= 2 ^ 53
  /\ binary_round_aux prec emax s (Z.pos m) e loc_Exact
     = if q =? 2 ^ 53 then finalize s (2 ^ 52) (E + 1) else finalize s q E.
Proof.
  intros E q HI.
  pose proof (digits2_pos_bounds m) as [Hlo Hhi].
  set (d := Z.pos (digits2_pos m)) in *.
  assert (-1074 <= E /\ d + e - 53 <= E) as [HEmin HEd]
    by (unfold E; rewrite fexp64_eq; lia).
  assert (0 < 2 ^ (E - e)) as Hpow by (apply Z.pow_pos_nonneg; lia).
  assert (0 <= q <= 2 ^ 53) as Hq.
  { split.
    - apply round_half_even_lower; lia.
    - apply round_half_even_upper; [exact Hpow|].
      destruct (Z.le_gt_cases d 53) as [Hd|Hd].
      + assert (2 ^ d <= 2 ^ 53) by (apply Z.pow_le_mono_r; lia).
        assert (2 ^ 53 * 1 <= 2 ^ 53 * 2 ^ (E - e))
          by (apply Z.mul_le_mono_nonneg_l; lia).
        lia.
      + assert (2 ^ d = 2 ^ 53 * 2 ^ (d - 53)) as Hd53
          by (rewrite <- Z.pow_add_r by lia; f_equal; lia).
        assert (2 ^ (d - 53) <= 2 ^ (E - e)) by (apply Z.pow_le_mono_r; lia).
        assert (2 ^ 53 * 2 ^ (d - 53) <= 2 ^ 53 * 2 ^ (E - e))
          by (apply Z.mul_le_mono_nonneg_l; lia).
        lia. }
  split; [exact Hq|].
  unfold binary_round_aux, shr_fexp. cbn [Zdigits2 shr_record_of_loc].
  fold d. change (SpecFloat.fexp prec emax (d + e)) with E.
  (* first shift *)
  assert (let out := shr (Build_shr_record (Z.pos m) false false) e (E - e) in
          round_nearest_even (shr_m out.1) (loc_of_shr_record out.1) = q
          /\ out.2 = E) as Hfirst.
  { unfold q. destruct (E - e) as [|p|p] eqn:Hn; try lia.
    - cbn [shr fst snd shr_m loc_of_shr_record round_nearest_even].
      rewrite round_half_even_one. split; [reflexivity|lia].
    - destruct (shr_round (Z.pos m) e p ltac:(lia)) as [H1 H2].
      cbv zeta in *. rewrite H1, H2. split; [reflexivity|lia]. }
  cbv zeta in Hfirst.
  destruct (shr (Build_shr_record (Z.pos m) false false) e (E - e)) as [mrs' e'].
  cbn [fst snd] in Hfirst. destruct Hfirst as [-> ->].
  (* second shift *)
  destruct q as [|pq|pq] eqn:Hqv; try lia.
  - cbn [Zdigits2 shr_record_of_loc].
    assert (SpecFloat.fexp prec emax (0 + E) - E <= 0) as Hn'
      by (rewrite fexp64_eq; lia).
    destruct (SpecFloat.fexp prec emax (0 + E) - E); try lia; reflexivity.
  - cbn [Zdigits2 shr_record_of_loc].
    pose proof (digits2_pos_bounds pq) as [Hlo' Hhi'].
    destruct (Z.eqb_spec (Z.pos pq) (2 ^ 53)) as [H53|H53].
    + assert (pq = 9007199254740992%positive) as -> by (apply Pos2Z.inj; exact H53).
      change (Z.pos (digits2_pos 9007199254740992)) with 54.
      assert (SpecFloat.fexp prec emax (54 + E) - E = 1) as ->
        by (rewrite fexp64_eq; lia).
      reflexivity.
    + assert (Z.pos (digits2_pos pq) <= 53) as Hdq.
      { destruct (Z.le_gt_cases (Z.pos (digits2_pos pq)) 53) as [|Hgt]; [assumption|].
        assert (2 ^ 53 <= 2 ^ (Z.pos (digits2_pos pq) - 1))
          by (apply Z.pow_le_mono_r; lia). lia. }
      assert (SpecFloat.fexp prec emax (Z.pos (digits2_pos pq) + E) - E <= 0) as Hn'
        by (rewrite fexp64_eq; lia).
      destruct (SpecFloat.fexp prec emax (Z.pos (digits2_pos pq) + E) - E);
        try lia; reflexivity.
Qed.

(** ** The rounded mantissa and exponent *)

Lemma binary_round_aux_norm s m e :
  no_left_shift m e ->
  binary_round_aux prec emax s (Z.pos m) e loc_Exact
  = finalize s (norm_pair m e).1 (norm_pair m e).2.
Proof.
  intros HI. destruct (binary_round_aux_exact s m e HI) as [_ ->].
  unfold norm_pair. now destruct (_ =? 2 ^ 53).
Qed.

Lemma norm_pair_canonical m e :
  no_left_shift m e -> canonical_pair (norm_pair m e).1 (norm_pair m e).2.
Proof.
  intros HI. destruct (binary_round_aux_exact false m e HI) as [Hq _].
  unfold norm_pair, no_left_shift in *. cbv zeta in *.
  pose proof (digits2_pos_bounds m) as [Hlo Hhi].
  set (d := Z.pos (digits2_pos m)) in *.
  set (E := fexp64 (d + e)) in *.
  set (q := round_half_even (Z.pos m) (2 ^ (E - e))) in *.
  assert (-1074 <= E /\ d + e - 53 <= E /\ (-1074 < E -> E = d + e - 53))
    as (HEmin & HEd & HEn) by (unfold E; rewrite fexp64_eq; lia).
  destruct (Z.eqb_spec q (2 ^ 53)) as [H53|H53]; cbn [fst snd].
  - repeat split; try lia. 
  - repeat split; try lia. intros Hn. specialize (HEn Hn).
    apply round_half_even_lower; [apply Z.pow_pos_nonneg; lia|].
    replace (E - e) with (d - 53) by lia.
    rewrite <- Z.pow_add_r by lia. replace (52 + (d - 53)) with (d - 1) by lia.
    exact Hlo.
Qed.

Lemma digits_sum_le m1 e1 m2 e2 :
  e1 <= e2 -> Z.pos m1 <= Z.pos m2 * 2 ^ (e2 - e1) ->
  Z.pos (digits2_pos m1) + e1 <= Z.pos (digits2_pos m2) + e2.
Proof.
  intros He Hm.
  pose proof (digits2_pos_bounds m1) as [Hlo1 _].
  pose proof (digits2_pos_bounds m2) as [_ Hhi2].
  set (d1 := Z.pos (digits2_pos m1)) in *. set (d2 := Z.pos (digits2_pos m2)) in *.
  assert (0 < d1 /\ 0 < d2) as [? ?] by (unfold d1, d2; lia).
  assert (0 < 2 ^ (e2 - e1)) by (apply Z.pow_pos_nonneg; lia).
  assert (Z.pos m2 * 2 ^ (e2 - e1) < 2 ^ d2 * 2 ^ (e2 - e1))
    by (apply Z.mul_lt_mono_pos_r; lia).
  rewrite <- Z.pow_add_r in * by lia.
  assert (2 ^ (d1 - 1) < 2 ^ (d2 + (e2 - e1))) as Hpow by lia.
  apply Z.pow_lt_mono_r_iff in Hpow; lia.
Qed.

(** Rounding is monotone. *)
Lemma norm_pair_mono m1 e1 m2 e2 :
  no_left_shift m1 e1 -> no_left_shift m2 e2 ->
  e1 <= e2 -> Z.pos m1 <= Z.pos m2 * 2 ^ (e2 - e1) ->
  pair_le (norm_pair m1 e1).1 (norm_pair m1 e1).2
          (norm_pair m2 e2).1 (norm_pair m2 e2).2.
Proof.
  intros HI1 HI2 He Hm.
  pose proof (digits_sum_le m1 e1 m2 e2 He Hm) as Hd.
  pose proof (norm_pair_canonical m1 e1 HI1) as (Hq1 & HE1 & Hn1).
  pose proof (norm_pair_canonical m2 e2 HI2) as (Hq2 & HE2 & Hn2).
  destruct (binary_round_aux_exact false m1 e1 HI1) as [Hr1 _].
  destruct (binary_round_aux_exact false m2 e2 HI2) as [Hr2 _].
  unfold norm_pair, no_left_shift, pair_le in *. cbv zeta in *.
  pose proof (digits2_pos_bounds m2) as [Hlo2 Hhi2].
  set (d1 := Z.pos (digits2_pos m1)) in *. set (d2 := Z.pos (digits2_pos m2)) in *.
  set (E1 := fexp64 (d1 + e1)) in *. set (E2 := fexp64 (d2 + e2)) in *.
  set (q1 := round_half_even (Z.pos m1) (2 ^ (E1 - e1))) in *.
  set (q2 := round_half_even (Z.pos m2) (2 ^ (E2 - e2))) in *.
  assert (E1 <= E2) as HE by (unfold E1, E2; rewrite !fexp64_eq; lia).
  assert (-1074 <= E1) as HEmin1 by (unfold E1; rewrite fexp64_eq; lia).
  assert (-1074 < E2 -> E2 = d2 + e2 - 53) as HEn2
    by (unfold E2; rewrite fexp64_eq; lia).
  destruct (Z.eq_dec E1 E2) as [Heq|Hne].
  - assert (q1 <= q2) as Hq.
    { unfold q1, q2. rewrite Heq. apply round_half_even_mono.
      - apply Z.pow_pos_nonneg; lia.
      - apply Z.pow_pos_nonneg; lia.
      - replace (E2 - e1) with ((e2 - e1) + (E2 - e2)) by lia.
        rewrite Z.pow_add_r by lia.
        assert (0 < 2 ^ (E2 - e2)) by (apply Z.pow_pos_nonneg; lia).
        assert (Z.pos m1 * 2 ^ (E2 - e2)
                <= Z.pos m2 * 2 ^ (e2 - e1) * 2 ^ (E2 - e2))
          by (apply Z.mul_le_mono_nonneg_r; lia).
        lia. }
    destruct (Z.eqb_spec q1 (2 ^ 53)) as [A|A];
      destruct (Z.eqb_spec q2 (2 ^ 53)) as [B|B]; cbn [fst snd] in *; lia.
  - assert (2 ^ 52 <= q2) as Hq2'.
    { apply round_half_even_lower; [apply Z.pow_pos_nonneg; lia|].
      replace (E2 - e2) with (d2 - 53) by lia.
      rewrite <- Z.pow_add_r by lia. replace (52 + (d2 - 53)) with (d2 - 1) by lia.
      exact Hlo2. }
    destruct (Z.eqb_spec q1 (2 ^ 53)) as [A|A];
      destruct (Z.eqb_spec q2 (2 ^ 53)) as [B|B]; cbn [fst snd] in *; lia.
Qed.

Lemma finalize_valid s q E :
  canonical_pair q E -> valid_binary (finalize s q E) = true.
Proof.
  intros (Hq & HE & Hn). unfold finalize.
  destruct q as [|p|p]; try reflexivity.
  destruct (Z.leb_spec E 971) as [H971|H971]; [|reflexivity].
  unfold valid_binary. cbn [SpecFloat.valid_binary]. unfold bounded, canonical_mantissa.
  apply andb_true_iff. split; [|apply Z.leb_le; exact H971].
  apply Z.eqb_eq. rewrite fexp64_eq.
  pose proof (digits2_pos_bounds p) as [Hlo Hhi].
  assert (Z.pos (digits2_pos p) <= 53).
  { destruct (Z.le_gt_cases (Z.pos (digits2_pos p)) 53) as [|Hgt]; [assumption|].
    assert (2 ^ 53 <= 2 ^ (Z.pos (digits2_pos p) - 1))
      by (apply Z.pow_le_mono_r; lia). lia. }
  destruct (Z.eq_dec E (-1074)) as [->|HneE]; [lia|].
  assert (2 ^ 52 <= Z.pos p) as H52 by (apply Hn; lia).
  assert (53 <= Z.pos (digits2_pos p)).
  { destruct (Z.le_gt_cases 53 (Z.pos (digits2_pos p))) as [|Hlt]; [assumption|].
    assert (2 ^ Z.pos (digits2_pos p) <= 2 ^ 52)
      by (apply Z.pow_le_mono_r; lia). lia. }
  lia.
Qed.

Lemma SFleb_finalize q1 E1 q2 E2 :
  0 <= q1 -> 0 <= q2 -> pair_le q1 E1 q2 E2 ->
  SFleb (finalize false q1 E1) (finalize false q2 E2) = true.
Proof.
  intros H1 H2 Hle. unfold pair_le in Hle. unfold finalize, SFleb.
  destruct q1 as [|p1|p1]; try lia.
  - destruct q2 as [|p2|p2]; try lia; [reflexivity|].
    now destruct (E2 <=? 971).
  - destruct Hle as [Hle|(_ & Hq2 & Hle)]; [discriminate|].
    destruct q2 as [|p2|p2]; try lia.
    destruct (Z.leb_spec E2 971) as [B|B].
    + destruct (Z.leb_spec E1 971) as [A|A]; [|lia].
      cbn [SFcompare]. destruct Hle as [Hlt|[-> Hq]].
      * apply Z.compare_lt_iff in Hlt. now rewrite Hlt.
      * rewrite Z.compare_refl.
        change (Pos.compare_cont Eq p1 p2) with (Pos.compare p1 p2).
        destruct (Pos.compare_spec p1 p2); try reflexivity. lia.
    + now destruct (E1 <=? 971).
Qed.

(** ** Conversion of a positive integer *)

Lemma iter_xO_value (d m : positive) :
  Z.pos (Pos.iter xO m d) = Z.pos m * 2 ^ Z.pos d.
Proof.
  induction d as [|d IH] using Pos.peano_ind.
  - cbn. lia.
  - rewrite Pos.iter_succ, Pos2Z.inj_xO, IH, Pos2Z.inj_succ, Z.pow_succ_r by lia. lia.
Qed.

Lemma shl_align_spec m e :
  let out := shl_align m e (fexp64 (Z.pos (digits2_pos m) + e)) in
  no_left_shift out.1 out.2
  /\ out.2 = Z.min e (fexp64 (Z.pos (digits2_pos m) + e))
  /\ Z.pos out.1 = Z.pos m * 2 ^ (e - out.2).
Proof.
  cbv zeta. unfold shl_align, no_left_shift.
  set (E := fexp64 (Z.pos (digits2_pos m) + e)).
  destruct (E - e) as [|p|p] eqn:Hn; cbn [fst snd].
  - fold E. repeat split; try lia. rewrite Z.sub_diag. cbn. lia.
  - fold E. repeat split; try lia. rewrite Z.sub_diag. cbn. lia.
  - assert (e - E = Z.pos p) as Hp by lia.
    rewrite (digits2_pos_mul_pow2 m (Z.pos p)); [| lia | apply iter_xO_value].
    replace (Z.pos (digits2_pos m) + Z.pos p + E) with (Z.pos (digits2_pos m) + e) by lia.
    fold E. repeat split; try lia. rewrite Hp. apply iter_xO_value.
Qed.

Lemma binary_normalize_pos p :
  binary_normalize prec emax (Z.pos p) 0 false
  = finalize false (of_pos_pair p).1 (of_pos_pair p).2.
Proof.
  cbn [binary_normalize]. unfold binary_round, of_pos_pair.
  pose proof (shl_align_spec p 0) as (HI & _ & _). cbv zeta in *.
  change (SpecFloat.fexp prec emax) with fexp64.
  destruct (shl_align p 0 (fexp64 (Z.pos (digits2_pos p) + 0))) as [mz ez].
  cbn [fst snd] in *. now apply binary_round_aux_norm.
Qed.

Lemma of_pos_pair_canonical p :
  canonical_pair (of_pos_pair p).1 (of_pos_pair p).2
  /\ 2 ^ 52 <= (of_pos_pair p).1.
Proof.
  unfold of_pos_pair.
  pose proof (shl_align_spec p 0) as (HI & He & Hm). cbv zeta in *.
  destruct (shl_align p 0 (fexp64 (Z.pos (digits2_pos p) + 0))) as [mz ez].
  cbn [fst snd] in *.
  pose proof (norm_pair_canonical mz ez HI) as Hc. split; [exact Hc|].
  destruct Hc as (_ & _ & Hn). apply Hn.
  destruct (binary_round_aux_exact false mz ez HI) as [_ _].
  unfold norm_pair. cbv zeta.
  assert (-1074 < fexp64 (Z.pos (digits2_pos mz) + ez)).
  { rewrite (digits2_pos_mul_pow2 p (0 - ez) ltac:(lia) mz Hm).
    rewrite !fexp64_eq in *. lia. }
  destruct (_ =? 2 ^ 53); cbn [snd]; lia.
Qed.

Lemma of_pos_pair_mono p1 p2 :
  (p1 <= p2)%positive ->
  pair_le (of_pos_pair p1).1 (of_pos_pair p1).2
          (of_pos_pair p2).1 (of_pos_pair p2).2.
Proof.
  intros Hp. unfold of_pos_pair.
  pose proof (shl_align_spec p1 0) as (HI1 & He1 & Hm1).
  pose proof (shl_align_spec p2 0) as (HI2 & He2 & Hm2). cbv zeta in *.
  destruct (shl_align p1 0 (fexp64 (Z.pos (digits2_pos p1) + 0))) as [m1 e1].
  destruct (shl_align p2 0 (fexp64 (Z.pos (digits2_pos p2) + 0))) as [m2 e2].
  cbn [fst snd] in *.
  assert (Z.pos (digits2_pos p1) + 0 <= Z.pos (digits2_pos p2) + 0) as Hd.
  { apply digits_sum_le; [lia|]. cbn. lia. }
  assert (e1 <= e2) as He by (rewrite He1, He2, !fexp64_eq; lia).
  apply norm_pair_mono; try assumption.
  rewrite Hm1, Hm2, <- Z.mul_assoc, <- Z.pow_add_r by lia.
  replace (0 - e2 + (e2 - e1)) with (0 - e1) by lia.
  apply Z.mul_le_mono_nonneg_r; [apply Z.pow_nonneg; lia|lia].
Qed.

(** ** Multiplication *)

Lemma bounded_canonical m e :
  bounded prec emax m e = true -> canonical_pair (Z.pos m) e /\ e <= 971.
Proof.
  unfold bounded, canonical_mantissa. rewrite andb_true_iff, Z.eqb_eq, Z.leb_le.
  change (SpecFloat.fexp prec emax) with fexp64. rewrite fexp64_eq.
  intros [Hc He]. split; [|exact He].
  pose proof (digits2_pos_bounds m) as [Hlo Hhi].
  set (d := Z.pos (digits2_pos m)) in *.
  assert (d <= 53) by lia.
  assert (2 ^ d <= 2 ^ 53) by (apply Z.pow_le_mono_r; lia).
  repeat split; try lia.
  intros Hn. assert (d = 53) as Hd by lia. rewrite Hd in Hlo. exact Hlo.
Qed.

Lemma product_no_left_shift m1 e1 m2 e2 :
  canonical_pair (Z.pos m1) e1 -> canonical_pair (Z.pos m2) e2 ->
  no_left_shift (m1 * m2) (e1 + e2).
Proof.
  intros (Hq1 & HE1 & Hn1) (Hq2 & HE2 & Hn2). unfold no_left_shift.
  rewrite fexp64_eq.
  pose proof (digits2_pos_bounds (m1 * m2)) as [_ Hhi].
  set (d := Z.pos (digits2_pos (m1 * m2))) in *.
  assert (0 < d) by (unfold d; lia).
  destruct (Z.eq_dec e1 (-1074)) as [A|A]; destruct (Z.eq_dec e2 (-1074)) as [B|B];
    try lia.
  - assert (2 ^ 52 <= Z.pos m2) by (apply Hn2; lia).
    assert (2 ^ 52 < 2 ^ d) as Hp by (rewrite Pos2Z.inj_mul in Hhi; nia).
    apply Z.pow_lt_mono_r_iff in Hp; lia.
  - assert (2 ^ 52 <= Z.pos m1) by (apply Hn1; lia).
    assert (2 ^ 52 < 2 ^ d) as Hp by (rewrite Pos2Z.inj_mul in Hhi; nia).
    apply Z.pow_lt_mono_r_iff in Hp; lia.
  - assert (2 ^ 52 <= Z.pos m1) by (apply Hn1; lia).
    assert (2 ^ 52 < 2 ^ d) as Hp by (rewrite Pos2Z.inj_mul in Hhi; nia).
    apply Z.pow_lt_mono_r_iff in Hp; lia.
Qed.

(** Multiplying two ordered positive floats by a positive float keeps
    their order. *)
Lemma SFmul_pairs m1 e1 m2 e2 mc ec :
  canonical_pair (Z.pos m1) e1 -> canonical_pair (Z.pos m2) e2 ->
  canonical_pair (Z.pos mc) ec ->
  pair_le (Z.pos m1) e1 (Z.pos m2) e2 ->
  exists q1 E1 q2 E2,
    SFmul prec emax (S754_finite false m1 e1) (S754_finite false mc ec)
    = finalize false q1 E1
    /\ SFmul prec emax (S754_finite false m2 e2) (S754_finite false mc ec)
       = finalize false q2 E2
    /\ canonical_pair q1 E1 /\ canonical_pair q2 E2 /\ pair_le q1 E1 q2 E2.
Proof.
  intros C1 C2 Cc Hle. cbn [SFmul xorb].
  pose proof (product_no_left_shift _ _ _ _ C1 Cc) as HI1.
  pose proof (product_no_left_shift _ _ _ _ C2 Cc) as HI2.
  rewrite !binary_round_aux_norm by assumption.
  do 4 eexists. split; [reflexivity|]. split; [reflexivity|].
  split; [now apply norm_pair_canonical|]. split; [now apply norm_pair_canonical|].
  destruct C1 as (Hm1 & HE1 & _), C2 as (Hm2 & HE2 & Hn2).
  destruct Hle as [Hle|(_ & _ & [Hlt|[-> Hq]])]; [lia| |].
  - apply norm_pair_mono; try assumption; [lia|].
    replace (e2 + ec - (e1 + ec)) with (e2 - e1) by lia.
    assert (2 ^ 52 <= Z.pos m2) by (apply Hn2; lia).
    assert (2 ^ 1 <= 2 ^ (e2 - e1)) by (apply Z.pow_le_mono_r; lia).
    rewrite !Pos2Z.inj_mul.
    assert (Z.pos m1 <= Z.pos m2 * 2 ^ (e2 - e1)) by nia.
    assert (Z.pos m1 * Z.pos mc <= Z.pos m2 * 2 ^ (e2 - e1) * Z.pos mc)
      by (apply Z.mul_le_mono_nonneg_r; lia).
    lia.
  - apply norm_pair_mono; try assumption; [lia|].
    rewrite Z.sub_diag, Z.mul_1_r, !Pos2Z.inj_mul.
    apply Z.mul_le_mono_nonneg_r; lia.
Qed.

(** ** Formatting keeps the order *)

Lemma centi_nonneg m e : 0 <= centi m e.
Proof.
  unfold centi. destruct (Z.leb_spec 0 e).
  - assert (0 < 2 ^ e) by (apply Z.pow_pos_nonneg; lia). nia.
  - apply round_half_even_lower; [apply Z.pow_pos_nonneg|]; lia.
Qed.

Lemma centi_mono m1 e1 m2 e2 :
  e1 <= e2 -> Z.pos m1 <= Z.pos m2 * 2 ^ (e2 - e1) ->
  centi m1 e1 <= centi m2 e2.
Proof.
  intros He Hm. unfold centi.
  destruct (Z.leb_spec 0 e1) as [H1|H1], (Z.leb_spec 0 e2) as [H2|H2]; try lia.
  - replace e2 with ((e2 - e1) + e1) at 1 by lia. rewrite Z.pow_add_r by lia.
    assert (0 < 2 ^ e1) by (apply Z.pow_pos_nonneg; lia).
    assert (Z.pos m1 * 2 ^ e1 <= Z.pos m2 * 2 ^ (e2 - e1) * 2 ^ e1)
      by (apply Z.mul_le_mono_nonneg_r; lia).
    lia.
  - rewrite <- (round_half_even_one (Z.pos m2 * 100 * 2 ^ e2)).
    apply round_half_even_mono; [apply Z.pow_pos_nonneg; lia|lia|].
    replace (e2 - e1) with (e2 + - e1) in Hm by lia.
    rewrite Z.pow_add_r in Hm by lia. lia.
  - assert (0 < 2 ^ (- e2)) by (apply Z.pow_pos_nonneg; lia).
    apply round_half_even_mono; try (apply Z.pow_pos_nonneg; lia).
    replace (- e1) with ((e2 - e1) + - e2) by lia. rewrite Z.pow_add_r by lia.
    assert (Z.pos m1 * 2 ^ (- e2) <= Z.pos m2 * 2 ^ (e2 - e1) * 2 ^ (- e2))
      by (apply Z.mul_le_mono_nonneg_r; lia).
    lia.
Qed.

Lemma sf_centi_finalize_mono q1 E1 q2 E2 c1 c2 :
  canonical_pair q1 E1 -> canonical_pair q2 E2 -> pair_le q1 E1 q2 E2 ->
  sf_centi (finalize false q1 E1) = Some c1 ->
  sf_centi (finalize false q2 E2) = Some c2 ->
  c1 <= c2.
Proof.
  intros (Hq1 & HE1 & Hn1) (Hq2 & HE2 & Hn2) Hle. unfold finalize.
  destruct q1 as [|p1|p1], q2 as [|p2|p2]; try lia;
    destruct (E1 <=? 971), (E2 <=? 971); cbn [sf_centi];
    intros [= <-] [= <-]; try lia; try apply centi_nonneg.
  - destruct Hle as [Hle|(_ & _ & Hle)]; lia.
  - destruct Hle as [Hle|(_ & _ & Hle)]; lia.
  - destruct Hle as [Hle|(_ & _ & [Hlt|[-> Hq]])]; [lia| |].
    + apply centi_mono; [lia|].
      assert (2 ^ 52 <= Z.pos p2) by (apply Hn2; lia).
      assert (2 ^ 1 <= 2 ^ (E2 - E1)) by (apply Z.pow_le_mono_r; lia).
      nia.
    + apply centi_mono; [lia|]. rewrite Z.sub_diag. lia.
Qed.

(** ** Signs *)

Lemma shr_1_nonneg rec : 0 <= shr_m rec -> 0 <= shr_m (shr_1 rec).
Proof. destruct rec as [[|[p|p|]|p] r s]; cbn; lia. Qed.

Lemma shr_nonneg rec e n : 0 <= shr_m rec -> 0 <= shr_m (shr rec e n).1.
Proof.
  intros H. destruct n as [|p|p]; cbn [shr fst]; try exact H.
  rewrite iter_pos_nat.
  induction (Pos.to_nat p) as [|k IH]; cbn [Nat.iter]; [exact H|].
  now apply shr_1_nonneg.
Qed.

Lemma shr_record_of_loc_m m l : shr_m (shr_record_of_loc m l) = m.
Proof. destruct l as [|[]]; reflexivity. Qed.

Lemma round_nearest_even_nonneg m l : 0 <= m -> 0 <= round_nearest_even m l.
Proof.
  destruct l as [|[]]; cbn [round_nearest_even]; try lia. destruct (Z.even m); lia.
Qed.

(** Rounding a non-negative mantissa never produces a NaN nor changes the
    sign it was given. *)
Lemma binary_round_aux_sign s mx ex lx :
  0 <= mx -> has_sign s (binary_round_aux prec emax s mx ex lx).
Proof.
  intros H. unfold binary_round_aux, shr_fexp.
  match goal with |- context [shr ?r ?e ?n] =>
    pose proof (shr_nonneg r e n) as H1; destruct (shr r e n) as [mrs' e'] end.
  rewrite shr_record_of_loc_m in H1. specialize (H1 H). cbn [fst] in H1.
  match goal with |- context [shr ?r ?e ?n] =>
    pose proof (shr_nonneg r e n) as H2; destruct (shr r e n) as [mrs'' e''] end.
  rewrite shr_record_of_loc_m in H2. cbn [fst] in H2.
  specialize (H2 (round_nearest_even_nonneg _ _ H1)).
  destruct (shr_m mrs''); [reflexivity| |lia].
  destruct (_ <=? _)%Z; reflexivity.
Qed.

Lemma SFdiv_core_nonneg m1 e1 m2 e2 :
  0 <= (SFdiv_core_binary prec emax (Z.pos m1) e1 (Z.pos m2) e2).1.1.
Proof.
  unfold SFdiv_core_binary. cbv zeta.
  match goal with |- context [Z.div_eucl ?a ?b] =>
    assert (0 <= a) as Ha;
    [|pose proof (Z.div_pos a b Ha ltac:(lia)) as Hq; unfold Z.div in Hq;
      destruct (Z.div_eucl a b) as [q r]; exact Hq] end.
  match goal with |- 0 <= match ?s with _ => _ end => destruct s end; try lia.
  apply Z.shiftl_nonneg. lia.
Qed.

Lemma SFdiv_sign m1 e1 y :
  (exists m e, y = S754_finite false m e) \/ y = S754_infinity false ->
  has_sign false (SFdiv prec emax (S754_finite false m1 e1) y).
Proof.
  intros [(m & e & ->)| ->]; cbn [SFdiv xorb]; [|reflexivity].
  pose proof (SFdiv_core_nonneg m1 e1 m e) as Hq.
  destruct (SFdiv_core_binary prec emax (Z.pos m1) e1 (Z.pos m) e) as [[mz ez] lz].
  now apply binary_round_aux_sign.
Qed.

Lemma has_sign_finalize s q E : 0 <= q -> has_sign s (finalize s q E).
Proof.
  intros Hq. unfold finalize. destruct q; try lia; [reflexivity|].
  destruct (E <=? 971); reflexivity.
Qed.

(** ** Python floats *)

Lemma positive_float x :
  (0 <? x)%float = true ->
  (exists m e, Prim2SF x = S754_finite false m e) \/ Prim2SF x = S754_infinity false.
Proof.
  rewrite ltb_spec. replace (Prim2SF 0) with (S754_zero false) by reflexivity.
  unfold SFltb. destruct (Prim2SF x) as [s|s| |s m e]; cbn [SFcompare];
    try destruct s; try discriminate; eauto.
Qed.

Lemma positive_float_nonzero x : (0 <? x)%float = true -> (x =? 0)%float = false.
Proof.
  intros H. rewrite FloatAxioms.eqb_spec. replace (Prim2SF 0) with (S754_zero false) by reflexivity.
  destruct (positive_float x H) as [(m & e & ->)| ->]; reflexivity.
Qed.

Lemma py_truediv_positive x y :
  (0 <? y)%float = true -> py_truediv x y = Ok (x / y)%float.
Proof. intros H. unfold py_truediv. now rewrite positive_float_nonzero. Qed.

Lemma per_ms_sign lat :
  (0 <? lat)%float = true -> has_sign false (Prim2SF (1000 / lat)).
Proof.
  intros H. rewrite div_spec.
  assert (exists m e, Prim2SF 1000 = S754_finite false m e) as (m & e & ->)
    by (vm_compute; eauto).
  apply SFdiv_sign, positive_float, H.
Qed.

Lemma of_pos_pair_exponent p :
  (of_pos_pair p).2 <= Z.pos (digits2_pos p) - 52.
Proof.
  unfold of_pos_pair.
  pose proof (shl_align_spec p 0) as (HI & He & Hm). cbv zeta in *.
  destruct (shl_align p 0 (fexp64 (Z.pos (digits2_pos p) + 0))) as [mz ez].
  cbn [fst snd] in *. unfold norm_pair. cbv zeta.
  assert (fexp64 (Z.pos (digits2_pos mz) + ez) <= Z.pos (digits2_pos p) - 53).
  { rewrite (digits2_pos_mul_pow2 p (0 - ez) ltac:(lia) mz Hm).
    rewrite !fexp64_eq in *. lia. }
  destruct (_ =? 2 ^ 53); cbn [snd]; lia.
Qed.

(** [float(z)] for a positive [z]: the rounded mantissa and exponent, or an
    [OverflowError] past the largest exponent. *)
Lemma float_of_Z_pos p :
  if (of_pos_pair p).2 <=? 971
  then exists b m, float_of_Z (Z.pos p) = Ok b
                   /\ Prim2SF b = S754_finite false m (of_pos_pair p).2
                   /\ Z.pos m = (of_pos_pair p).1
  else float_of_Z (Z.pos p) = Raise OverflowError.
Proof.
  unfold float_of_Z. rewrite binary_normalize_pos.
  destruct (of_pos_pair_canonical p) as [Hc Hq].
  pose proof (finalize_valid false _ _ Hc) as Hv.
  unfold PrimFloat.is_infinity. rewrite FloatAxioms.eqb_spec, abs_spec, (Prim2SF_SF2Prim _ Hv).
  replace (Prim2SF infinity) with (S754_infinity false) by reflexivity.
  revert Hv. unfold finalize.
  destruct (of_pos_pair p).1 as [|q|q] eqn:Eq; try lia.
  destruct (Z.leb_spec (of_pos_pair p).2 971) as [HE|HE]; intros Hv.
  - cbn [SFabs SFeqb SFcompare]. eexists _, q. split; [reflexivity|].
    split; [|reflexivity]. rewrite Prim2SF_SF2Prim by exact Hv. reflexivity.
  - reflexivity.
Qed.

Lemma float_of_Z_small z :
  0 < z < 2 ^ 1023 -> exists b, float_of_Z z = Ok b.
Proof.
  intros [Hlo Hhi]. destruct z as [|p|p]; try lia.
  pose proof (float_of_Z_pos p) as H. pose proof (of_pos_pair_exponent p) as HE.
  pose proof (digits2_pos_bounds p) as [Hd _].
  assert (Z.pos (digits2_pos p) - 1 < 1023).
  { apply (Z.pow_lt_mono_r_iff 2); lia. }
  destruct (Z.leb_spec (of_pos_pair p).2 971); [|lia].
  destruct H as (b & _ & H & _). eauto.
Qed.

(** The number behind [QPS] does not decrease with the batch size. *)
Lemma throughput_monotone lat B1 B2 b2 :
  (0 <? lat)%float = true -> 0 < B1 <= B2 -> float_of_Z B2 = Ok b2 ->
  exists b1, float_of_Z B1 = Ok b1
    /\ throughput B1 lat = Ok (b1 * (1000 / lat))%float
    /\ throughput B2 lat = Ok (b2 * (1000 / lat))%float
    /\ has_sign false (Prim2SF (b1 * (1000 / lat)))
    /\ has_sign false (Prim2SF (b2 * (1000 / lat)))
    /\ (b1 * (1000 / lat) <=? b2 * (1000 / lat))%float = true
    /\ (forall c1 c2,
          printed_centi (b1 * (1000 / lat)) = Some c1 ->
          printed_centi (b2 * (1000 / lat)) = Some c2 -> c1 <= c2).
Proof.
  intros Hlat [H1 H12] Hb2. unfold throughput. rewrite (py_truediv_positive _ _ Hlat), Hb2.
  destruct B1 as [|p1|p1], B2 as [|p2|p2]; try lia.
  pose proof (of_pos_pair_mono p1 p2 ltac:(lia)) as Hle.
  destruct (of_pos_pair_canonical p1) as [Hc1 Hq1].
  destruct (of_pos_pair_canonical p2) as [Hc2 Hq2].
  pose proof (float_of_Z_pos p1) as F1. pose proof (float_of_Z_pos p2) as F2.
  destruct (Z.leb_spec (of_pos_pair p2).2 971) as [HE2|HE2]; [|congruence].
  destruct F2 as (b2' & m2 & F2 & S2 & Q2).
  assert (b2' = b2) as -> by congruence.
  assert ((of_pos_pair p1).2 <= (of_pos_pair p2).2) as HE12.
  { destruct Hle as [Hle|(_ & _ & [Hle|[Hle _]])]; lia. }
  destruct (Z.leb_spec (of_pos_pair p1).2 971) as [HE1|HE1]; [|lia].
  destruct F1 as (b1 & m1 & F1 & S1 & Q1).
  exists b1. rewrite F1. do 3 (split; [reflexivity|]).
  unfold printed_centi. rewrite leb_spec, !mul_spec, S1, S2. unfold SF64mul.
  rewrite <- Q1 in Hc1, Hle. rewrite <- Q2 in Hc2, Hle.
  pose proof (per_ms_sign lat Hlat) as Hs.
  pose proof (Prim2SF_valid (1000 / lat)) as Hv.
  destruct (Prim2SF (1000 / lat)) as [s|s| |s mc ec]; cbn [has_sign] in Hs;
    try contradiction; subst s.
  - do 3 (split; [reflexivity|]). cbn. intros c1 c2 [= <-] [= <-]. lia.
  - do 3 (split; [reflexivity|]). cbn. discriminate.
  - destruct (bounded_canonical mc ec Hv) as [Cc _].
    destruct (SFmul_pairs m1 _ m2 _ mc ec Hc1 Hc2 Cc Hle)
      as (P1 & X1 & P2 & X2 & -> & -> & CP1 & CP2 & HP).
    split; [apply has_sign_finalize, CP1|].
    split; [apply has_sign_finalize, CP2|].
    split.
    + apply SFleb_finalize; [apply CP1|apply CP2|exact HP].
    + intros c1 c2. now apply sf_centi_finalize_mono.
Qed.

(** ** The average latency *)

Lemma float_of_len_nonzero {A} (l : list A) :
  l <> [] -> (float_of_len l =? 0)%float = false.
Proof.
  intros Hl. unfold float_of_len.
  destruct l as [|a l]; [contradiction|]. cbn [length].
  destruct (Z.of_nat (S (length l))) as [|p|p] eqn:Ep; try lia.
  rewrite binary_normalize_pos.
  destruct (of_pos_pair_canonical p) as [Hc Hq].
  rewrite FloatAxioms.eqb_spec, (Prim2SF_SF2Prim _ (finalize_valid false _ _ Hc)).
  replace (Prim2SF 0) with (S754_zero false) by reflexivity.
  unfold finalize. destruct (of_pos_pair p).1; try lia.
  destruct (_ <=? 971); reflexivity.
Qed.

Lemma latency_ms_nonempty runtimes :
  runtimes <> [] -> latency_ms runtimes = Ok (mean_ms runtimes).
Proof.
  intros Hl. unfold latency_ms, py_truediv.
  now rewrite (float_of_len_nonzero runtimes Hl).
Qed.

Lemma latency_ms_empty : latency_ms [] = Raise ZeroDivisionError.
Proof. reflexivity. Qed.

Lemma py_truediv_nonzero x y :
  (y =? 0)%float = false -> py_truediv x y = Ok (x / y)%float.
Proof. intros H. unfold py_truediv. now rewrite H. Qed.

(** The reducer returns exactly when the latency is not zero and the batch
    size converts. *)
Lemma get_latency_result_Ok `{Numpy} runtimes batch_size b :
  runtimes <> [] -> (mean_ms runtimes =? 0)%float = false ->
  float_of_Z batch_size = Ok b ->
  get_latency_result runtimes batch_size
  = Ok {| lr_test_times := Z.of_nat (length runtimes);
          lr_latency_variance := format_2f (numpy_var runtimes * 1000)%float;
          lr_latency_90_percentile :=
            format_2f (numpy_percentile runtimes 90 * 1000)%float;
          lr_latency_95_percentile :=
            format_2f (numpy_percentile runtimes 95 * 1000)%float;
          lr_latency_99_percentile :=
            format_2f (numpy_percentile runtimes 99 * 1000)%float;
          lr_average_latency_ms := format_2f (mean_ms runtimes);
          lr_QPS := format_2f (b * (1000 / mean_ms runtimes))%float |}.
Proof.
  intros Hl Hz Hb. unfold get_latency_result, throughput.
  now rewrite (latency_ms_nonempty _ Hl), (py_truediv_nonzero _ _ Hz), Hb.
Qed.

Lemma format_2f_printed x c :
  has_sign false (Prim2SF x) -> printed_centi x = Some c ->
  format_2f x = render_centi c.
Proof.
  unfold printed_centi, format_2f.
  destruct (Prim2SF x) as [s|s| |s m e]; cbn [has_sign sf_centi];
    intros Hs [= <-]; subst s; reflexivity.
Qed.

(** ** The statistics reducer *)

Section Reducer.
Context `{Numpy}.

(** C3: for a non-empty list of durations whose average latency is not
    zero, and a batch size that converts to a float, the reducer returns a
    result whose [latency_variance] is [numpy.var] of the durations in
    seconds times 1000, once, and whose [average_latency_ms] is their mean
    times 1000, both with two decimals. *)
Theorem C3_variance_and_average runtimes batch_size b :
  runtimes <> [] ->
  (mean_ms runtimes =? 0)%float = false ->
  float_of_Z batch_size = Ok b ->
  exists r,
    get_latency_result runtimes batch_size = Ok r
    /\ lr_latency_variance r = format_2f (numpy_var runtimes * 1000)%float
    /\ lr_average_latency_ms r
       = format_2f (py_sum runtimes / float_of_len runtimes * 1000)%float.
Proof.
  intros Hl Hz Hb. eexists.
  split; [exact (get_latency_result_Ok runtimes batch_size b Hl Hz Hb)|].
  split; reflexivity.
Qed.


(** C7: for a non-empty list of durations with a positive average latency
    and batch sizes [0 < B1 <= B2] that convert to floats, the [QPS] fields
    are [B * (1000 / latency)] with two decimals, for the latency before it
    is formatted, and neither the products nor the hundredths printed for
    them decrease from [B1] to [B2]. *)
Theorem C7_qps_monotone runtimes B1 B2 b2 :
  runtimes <> [] ->
  (0 <? mean_ms runtimes)%float = true ->
  0 < B1 <= B2 ->
  float_of_Z B2 = Ok b2 ->
  exists b1 r1 r2,
    float_of_Z B1 = Ok b1
    /\ get_latency_result runtimes B1 = Ok r1
    /\ get_latency_result runtimes B2 = Ok r2
    /\ lr_QPS r1 = format_2f (b1 * (1000 / mean_ms runtimes))%float
    /\ lr_QPS r2 = format_2f (b2 * (1000 / mean_ms runtimes))%float
    /\ (b1 * (1000 / mean_ms runtimes) <=? b2 * (1000 / mean_ms runtimes))%float
       = true
    /\ (forall c1 c2,
          printed_centi (b1 * (1000 / mean_ms runtimes)) = Some c1 ->
          printed_centi (b2 * (1000 / mean_ms runtimes)) = Some c2 ->
          lr_QPS r1 = render_centi c1 /\ lr_QPS r2 = render_centi c2
          /\ c1 <= c2).
Proof.
  intros Hl Hpos HB Hb2.
  destruct (throughput_monotone _ _ _ _ Hpos HB Hb2)
    as (b1 & Hb1 & _ & _ & Hs1 & Hs2 & Hle & Hc).
  pose proof (positive_float_nonzero _ Hpos) as Hz.
  exists b1. do 2 eexists. split; [exact Hb1|].
  split; [exact (get_latency_result_Ok runtimes B1 b1 Hl Hz Hb1)|].
  split; [exact (get_latency_result_Ok runtimes B2 b2 Hl Hz Hb2)|].
  cbn [lr_QPS]. do 2 (split; [reflexivity|]). split; [exact Hle|].
  intros c1 c2 H1 H2. split; [|split; [|now apply Hc]].
  - now apply format_2f_printed.
  - now apply format_2f_printed.
Qed.

End Reducer.

(** On durations of half a second and a second and a half the variance,
    0.25 s^2, is reported as 250.00 and the average as 1000.00. *)
Lemma C3_witness :
  exists r,
    @get_latency_result numpy_reference [0.5; 1.5]%float 1 = Ok r
    /\ lr_latency_variance r = "250.00"
    /\ lr_average_latency_ms r = "1000.00".
Proof.
  destruct (C3_variance_and_average (H := numpy_reference) [0.5; 1.5]%float 1 1%float)
    as (r & Hr & Hv & Ha); [discriminate|reflexivity|reflexivity|].
  exists r. rewrite Hv, Ha. split; [exact Hr|]. split; vm_compute; reflexivity.
Defined.

(** C3 fails on durations that are all zero: the mean is 0.0, and the
    quotient [1000.0 / latency_ms] raises before any field exists. *)
Lemma C3_zero_durations_raise :
  @get_latency_result numpy_reference [0; 0; 0]%float 1 = Raise ZeroDivisionError.
Proof. vm_compute. reflexivity. Qed.



(** The spec's example at batch sizes 1 and 8. *)
Lemma C7_witness :
  exists r1 r2,
    @get_latency_result numpy_reference ex_runtimes 1 = Ok r1
    /\ @get_latency_result numpy_reference ex_runtimes 8 = Ok r2
    /\ lr_QPS r1 = "89.29" /\ lr_QPS r2 = "714.29".
Proof.
  destruct (C7_qps_monotone (H := numpy_reference) ex_runtimes 1 8 8%float)
    as (b1 & r1 & r2 & Hb1 & H1 & H2 & Q1 & Q2 & _);
    [discriminate|reflexivity|lia|reflexivity|].
  exists r1, r2. rewrite Q1, Q2. injection Hb1 as <-.
  split; [exact H1|]. split; [exact H2|]. split; vm_compute; reflexivity.
Defined.

(** C7 fails where the average latency is zero: no batch size has a QPS. *)
Lemma C7_no_qps_at_zero_latency :
  @get_latency_result numpy_reference [0; 0]%float 1 = Raise ZeroDivisionError
  /\ @get_latency_result numpy_reference [0; 0]%float 2 = Raise ZeroDivisionError.
Proof. vm_compute. split; reflexivity. Qed.

(** ** flatten and update_flatten_list *)

Lemma Nested_ind' {A} (P : Nested A -> Prop) :
  (forall a, P (Leaf a)) ->
  (forall items, Forall P items -> P (Seq items)) ->
  forall x, P x.
Proof.
  intros HL HS. fix IH 1. intros [a|items]; [apply HL|].
  apply HS. induction items as [|i items IHi]; constructor; [apply IH|exact IHi].
Qed.

Lemma update_flatten_list_cons {A} (i : Nested A) rest res_list :
  update_flatten_list (i :: rest) res_list
  = update_flatten_list rest (update_flatten_step i res_list).
Proof. reflexivity. Qed.

Lemma update_flatten_step_Seq {A} (items : list (Nested A)) res_list :
  update_flatten_step (Seq items) res_list = update_flatten_list items res_list.
Proof. reflexivity. Qed.

(** A walk appends the tensors it meets, in order, to what was collected. *)
Lemma update_flatten_step_leaves {A} (x : Nested A) :
  forall res_list, update_flatten_step x res_list = res_list ++ leaves x.
Proof.
  induction x as [a|items IH] using Nested_ind'; intros res_list; [reflexivity|].
  rewrite update_flatten_step_Seq. cbn [leaves].
  revert res_list. induction IH as [|i items Hi _ IHitems]; intros res_list.
  - cbn. now rewrite app_nil_r.
  - rewrite update_flatten_list_cons, Hi, IHitems. cbn [flat_map].
    now rewrite app_assoc.
Qed.

Lemma update_flatten_list_leaves {A} (inputs : list (Nested A)) res_list :
  update_flatten_list inputs res_list = res_list ++ flat_map leaves inputs.
Proof.
  change (update_flatten_list inputs res_list)
    with (update_flatten_step (Seq inputs) res_list).
  exact (update_flatten_step_leaves (Seq inputs) res_list).
Qed.

(** The wrapping of [flatten] adds lists, no tensor. *)
Lemma leaves_flatten {A} (x : Nested A) : flat_map leaves (flatten x) = leaves x.
Proof.
  induction x as [a|items IH] using Nested_ind'; [reflexivity|].
  cbn [flatten flat_map leaves]. rewrite app_nil_r.
  induction IH as [|i items Hi _ IHitems]; [reflexivity|].
  cbn [map flat_map leaves]. now rewrite Hi, IHitems.
Qed.

(** X1. [update_flatten_list(flatten(outputs), res_list)] is [res_list]
    followed by the tensors of [outputs] in depth-first order, however
    deeply they are nested; from the empty list, as [export_onnx_model]
    calls it, the result is exactly those tensors. *)
Theorem flatten_then_update_collects_leaves {A} (outputs : Nested A)
  (res_list : list A) :
  update_flatten_list (flatten outputs) res_list = res_list ++ leaves outputs
  /\ update_flatten_list (flatten outputs) [] = leaves outputs.
Proof.
  split; rewrite update_flatten_list_leaves, leaves_flatten; reflexivity.
Qed.

(** ** filter_inputs *)

Lemma od_get_set {V} (d : odict V) k v k' :
  od_get (od_set d k v) k' = if bool_decide (k = k') then Some v else od_get d k'.
Proof.
  induction d as [|[k0 v0] d IH]; cbn [od_set od_get].
  - reflexivity.
  - destruct (bool_decide_reflect (k0 = k)) as [->|Hne]; cbn [od_get].
    + destruct (bool_decide_reflect (k = k')); reflexivity.
    + rewrite IH. destruct (bool_decide_reflect (k0 = k')) as [->|]; [|reflexivity].
      now rewrite bool_decide_eq_false_2 by congruence.
Qed.

Lemma od_keys_set_new {V} (d : odict V) k v :
  k ∉ od_keys d -> od_keys (od_set d k v) = od_keys d ++ [k].
Proof.
  induction d as [|[k0 v0] d IH]; cbn [od_set]; intros Hk; [reflexivity|].
  change (od_keys ((k0, v0) :: d)) with (k0 :: od_keys d) in *.
  apply not_elem_of_cons in Hk as [Hne Hk].
  rewrite bool_decide_eq_false_2 by congruence.
  change (od_keys ((k0, v0) :: od_set d k v)) with (k0 :: od_keys (od_set d k v)).
  now rewrite IH.
Qed.

Lemma od_keys_set_old {V} (d : odict V) k v :
  k ∈ od_keys d -> od_keys (od_set d k v) = od_keys d.
Proof.
  induction d as [|[k0 v0] d IH]; cbn [od_set]; intros Hk.
  - now apply elem_of_nil in Hk.
  - change (od_keys ((k0, v0) :: d)) with (k0 :: od_keys d) in *.
    destruct (bool_decide_reflect (k0 = k)) as [->|Hne]; [reflexivity|].
    change (od_keys ((k0, v0) :: od_set d k v)) with (k0 :: od_keys (od_set d k v)).
    f_equal. apply IH. apply elem_of_cons in Hk as [Hk|Hk]; congruence.
Qed.

Lemma od_keys_set_NoDup {V} (d : odict V) k v :
  NoDup (od_keys d) -> NoDup (od_keys (od_set d k v)).
Proof.
  intros Hd. destruct (decide (k ∈ od_keys d)) as [Hk|Hk].
  - now rewrite od_keys_set_old.
  - rewrite od_keys_set_new by exact Hk. apply NoDup_app. repeat split.
    + exact Hd.
    + intros x Hx Hx'. apply list_elem_of_singleton in Hx'. congruence.
    + apply NoDup_singleton.
Qed.

Section FilterInputs.
Context {V : Type} (inputs : odict V).

Local Abbreviation keep :=
  (fun input_name (remaining : odict V) =>
     match od_get inputs input_name with
     | Some v => Ok (od_set remaining input_name v)
     | None => Raise KeyError
     end).

Lemma filter_inputs_loop input_names : forall acc,
  (forall n, n ∈ input_names -> is_Some (od_get inputs n)) ->
  exists d,
    fold_res keep input_names acc = Ok d
    /\ (forall k, od_get d k
                  = if bool_decide (k ∈ input_names) then od_get inputs k
                    else od_get acc k)
    /\ (NoDup (od_keys acc) -> NoDup (od_keys d))
    /\ (NoDup input_names -> (forall n, n ∈ input_names -> n ∉ od_keys acc) ->
        od_keys d = od_keys acc ++ input_names).
Proof.
  induction input_names as [|n names IH]; intros acc Hall.
  - exists acc. cbn [fold_res]. repeat split; auto.
    intros _ _. now rewrite app_nil_r.
  - destruct (Hall n ltac:(apply list_elem_of_here)) as [v Hv].
    destruct (IH (od_set acc n v)) as (d & Hd & Hget & Hnd & Hkeys).
    { intros m Hm. apply Hall. now apply list_elem_of_further. }
    exists d. cbn [fold_res]. rewrite Hv, res_bind_Ok. split; [exact Hd|].
    split; [|split].
    + intros k. rewrite Hget, od_get_set.
      destruct (bool_decide_reflect (k ∈ names)) as [Hk|Hk].
      * rewrite bool_decide_eq_true_2 by (now apply list_elem_of_further). reflexivity.
      * destruct (bool_decide_reflect (n = k)) as [->|Hne].
        -- rewrite bool_decide_eq_true_2 by apply list_elem_of_here. now rewrite Hv.
        -- rewrite bool_decide_eq_false_2; [reflexivity|].
           intros Hin. apply elem_of_cons in Hin as [->|Hin]; congruence.
    + intros Hacc. apply Hnd. now apply od_keys_set_NoDup.
    + intros Hnames Hfresh. apply NoDup_cons in Hnames as [Hn Hnames].
      assert (n ∉ od_keys acc) as Hnacc by (apply Hfresh, list_elem_of_here).
      rewrite Hkeys; [rewrite od_keys_set_new by exact Hnacc;
                      now rewrite <- app_assoc|exact Hnames|].
      intros m Hm. rewrite od_keys_set_new by exact Hnacc.
      rewrite elem_of_app, list_elem_of_singleton. intros [Hin| ->].
      * revert Hin. apply Hfresh. now apply list_elem_of_further.
      * contradiction.
Qed.

Lemma filter_inputs_loop_missing input_names n : forall acc,
  n ∈ input_names -> od_get inputs n = None ->
  fold_res keep input_names acc = Raise KeyError.
Proof.
  induction input_names as [|m names IH]; intros acc Hin Hn.
  - now apply elem_of_nil in Hin.
  - cbn [fold_res]. destruct (od_get inputs m) as [v|] eqn:Hm; [|reflexivity].
    rewrite res_bind_Ok. apply IH; [|exact Hn].
    apply elem_of_cons in Hin as [->|Hin]; [congruence|exact Hin].
Qed.

(** X2. When every requested name is an input, [filter_inputs] returns a
    dictionary that holds exactly the requested names, each with the value
    it has in [inputs]; its keys are the requested names in the order of the
    request (a repeated name keeps its first place). *)
Theorem filter_inputs_keeps_requested (input_names : list string) :
  (forall n, n ∈ input_names -> is_Some (od_get inputs n)) ->
  exists d,
    filter_inputs inputs input_names = Ok d
    /\ (forall k, od_get d k
                  = if bool_decide (k ∈ input_names) then od_get inputs k else None)
    /\ NoDup (od_keys d)
    /\ (NoDup input_names -> od_keys d = input_names).
Proof.
  intros Hall. destruct (filter_inputs_loop input_names [] Hall)
    as (d & Hd & Hget & Hnd & Hkeys).
  exists d. split; [exact Hd|]. split; [exact Hget|]. split.
  - apply Hnd. constructor.
  - intros Hn. apply Hkeys; [exact Hn|]. intros n _. apply not_elem_of_nil.
Qed.

(** X3. A requested name that is no input makes [filter_inputs] raise
    [KeyError], wherever it stands in the request. *)
Theorem filter_inputs_missing_name (input_names : list string) (n : string) :
  n ∈ input_names -> od_get inputs n = None ->
  filter_inputs inputs input_names = Raise KeyError.
Proof. apply filter_inputs_loop_missing. Qed.

End FilterInputs.

(** The encoding of a BERT tokenizer, filtered for a two-input model. *)
Lemma filter_inputs_keeps_requested_witness :
  exists d,
    filter_inputs [("input_ids", 1); ("token_type_ids", 2); ("attention_mask", 3)]
                  ["input_ids"; "attention_mask"] = Ok d
    /\ (forall k, od_get d k
                  = if bool_decide (k ∈ ["input_ids"; "attention_mask"])
                    then od_get [("input_ids", 1); ("token_type_ids", 2);
                                 ("attention_mask", 3)] k
                    else None)
    /\ NoDup (od_keys d)
    /\ (NoDup ["input_ids"; "attention_mask"]
        -> od_keys d = ["input_ids"; "attention_mask"]).
Proof.
  apply (filter_inputs_keeps_requested
           [("input_ids", 1); ("token_type_ids", 2); ("attention_mask", 3)]
           ["input_ids"; "attention_mask"]).
  intros n Hn. repeat (apply elem_of_cons in Hn as [->|Hn]; [now eexists|]).
  now apply elem_of_nil in Hn.
Defined.

(** GPT-2's tokenizer returns no token_type_ids. *)
Lemma filter_inputs_missing_name_witness :
  filter_inputs [("input_ids", 1); ("attention_mask", 3)]
                ["input_ids"; "token_type_ids"] = Raise KeyError.
Proof.
  apply (filter_inputs_missing_name [("input_ids", 1); ("attention_mask", 3)]
           ["input_ids"; "token_type_ids"] "token_type_ids").
  - apply list_elem_of_further, list_elem_of_here.
  - reflexivity.
Defined.

(** ** build_dynamic_axes *)

(** The marking loop over the axes [s, s+1, ...]. *)
Lemma mark_axes_lookup (L : Z) (dims : list Z) : forall (s : nat) (axes : gmap nat string) (j : nat),
  fold_left (fun axes jd => if jd.2 =? L then <[jd.1 := "seq_len"]> axes else axes)
            (zip (seq s (length dims)) dims) axes !! j
  = match (if bool_decide (s <= j)%nat then dims !! (j - s)%nat else None) with
    | Some d => if d =? L then Some "seq_len" else axes !! j
    | None => axes !! j
    end.
Proof.
  induction dims as [|d dims IH]; intros s axes j; cbn [length seq zip zip_with fold_left].
  - destruct (bool_decide _); [rewrite lookup_nil|]; reflexivity.
  - rewrite IH. cbn [fst snd].
    destruct (bool_decide_reflect (S s <= j)%nat) as [Hj|Hj].
    + rewrite bool_decide_eq_true_2 by lia.
      replace (j - s)%nat with (S (j - S s)) by lia. cbn [lookup list_lookup].
      change (dims !! (j - S s)%nat) with (dims !! (j - S s)%nat).
      destruct (dims !! (j - S s)%nat) as [d'|] eqn:E.
      * destruct (d' =? L); [reflexivity|].
        destruct (d =? L); [rewrite lookup_insert_ne by lia|]; reflexivity.
      * destruct (d =? L); [rewrite lookup_insert_ne by lia|]; reflexivity.
    + destruct (bool_decide_reflect (s <= j)%nat) as [Hs|Hs].
      * assert (j = s) as -> by lia. rewrite Nat.sub_diag. cbn [lookup list_lookup].
        destruct (d =? L); [now rewrite lookup_insert_eq|reflexivity].
      * destruct (d =? L); [rewrite lookup_insert_ne by lia|]; reflexivity.
Qed.

(** An axis of an output is "seq_len" exactly when its extent is the
    sequence length; otherwise axis 0 is "batch_size" and no other axis is
    dynamic. *)
Lemma output_dynamic_axes_lookup (L : Z) (dims : list Z) (j : nat) :
  output_dynamic_axes L dims !! j
  = match dims !! j with
    | Some d =>
        if d =? L then Some "seq_len"
        else if bool_decide (j = 0%nat) then Some "batch_size" else None
    | None => if bool_decide (j = 0%nat) then Some "batch_size" else None
    end.
Proof.
  unfold output_dynamic_axes. rewrite mark_axes_lookup.
  rewrite bool_decide_eq_true_2 by lia. rewrite Nat.sub_0_r.
  assert (({[0%nat := "batch_size"]} : gmap nat string) !! j
          = if bool_decide (j = 0%nat) then Some "batch_size" else None) as ->.
  { destruct (bool_decide_reflect (j = 0%nat)) as [->|Hj].
    - apply lookup_singleton_eq.
    - apply lookup_singleton_ne. congruence. }
  reflexivity.
Qed.

(** Assigning a list of keys in turn. *)
Lemma od_set_all_lookup {V X} (g : X -> V) (l : list (string * X)) :
  forall (d : odict V) k,
  od_get (fold_left (fun d kx => od_set d kx.1 (g kx.2)) l d) k
  = match od_get (reverse l) k with
    | Some x => Some (g x)
    | None => od_get d k
    end.
Proof.
  induction l as [|[k0 x0] l IH]; intros d k; cbn [fold_left]; [reflexivity|].
  rewrite IH, reverse_cons. cbn [fst snd]. rewrite od_get_set.
  clear IH. induction (reverse l) as [|[k1 x1] r IHr]; cbn [app od_get].
  - destruct (bool_decide (k0 = k)); reflexivity.
  - destruct (bool_decide (k1 = k)); [reflexivity|exact IHr].
Qed.

Lemma od_get_elem {V} (l : odict V) k v :
  NoDup (od_keys l) -> (k, v) ∈ l -> od_get l k = Some v.
Proof.
  induction l as [|[k0 v0] l IH]; cbn [od_get]; intros Hnd Hin.
  - now apply elem_of_nil in Hin.
  - change (od_keys ((k0, v0) :: l)) with (k0 :: od_keys l) in Hnd.
    apply NoDup_cons in Hnd as [Hk0 Hnd].
    apply elem_of_cons in Hin as [[= -> ->]|Hin].
    + now rewrite bool_decide_eq_true_2.
    + rewrite bool_decide_eq_false_2; [now apply IH|].
      intros ->. apply Hk0. unfold od_keys. apply list_elem_of_fmap. now exists (k, v).
Qed.

Lemma od_get_None {V} (l : odict V) k : k ∉ od_keys l -> od_get l k = None.
Proof.
  induction l as [|[k0 v0] l IH]; cbn [od_get]; intros Hk; [reflexivity|].
  change (od_keys ((k0, v0) :: l)) with (k0 :: od_keys l) in Hk.
  apply not_elem_of_cons in Hk as [Hne Hk].
  rewrite bool_decide_eq_false_2 by congruence. now apply IH.
Qed.

Lemma od_set_keys_lookup {V} (c : V) (keys : list string) : forall (d : odict V) k,
  od_get (fold_left (fun axes key => od_set axes key c) keys d) k
  = if bool_decide (k ∈ keys) then Some c else od_get d k.
Proof.
  induction keys as [|k0 keys IH]; intros d k; cbn [fold_left]; [reflexivity|].
  rewrite IH, od_get_set.
  destruct (bool_decide_reflect (k ∈ keys)) as [Hk|Hk].
  - now rewrite bool_decide_eq_true_2 by (now apply list_elem_of_further).
  - destruct (bool_decide_reflect (k0 = k)) as [->|Hne].
    + now rewrite bool_decide_eq_true_2 by apply list_elem_of_here.
    + rewrite bool_decide_eq_false_2; [reflexivity|].
      intros Hin. apply elem_of_cons in Hin as [->|Hin]; congruence.
Qed.

Lemma prefix_append (s t : string) : String.prefix s (s +:+ t) = true.
Proof.
  induction s as [|c s IH].
  - now destruct t.
  - change (String c s +:+ t) with (String c (s +:+ t)). cbn [String.prefix].
    destruct (ascii_dec c c); [exact IH|contradiction].
Qed.

(** The name of the [i]-th output, counted from 0. *)
Lemma output_name_inj (i j : nat) :
  "output_" +:+ pretty (Z.of_nat i + 1) = "output_" +:+ pretty (Z.of_nat j + 1) ->
  i = j.
Proof.
  intros [= Heq]. apply (inj (String.append "")) in Heq.
  apply (inj (@pretty Z _)) in Heq. lia.
Qed.

Lemma output_names_NoDup (n : nat) :
  NoDup (map (fun i => "output_" +:+ pretty (Z.of_nat i + 1)) (seq 0 n)).
Proof.
  apply (NoDup_fmap_2_strong (fun i => "output_" +:+ pretty (Z.of_nat i + 1))).
  - intros i j _ _. apply output_name_inj.
  - apply NoDup_ListNoDup, seq_NoDup.
Qed.

Section DynamicAxes.
Variables (example_inputs : odict (list Z)) (outputs_flatten : list (list Z)).
Variables (shape : list Z) (sequence_length : Z).
Hypothesis Hids : od_get example_inputs "input_ids" = Some shape.
Hypothesis Hlast : last shape = Some sequence_length.

Local Abbreviation output_names :=
  (map (fun i => "output_" +:+ pretty (Z.of_nat i + 1))
       (seq 0 (length outputs_flatten))).

(** What the returned dictionary holds under any key. *)
Lemma build_dynamic_axes_lookup :
  exists axes,
    build_dynamic_axes example_inputs outputs_flatten = Ok (axes, output_names)
    /\ forall k,
        od_get axes k
        = match od_get (reverse (zip output_names outputs_flatten)) k with
          | Some dims => Some (output_dynamic_axes sequence_length dims)
          | None =>
              if bool_decide (k ∈ od_keys example_inputs)
              then Some {[ 0%nat := "batch_size"; 1%nat := "seq_len" ]}
              else None
          end.
Proof.
  unfold build_dynamic_axes. rewrite Hids, Hlast. eexists. split; [reflexivity|].
  intros k.
  rewrite (od_set_all_lookup (output_dynamic_axes sequence_length)).
  now rewrite od_set_keys_lookup.
Qed.

Lemma output_names_length : length output_names = length outputs_flatten.
Proof. now rewrite length_map, length_seq. Qed.

Lemma output_names_lookup (i : nat) :
  (i < length outputs_flatten)%nat ->
  output_names !! i = Some ("output_" +:+ pretty (Z.of_nat i + 1)).
Proof.
  intros Hi. change (map ?f ?l) with (f <$> l).
  rewrite list_lookup_fmap, lookup_seq_lt by exact Hi. reflexivity.
Qed.

Lemma zip_output_names_keys :
  od_keys (reverse (zip output_names outputs_flatten)) = reverse output_names.
Proof.
  unfold od_keys. change (map fst ?l) with (l.*1). rewrite fmap_reverse. f_equal.
  apply (fst_zip output_names outputs_flatten). rewrite output_names_length. lia.
Qed.

(** X4. With an "input_ids" of at least one dimension among the example
    inputs, [build_dynamic_axes] names the outputs output_1, output_2, ...:
    as many names as flattened outputs, all distinct, in order. *)
Theorem build_dynamic_axes_output_names :
  exists axes names,
    build_dynamic_axes example_inputs outputs_flatten = Ok (axes, names)
    /\ length names = length outputs_flatten
    /\ NoDup names
    /\ forall i : nat, (i < length outputs_flatten)%nat ->
         names !! i = Some ("output_" +:+ pretty (Z.of_nat i + 1)).
Proof.
  destruct build_dynamic_axes_lookup as (axes & Hrun & _).
  exists axes, output_names. split; [exact Hrun|]. split; [apply output_names_length|].
  split; [apply output_names_NoDup|apply output_names_lookup].
Qed.

(** X5. The entry of the [i]-th output marks an axis "seq_len" exactly when
    the extent of that axis equals the sequence length of the example
    "input_ids" (the last extent of its shape), axis 0 included; otherwise
    axis 0 is "batch_size" and no other axis is dynamic. *)
Theorem build_dynamic_axes_of_output (i : nat) (dims : list Z) :
  outputs_flatten !! i = Some dims ->
  exists axes names entry,
    build_dynamic_axes example_inputs outputs_flatten = Ok (axes, names)
    /\ od_get axes ("output_" +:+ pretty (Z.of_nat i + 1)) = Some entry
    /\ forall j : nat,
        entry !! j
        = match dims !! j with
          | Some d =>
              if d =? sequence_length then Some "seq_len"
              else if bool_decide (j = 0%nat) then Some "batch_size" else None
          | None => if bool_decide (j = 0%nat) then Some "batch_size" else None
          end.
Proof.
  intros Hi. destruct build_dynamic_axes_lookup as (axes & Hrun & Hget).
  exists axes, output_names, (output_dynamic_axes sequence_length dims).
  split; [exact Hrun|]. split; [|apply output_dynamic_axes_lookup].
  rewrite Hget.
  rewrite (od_get_elem _ _ dims); [reflexivity| |].
  - rewrite zip_output_names_keys, reverse_Permutation. apply output_names_NoDup.
  - apply elem_of_reverse. apply (list_elem_of_lookup_2 _ i).
    rewrite lookup_zip_with, output_names_lookup by (now apply lookup_lt_Some in Hi).
    cbn. now rewrite Hi.
Qed.

(** X6. An example input whose name does not start with output_ gets the
    axes 0 "batch_size" and 1 "seq_len", whatever its shape; a name that is
    neither an input nor an output has no entry. *)
Theorem build_dynamic_axes_of_input (k : string) :
  String.prefix "output_" k = false ->
  exists axes names,
    build_dynamic_axes example_inputs outputs_flatten = Ok (axes, names)
    /\ od_get axes k
       = if bool_decide (k ∈ od_keys example_inputs)
         then Some {[ 0%nat := "batch_size"; 1%nat := "seq_len" ]}
         else None.
Proof.
  intros Hk. destruct build_dynamic_axes_lookup as (axes & Hrun & Hget).
  exists axes, output_names. split; [exact Hrun|].
  rewrite Hget, od_get_None; [reflexivity|].
  rewrite zip_output_names_keys, elem_of_reverse.
  intros Hin. apply list_elem_of_fmap in Hin as (i & -> & _).
  rewrite prefix_append in Hk. discriminate.
Qed.

End DynamicAxes.

(** On that export: two names. *)
Lemma build_dynamic_axes_output_names_witness :
  exists axes names,
    build_dynamic_axes ex_example_inputs ex_outputs_flatten = Ok (axes, names)
    /\ length names = length ex_outputs_flatten
    /\ NoDup names
    /\ forall i : nat, (i < length ex_outputs_flatten)%nat ->
         names !! i = Some ("output_" +:+ pretty (Z.of_nat i + 1)).
Proof.
  exact (build_dynamic_axes_output_names ex_example_inputs ex_outputs_flatten
           [1; 7] 7 eq_refl eq_refl).
Defined.

(** The sequence output: axis 1 has the extent 7 of the example. *)
Lemma build_dynamic_axes_of_output_witness :
  exists axes names entry,
    build_dynamic_axes ex_example_inputs ex_outputs_flatten = Ok (axes, names)
    /\ od_get axes "output_1" = Some entry
    /\ entry !! 0%nat = Some "batch_size"
    /\ entry !! 1%nat = Some "seq_len"
    /\ entry !! 2%nat = None.
Proof.
  destruct (build_dynamic_axes_of_output ex_example_inputs ex_outputs_flatten
              [1; 7] 7 eq_refl eq_refl 0%nat [1; 7; 768] eq_refl)
    as (axes & names & entry & Hrun & Hget & Hentry).
  exists axes, names, entry. split; [exact Hrun|]. split; [exact Hget|].
  rewrite !Hentry. repeat split.
Defined.

(** The attention mask of that export. *)
Lemma build_dynamic_axes_of_input_witness :
  exists axes names,
    build_dynamic_axes ex_example_inputs ex_outputs_flatten = Ok (axes, names)
    /\ od_get axes "attention_mask"
       = Some {[ 0%nat := "batch_size"; 1%nat := "seq_len" ]}.
Proof.
  exact (build_dynamic_axes_of_input ex_example_inputs ex_outputs_flatten
           [1; 7] 7 eq_refl eq_refl "attention_mask" eq_refl).
Defined.

(** ** How the statistics reducer fails *)

Lemma binary_normalize_neg p :
  binary_normalize prec emax (Z.neg p) 0 false
  = finalize true (of_pos_pair p).1 (of_pos_pair p).2.
Proof.
  cbn [binary_normalize]. unfold binary_round, of_pos_pair.
  pose proof (shl_align_spec p 0) as (HI & _ & _). cbv zeta in *.
  change (SpecFloat.fexp prec emax) with fexp64.
  destruct (shl_align p 0 (fexp64 (Z.pos (digits2_pos p) + 0))) as [mz ez].
  cbn [fst snd] in *. now apply binary_round_aux_norm.
Qed.

(** [float(z)] raises nothing but [OverflowError]. *)
Lemma float_of_Z_Raise z e : float_of_Z z = Raise e -> e = OverflowError.
Proof. unfold float_of_Z. destruct (PrimFloat.is_infinity _); congruence. Qed.

(** Below [2^1023] in magnitude, [float(z)] is defined. *)
Lemma float_of_Z_bounded z :
  - 2 ^ 1023 < z < 2 ^ 1023 -> exists b, float_of_Z z = Ok b.
Proof.
  intros [Hlo Hhi]. destruct z as [|p|p].
  - now eexists.
  - apply float_of_Z_small. lia.
  - unfold float_of_Z. rewrite binary_normalize_neg.
    destruct (of_pos_pair_canonical p) as [Hc Hq].
    pose proof (finalize_valid true _ _ Hc) as Hv.
    unfold PrimFloat.is_infinity.
    rewrite FloatAxioms.eqb_spec, abs_spec, (Prim2SF_SF2Prim _ Hv).
    replace (Prim2SF infinity) with (S754_infinity false) by reflexivity.
    pose proof (of_pos_pair_exponent p) as HE.
    pose proof (digits2_pos_bounds p) as [Hd _].
    assert (Z.pos (digits2_pos p) - 1 < 1023).
    { apply (Z.pow_lt_mono_r_iff 2); lia. }
    unfold finalize. destruct (of_pos_pair p).1 as [|q|q]; try lia.
    destruct (Z.leb_spec (of_pos_pair p).2 971); [|lia].
    cbn [SFabs SFeqb SFcompare]. now eexists.
Qed.

Section ReducerFailures.
Context `{Numpy}.

Lemma get_latency_result_Raise runtimes batch_size e :
  get_latency_result runtimes batch_size = Raise e ->
  (e = ZeroDivisionError
   /\ (runtimes = [] \/ (mean_ms runtimes =? 0)%float = true))
  \/ (e = OverflowError /\ 2 ^ 1023 <= Z.abs batch_size).
Proof.
  destruct runtimes as [|x runtimes].
  - cbn. intros [= <-]. left. auto.
  - unfold get_latency_result, throughput.
    rewrite latency_ms_nonempty by discriminate.
    unfold py_truediv.
    destruct (mean_ms (x :: runtimes) =? 0)%float eqn:Hz.
    + intros [= <-]. left. auto.
    + destruct (float_of_Z batch_size) as [b|e'] eqn:Hb; [discriminate|].
      intros [= <-]. right. split; [now apply float_of_Z_Raise in Hb|].
      destruct (Z_lt_le_dec (Z.abs batch_size) (2 ^ 1023)) as [Hlt|Hge]; [|exact Hge].
      destruct (float_of_Z_bounded batch_size) as [b Hok]; [lia|congruence].
Qed.

(** X7. The reducer fails in two ways only. It raises [ZeroDivisionError]
    exactly on no duration at all or on durations of mean zero, and
    [OverflowError] only for a batch size of magnitude [2^1023] or more; on
    every other input it returns, with [test_times] the number of
    durations. *)
Theorem get_latency_result_failure_modes (runtimes : list float) (batch_size : Z) :
  (runtimes = [] \/ (mean_ms runtimes =? 0)%float = true ->
   get_latency_result runtimes batch_size = Raise ZeroDivisionError)
  /\ (runtimes <> [] -> (mean_ms runtimes =? 0)%float = false ->
      - 2 ^ 1023 < batch_size < 2 ^ 1023 ->
      exists r, get_latency_result runtimes batch_size = Ok r
                /\ lr_test_times r = Z.of_nat (length runtimes))
  /\ (forall e, get_latency_result runtimes batch_size = Raise e ->
        (e = ZeroDivisionError
         /\ (runtimes = [] \/ (mean_ms runtimes =? 0)%float = true))
        \/ (e = OverflowError /\ 2 ^ 1023 <= Z.abs batch_size)).
Proof.
  split; [|split].
  - intros [->|Hz]; [reflexivity|].
    destruct runtimes as [|x runtimes]; [reflexivity|].
    unfold get_latency_result, throughput, py_truediv.
    rewrite latency_ms_nonempty by discriminate. now rewrite Hz.
  - intros Hl Hz Hb. destruct (float_of_Z_bounded batch_size Hb) as [b Hok].
    eexists. split; [exact (get_latency_result_Ok runtimes batch_size b Hl Hz Hok)|].
    reflexivity.
  - apply get_latency_result_Raise.
Qed.

End ReducerFailures.

(** The three outcomes, on the reference numpy. *)
Lemma get_latency_result_failure_modes_witness :
  @get_latency_result numpy_reference [] 1 = Raise ZeroDivisionError
  /\ (exists r, @get_latency_result numpy_reference ex_runtimes (-3) = Ok r
                /\ lr_test_times r = 5)
  /\ @get_latency_result numpy_reference ex_runtimes (2 ^ 1024) = Raise OverflowError.
Proof.
  pose proof (get_latency_result_failure_modes (H := numpy_reference)) as Hmodes.
  split; [|split].
  - apply (proj1 (Hmodes [] 1)). now left.
  - apply (proj1 (proj2 (Hmodes ex_runtimes (-3)))); [discriminate|reflexivity|lia].
  - vm_compute. reflexivity.
Defined.

(** ** A failing reducer inside the grid *)

Section ReducerInGrid.
Context {W Session : Type} `{Numpy} (ext : Externals W Session).

(** The reducer never raises a [RuntimeError]. *)
Lemma get_latency_result_not_RuntimeError runtimes batch_size e :
  get_latency_result runtimes batch_size = Raise e -> is_RuntimeError e = false.
Proof.
  intros He. apply get_latency_result_Raise in He as [[-> _]|[-> _]]; reflexivity.
Qed.

(** X8. In [run_pytorch] the [except RuntimeError] of a grid cell does not
    cover the reducer: when the timed run succeeds and
    [get_latency_result] raises on its durations, the exception leaves the
    cell, with no record, no logged exception and no
    [torch.cuda.empty_cache()]. *)
Theorem torch_cell_reducer_failure fp16 ts n model dev cfg mx b s results
  (st : State W) w1 runtimes w2 e :
  exceeds mx s = false ->
  torch_randint ext (vocab_size cfg - 1) b s dev (world st) = (Ok tt, w1) ->
  torch_timeit ext model ts b s n w1 = (Ok runtimes, w2) ->
  get_latency_result runtimes b = Raise e ->
  torch_cell ext fp16 ts n model dev cfg mx b s results st
  = (Raise e,
     Build_State w2
       (trace st ++ run_message "PyTorch" model b s :: tracing_message ts b s)
       (optimize_model_statistics st) (csv st)).
Proof.
  intros Hex Hrand Htime Hred.
  pose proof (get_latency_result_not_RuntimeError _ _ _ Hred) as Hcls.
  unfold torch_cell. rewrite Hex.
  unfold torch_try, try_except, mbind, M_bind, bind, logger, emit, call, lift_res. cbn.
  rewrite Hrand. destruct ts; cbn; rewrite Htime; cbn; rewrite Hred; cbn;
    rewrite Hcls; rewrite <- ?app_assoc; reflexivity.
Qed.

End ReducerInGrid.

(** In the concrete world with a timer that returns three zero durations:
    the PyTorch cell raises [ZeroDivisionError]. *)
Lemma torch_cell_reducer_failure_witness :
  torch_cell (H := numpy_reference) (ex_ext [Ok [0; 0; 0]%float] false)
    false false 3 "gpt2" "cpu" ex_config (Some 512) 1 8 [] ex_state
  = (Raise ZeroDivisionError,
     Build_State 1%nat [run_message "PyTorch" "gpt2" 1 8] [] []).
Proof.
  apply (torch_cell_reducer_failure (H := numpy_reference)
           (ex_ext [Ok [0; 0; 0]%float] false) false false 3 "gpt2" "cpu"
           ex_config (Some 512) 1 8 [] ex_state 0%nat [0; 0; 0]%float 1%nat
           ZeroDivisionError); reflexivity.
Defined.

(** ** Frames *)

Section Preserves.
Context {W X : Type} (proj : State W -> X).

Lemma preserves_ret {A} (a : A) : preserves proj (mret a : M W A).
Proof. intros st. reflexivity. Qed.

Lemma preserves_raise {A} (e : Exn) : preserves proj (raise e : M W A).
Proof. intros st. reflexivity. Qed.

Lemma preserves_lift_res {A} (r : Res A) : preserves proj (lift_res r : M W A).
Proof. intros st. destruct r; reflexivity. Qed.

Lemma preserves_ask {A} (f : W -> A) : preserves proj (ask f).
Proof. intros st. reflexivity. Qed.

Lemma preserves_get_statistics : preserves proj (get_statistics (W := W)).
Proof. intros st. reflexivity. Qed.

Lemma preserves_bind {A B} (m : M W A) (k : A -> M W B) :
  preserves proj m -> (forall a, preserves proj (k a)) -> preserves proj (m ≫= k).
Proof.
  intros Hm Hk st. rewrite bind_unfold. specialize (Hm st).
  destruct (m st) as [[a|e] st1]; cbn in *; [|exact Hm].
  now rewrite Hk.
Qed.

Lemma preserves_for_acc {A R} (body : A -> R -> M W R) xs :
  (forall x acc, preserves proj (body x acc)) ->
  forall acc, preserves proj (for_acc xs body acc).
Proof.
  intros Hbody. induction xs as [|x xs IH]; intros acc.
  - apply preserves_ret.
  - intros st. rewrite for_acc_cons. revert st.
    apply preserves_bind; [apply Hbody|exact IH].
Qed.

Lemma preserves_try_except {A} (m : M W A) catches handler :
  preserves proj m -> (forall e, preserves proj (handler e)) ->
  preserves proj (try_except m catches handler).
Proof.
  intros Hm Hh st. unfold try_except. specialize (Hm st).
  destruct (m st) as [[a|e] st1]; cbn in *; [exact Hm|].
  destruct (catches e); [|exact Hm]. now rewrite Hh.
Qed.

(** A projection that does not look at the log, or at the world. *)
Lemma preserves_emit ev :
  (forall st evs, proj (with_events evs st) = proj st) -> preserves proj (emit ev).
Proof. intros Hlog st. apply (Hlog st [ev]). Qed.

Lemma preserves_call {A} (f : W -> Res A * W) :
  (forall st w, proj (with_world w st) = proj st) -> preserves proj (call f).
Proof.
  intros Hworld st. unfold call. destruct (f (world st)) as [r w]. apply (Hworld st w).
Qed.

End Preserves.

(** Splits a computation along its binds, loops and branches. *)
Ltac preserved_step :=
  first
    [ apply preserves_ret
    | apply preserves_raise
    | apply preserves_lift_res
    | apply preserves_ask
    | apply preserves_get_statistics
    | apply preserves_bind; [|intros ?]
    | apply preserves_for_acc; intros ? ?
    | apply preserves_try_except; [|intros ?]
    | match goal with
      | |- preserves _ (if ?b then _ else _) => destruct b
      | |- preserves _ (match ?x with _ => _ end) => destruct x
      end ].

Section HarnessFrames.
Context {W Session X : Type} `{Numpy} (ext : Externals W Session).
Context (proj : State W -> X).
Hypothesis Hlog : forall st evs, proj (with_events evs st) = proj st.
Hypothesis Hworld : forall st w, proj (with_world w st) = proj st.

Local Ltac preserved :=
  repeat first
    [ preserved_step
    | apply preserves_emit; exact Hlog
    | apply preserves_call; exact Hworld
    | assumption ].

Lemma preserves_logger lvl msg : preserves proj (logger (W := W) lvl msg).
Proof. unfold logger. preserved. Qed.

Lemma create_onnxruntime_session_preserves path use_gpu :
  preserves proj (create_onnxruntime_session ext path use_gpu).
Proof. unfold create_onnxruntime_session, logger. preserved. Qed.

Lemma create_onnxruntime_input_preserves vs b s names :
  preserves proj (create_onnxruntime_input ext vs b s names).
Proof. unfold create_onnxruntime_input. preserved. Qed.

Lemma validate_onnx_model_preserves file :
  preserves proj (validate_onnx_model ext file).
Proof.
  unfold validate_onnx_model. cbv zeta. apply preserves_bind;
    [apply create_onnxruntime_session_preserves|]. intros ?. unfold logger. preserved.
Qed.

(** [run_pytorch] touches nothing but the log and the world. *)
Lemma run_pytorch_preserves use_gpu models fp16 bs ss n ts cache verbose :
  preserves proj (run_pytorch ext use_gpu models fp16 bs ss n ts cache verbose).
Proof.
  unfold run_pytorch, torch_model, torch_batch, torch_cell, torch_try, logger.
  preserved.
Qed.

(** So does [run_onnxruntime], as far as [optimize_onnx_model] does when
    it is called. *)
Lemma run_onnxruntime_preserves use_gpu models fp16 bs ss n ics opt val cache verbose :
  (opt || fp16 = true ->
   forall file model_type heads hidden,
     preserves proj (optimize_onnx_model ext file model_type heads hidden fp16)) ->
  preserves proj (run_onnxruntime ext use_gpu models fp16 bs ss n ics opt val cache
                                  verbose).
Proof.
  intros Hopt.
  assert (forall model names,
             preserves proj (export_onnx_model ext model cache names fp16 opt val))
    as Hexport.
  { intros model names. unfold export_onnx_model, logger.
    apply preserves_bind; [preserved|]. intros config. cbv zeta.
    apply preserves_bind; [preserved|]. intros existed.
    apply preserves_bind; [preserved|]. intros _.
    apply preserves_bind;
      [destruct val; [apply validate_onnx_model_preserves|preserved]|].
    intros valid. apply preserves_bind; [|intros [f v]; preserved].
    destruct (opt || fp16) eqn:E; [|preserved].
    apply preserves_bind; [preserved|]. intros model_type.
    apply preserves_bind; [now apply Hopt|]. intros f.
    apply preserves_bind;
      [destruct val; [apply validate_onnx_model_preserves|preserved]|].
    intros v. preserved. }
  unfold run_onnxruntime, ort_model, ort_inputs, ort_batch, ort_cell, logger.
  cbv zeta.
  repeat first
    [ apply Hexport
    | apply create_onnxruntime_session_preserves
    | apply create_onnxruntime_input_preserves
    | preserved_step
    | apply preserves_emit; exact Hlog
    | apply preserves_call; exact Hworld
    | match goal with
      | |- preserves _ (let '(_, _) := ?x in _) => destruct x
      end ].
Qed.

End HarnessFrames.

(** ** What the engines leave as it was *)

Section EngineFrames.
Context {W Session : Type} `{Numpy} (ext : Externals W Session).

Lemma main_engines_preserves {X} (proj : State W -> X) args :
  (forall st evs, proj (with_events evs st) = proj st) ->
  (forall st w, proj (with_world w st) = proj st) ->
  ("onnxruntime" ∈ Args.engines args ->
   Args.optimize_onnx args || Args.fp16 args = true ->
   forall file model_type heads hidden,
     preserves proj (optimize_onnx_model ext file model_type heads hidden
                                         (Args.fp16 args))) ->
  preserves proj (main_engines ext args).
Proof.
  intros Hlog Hworld Hopt. unfold main_engines, main_pytorch, main_onnxruntime, logger.
  cbv zeta.
  repeat first
    [ apply (run_pytorch_preserves ext proj Hlog Hworld)
    | apply (run_onnxruntime_preserves ext proj Hlog Hworld); now apply Hopt
    | match goal with
      | |- preserves _ (if bool_decide ?P then _ else _) =>
          destruct (bool_decide_reflect P)
      end
    | preserved_step
    | apply preserves_emit; exact Hlog ].
Qed.

Lemma optimize_onnx_model_preserves_csv file model_type heads hidden fp16 :
  preserves csv (optimize_onnx_model ext file model_type heads hidden fp16).
Proof.
  unfold optimize_onnx_model, record_statistics, logger. cbv zeta.
  repeat first
    [ preserved_step
    | apply preserves_emit; reflexivity
    | apply preserves_call; reflexivity
    | (intros st; reflexivity) ].
Qed.

(** X9. The engines write no CSV line, whatever they return or raise: every
    line of a report is written after all engines have run. *)
Theorem engines_write_no_csv (args : Args.t) (st : State W) :
  csv (main_engines ext args st).2 = csv st.
Proof.
  apply (main_engines_preserves csv args); try reflexivity.
  intros _ _ *. apply optimize_onnx_model_preserves_csv.
Qed.

(** X10. Optimizer statistics are recorded by the onnxruntime engine only,
    and only when optimization or fp16 is asked for: without that engine, or
    with neither flag, the engines leave the statistics dictionary as it
    was. *)
Theorem statistics_need_optimization (args : Args.t) (st : State W) :
  "onnxruntime" ∉ Args.engines args
  \/ (Args.optimize_onnx args = false /\ Args.fp16 args = false) ->
  optimize_model_statistics (main_engines ext args st).2
  = optimize_model_statistics st.
Proof.
  intros Hno. apply (main_engines_preserves optimize_model_statistics args);
    try reflexivity.
  intros Hort Hflags. destruct Hno as [Hno|[Ho Hf]]; [contradiction|].
  rewrite Ho, Hf in Hflags. discriminate.
Qed.

(** X11. When every file the script asks for exists already, nothing is
    optimized again and the engines record no statistics, even with
    optimization asked for. *)
Theorem cached_models_record_no_statistics (args : Args.t) (st : State W) :
  (forall file w, os_path_exists ext file w = true) ->
  optimize_model_statistics (main_engines ext args st).2
  = optimize_model_statistics st.
Proof.
  intros Hexists. apply (main_engines_preserves optimize_model_statistics args);
    try reflexivity.
  intros _ _ file model_type heads hidden st1.
  unfold optimize_onnx_model. cbv zeta. rewrite bind_unfold. unfold ask at 1.
  rewrite Hexists. reflexivity.
Qed.

End EngineFrames.

(** In the concrete world without optimization: no statistics. *)
Lemma statistics_need_optimization_witness :
  optimize_model_statistics
    (main_engines (H := numpy_reference) (ex_ext [] false)
       (ex_args ["onnxruntime"] false false [1] [8]) ex_state).2
  = optimize_model_statistics ex_state.
Proof.
  apply (statistics_need_optimization (H := numpy_reference) (ex_ext [] false)
           (ex_args ["onnxruntime"] false false [1] [8]) ex_state).
  right. split; reflexivity.
Defined.

(** With optimization asked for and every file on disk: no statistics. *)
Lemma cached_models_record_no_statistics_witness :
  optimize_model_statistics
    (main_engines (H := numpy_reference) ex_ext_cached
       (ex_args ["onnxruntime"] false true [1] [8]) ex_state).2
  = optimize_model_statistics ex_state.
Proof.
  apply (cached_models_record_no_statistics (H := numpy_reference) ex_ext_cached
           (ex_args ["onnxruntime"] false true [1] [8]) ex_state).
  reflexivity.
Defined.

(** ** Engines that cannot run *)

Lemma with_events_app {W} (st : State W) evs1 evs2 :
  with_events evs2 (with_events evs1 st) = with_events (evs1 ++ evs2) st.
Proof. unfold with_events. cbn. now rewrite app_assoc. Qed.

Lemma with_events_nil {W} (st : State W) : with_events [] st = st.
Proof. destruct st. unfold with_events. cbn. now rewrite app_nil_r. Qed.

Section Unavailable.
Context {W Session : Type} `{Numpy} (ext : Externals W Session).

Lemma logger_unfold lvl msg (st : State W) :
  logger lvl msg st = (Ok tt, with_events [Log lvl msg] st).
Proof. reflexivity. Qed.

Lemma run_pytorch_without_cuda models fp16 bs ss n ts cache verbose (st : State W) :
  torch_cuda_is_available ext = false ->
  run_pytorch ext true models fp16 bs ss n ts cache verbose st
  = (Ok [], with_events [Log ERROR (Text "Please install PyTorch with Cuda, and use a machine with GPU for testing gpu performance.")] st).
Proof. intros Hcuda. unfold run_pytorch. rewrite Hcuda. reflexivity. Qed.

Lemma run_onnxruntime_without_cuda models fp16 bs ss n ics opt val cache verbose
  (st : State W) :
  "CUDAExecutionProvider" ∉ get_available_providers ext ->
  run_onnxruntime ext true models fp16 bs ss n ics opt val cache verbose st
  = (Ok [], with_events [Log ERROR (Text "Please install onnxruntime-gpu package instead of onnxruntime, and use a machine with GPU for testing gpu performance.")] st).
Proof.
  intros Hcuda. unfold run_onnxruntime. cbv zeta.
  rewrite bool_decide_eq_false_2 by exact Hcuda. reflexivity.
Qed.

(** X12. With the GPU asked for where neither PyTorch nor onnxruntime has
    CUDA, the engines return no record and make no call to the outside
    world: the state changes by log records only. *)
Theorem engines_without_cuda (args : Args.t) (st : State W) :
  Args.use_gpu args = true ->
  torch_cuda_is_available ext = false ->
  "CUDAExecutionProvider" ∉ get_available_providers ext ->
  exists r evs,
    main_engines ext args st = (Ok r, with_events evs st)
    /\ (r = Some [] \/ r = None).
Proof.
  intros Hgpu Htorch Hort. unfold main_engines, main_pytorch, main_onnxruntime.
  cbv zeta. rewrite Hgpu.
  rewrite bind_unfold.
  destruct (bool_decide ("torch" ∈ Args.engines args)) eqn:Et,
           (bool_decide ("torchscript" ∈ Args.engines args)) eqn:Es,
           (is_torch_available ext) eqn:Ea,
           (bool_decide (Args.input_counts args ≠ [1])) eqn:Ei,
           (bool_decide ("onnxruntime" ∈ Args.engines args)) eqn:Eo;
    cbn [orb negb];
    rewrite ?bind_unfold, ?logger_unfold, ?mret_unfold;
    unfold try_except;
    rewrite ?bind_unfold, ?run_pytorch_without_cuda, ?run_onnxruntime_without_cuda,
      ?mret_unfold by assumption;
    cbn [app];
    rewrite ?bind_unfold, ?run_pytorch_without_cuda, ?run_onnxruntime_without_cuda,
      ?mret_unfold by assumption;
    cbn [app];
    rewrite ?bind_unfold, ?run_pytorch_without_cuda, ?run_onnxruntime_without_cuda,
      ?mret_unfold by assumption;
    cbn [app];
    rewrite ?with_events_app;
    try (do 2 eexists; split; [reflexivity|auto]; fail);
    try (exists (Some []), []; rewrite with_events_nil; split; [reflexivity|auto]).
Qed.

End Unavailable.

(** In the concrete world, which has no CUDA, with all three engines. *)
Lemma engines_without_cuda_witness :
  exists r evs,
    main_engines (H := numpy_reference) (ex_ext [] false)
      (ex_args_gpu ["torch"; "torchscript"; "onnxruntime"]) ex_state
    = (Ok r, with_events evs ex_state)
    /\ (r = Some [] \/ r = None).
Proof.
  apply (engines_without_cuda (H := numpy_reference) (ex_ext [] false)
           (ex_args_gpu ["torch"; "torchscript"; "onnxruntime"]) ex_state);
    [reflexivity|reflexivity|].
  intros Hin. apply list_elem_of_singleton in Hin. discriminate.
Defined.

Section WithoutTorch.
Context {W Session : Type} `{Numpy} (ext : Externals W Session).

Lemma coerce_fp16_engines args (st : State W) :
  exists args' st',
    coerce_fp16 args st = (Ok args', st')
    /\ Args.engines args' = Args.engines args
    /\ csv st' = csv st
    /\ optimize_model_statistics st' = optimize_model_statistics st.
Proof.
  unfold coerce_fp16. destruct (Args.fp16 args && negb (Args.use_gpu args)).
  - do 2 eexists. split; [reflexivity|]. repeat split.
  - do 2 eexists. split; [reflexivity|]. repeat split.
Qed.

Lemma ensure_cache_dir_preserves {X} (proj : State W -> X) args :
  (forall st evs, proj (with_events evs st) = proj st) ->
  (forall st w, proj (with_world w st) = proj st) ->
  preserves proj (ensure_cache_dir ext args).
Proof.
  intros Hlog Hworld. unfold ensure_cache_dir, logger.
  repeat first
    [ preserved_step | apply preserves_emit; exact Hlog
    | apply preserves_call; exact Hworld ].
Qed.

Lemma main_engines_without_torch args (st : State W) :
  "torch" ∈ Args.engines args \/ "torchscript" ∈ Args.engines args ->
  is_torch_available ext = false ->
  main_engines ext args st
  = (Ok None,
     with_events [Log ERROR (Text "Trying to run a PyTorch benchmark but PyTorch was not found in the environment.")] st).
Proof.
  intros Hen Hav. unfold main_engines, main_pytorch. cbv zeta. rewrite Hav.
  assert (bool_decide ("torch" ∈ Args.engines args)
          || bool_decide ("torchscript" ∈ Args.engines args) = true) as ->.
  { apply orb_true_iff. destruct Hen; [left|right]; now apply bool_decide_eq_true_2. }
  reflexivity.
Qed.

(** X13. When a PyTorch engine is asked for and PyTorch is not installed,
    [main] returns right after the error record: no engine runs, onnxruntime
    included, and nothing is reported, whatever statistics were recorded
    before. *)
Theorem main_without_torch (args : Args.t) (st : State W) :
  "torch" ∈ Args.engines args \/ "torchscript" ∈ Args.engines args ->
  is_torch_available ext = false ->
  main_engines ext args st
  = (Ok None,
     with_events [Log ERROR (Text "Trying to run a PyTorch benchmark but PyTorch was not found in the environment.")] st)
  /\ csv (main ext args st).2 = csv st
  /\ optimize_model_statistics (main ext args st).2 = optimize_model_statistics st.
Proof.
  intros Hen Hav. split; [now apply main_engines_without_torch|].
  unfold main. rewrite bind_unfold.
  destruct (coerce_fp16_engines args st) as (args' & st1 & -> & Heng & Hcsv & Hstat).
  rewrite bind_unfold, logger_unfold, bind_unfold.
  pose proof (ensure_cache_dir_preserves csv args' ltac:(reflexivity) ltac:(reflexivity)
                (with_events [Log INFO (ArgumentsMsg args')] st1)) as Hc.
  pose proof (ensure_cache_dir_preserves optimize_model_statistics args'
                ltac:(reflexivity) ltac:(reflexivity)
                (with_events [Log INFO (ArgumentsMsg args')] st1)) as Hs.
  destruct (ensure_cache_dir ext args' _) as [[[]|e] st2]; cbn in Hc, Hs.
  - rewrite bind_unfold, main_engines_without_torch by (rewrite ?Heng; assumption).
    cbn. split; congruence.
  - cbn. split; congruence.
Qed.

End WithoutTorch.

(** In the concrete world without PyTorch, with statistics recorded
    before: both engines asked for, nothing written. *)
Lemma main_without_torch_witness :
  main_engines (H := numpy_reference) ex_ext_without_torch
    (ex_args ["torch"; "onnxruntime"] false true [1] [8]) ex_recorded_state
  = (Ok None,
     with_events [Log ERROR (Text "Trying to run a PyTorch benchmark but PyTorch was not found in the environment.")] ex_recorded_state)
  /\ csv (main (H := numpy_reference) ex_ext_without_torch
            (ex_args ["torch"; "onnxruntime"] false true [1] [8]) ex_recorded_state).2
     = csv ex_recorded_state
  /\ optimize_model_statistics
       (main (H := numpy_reference) ex_ext_without_torch
          (ex_args ["torch"; "onnxruntime"] false true [1] [8]) ex_recorded_state).2
     = optimize_model_statistics ex_recorded_state.
Proof.
  apply (main_without_torch (H := numpy_reference) ex_ext_without_torch
           (ex_args ["torch"; "onnxruntime"] false true [1] [8]) ex_recorded_state);
    [|reflexivity].
  left. apply list_elem_of_here.
Defined.

(** ** Input counts a model does not have *)

Lemma for_acc_skips {W A R} (body : A -> R -> M W R) xs acc (st : State W) :
  (forall x, x ∈ xs -> body x acc st = (Ok acc, st)) ->
  for_acc xs body acc st = (Ok acc, st).
Proof.
  induction xs as [|x xs IH]; intros Hskip; [reflexivity|].
  rewrite for_acc_cons, bind_unfold, Hskip by apply list_elem_of_here.
  apply IH. intros y Hy. apply Hskip. now apply list_elem_of_further.
Qed.

Section InputCounts.
Context {W Session : Type} `{Numpy} (ext : Externals W Session).

(** X14. When every input count asked for exceeds the number of inputs of
    every model asked for, [run_onnxruntime] exports nothing, creates no
    session and returns no record: the state changes by at most one log
    record, about the GPU. *)
Theorem run_onnxruntime_skips_missing_inputs use_gpu models fp16 bs ss n ics opt
  val cache verbose (st : State W) :
  (forall model, model ∈ models ->
     exists names opset model_type,
       MODELS model = Some (names, opset, model_type)
       /\ forall num_inputs, num_inputs ∈ ics ->
            Z.of_nat (length names) < num_inputs) ->
  exists evs,
    run_onnxruntime ext use_gpu models fp16 bs ss n ics opt val cache verbose st
    = (Ok [], with_events evs st)
    /\ (length evs <= 1)%nat.
Proof.
  intros Hmodels.
  assert (forall st0 : State W,
             for_acc models
               (ort_model ext use_gpu fp16 bs ss n ics opt val cache) [] st0
             = (Ok [], st0)) as Hloop.
  { intros st0. apply for_acc_skips. intros model Hm. unfold ort_model.
    destruct (Hmodels model Hm) as (names & opset & mt & -> & Hics).
    apply for_acc_skips. intros ni Hni. unfold ort_inputs.
    now rewrite (proj2 (Z.ltb_lt _ _) (Hics ni Hni)). }
  unfold run_onnxruntime. cbv zeta.
  destruct (use_gpu && _).
  - eexists. rewrite bind_unfold, logger_unfold, mret_unfold. split; [reflexivity|].
    cbn. lia.
  - rewrite bind_unfold. destruct (negb use_gpu && _).
    + rewrite logger_unfold, Hloop. eexists. split; [reflexivity|]. cbn. lia.
    + rewrite mret_unfold, Hloop. exists []. rewrite with_events_nil.
      split; [reflexivity|]. cbn. lia.
Qed.

End InputCounts.

(** GPT-2 has one input: asked for two and three, nothing happens. *)
Lemma run_onnxruntime_skips_missing_inputs_witness :
  exists evs,
    run_onnxruntime (H := numpy_reference) (ex_ext [] false) false ["gpt2"; "openai-gpt"]
      false [1] [8] 3 [2; 3] false false "./cache_models" false ex_state
    = (Ok [], with_events evs ex_state)
    /\ (length evs <= 1)%nat.
Proof.
  apply (run_onnxruntime_skips_missing_inputs (H := numpy_reference) (ex_ext [] false)).
  intros model Hm.
  assert (model = "gpt2" \/ model = "openai-gpt") as [-> | ->].
  { apply elem_of_cons in Hm as [Hm|Hm]; [now left|].
    apply list_elem_of_singleton in Hm. now right. }
  - exists ["input_ids"], 11, "gpt2". split; [reflexivity|].
    intros ni Hni. apply elem_of_cons in Hni as [->|Hni]; [cbn; lia|].
    apply list_elem_of_singleton in Hni as ->. cbn. lia.
  - exists ["input_ids"], 11, "gpt2". split; [reflexivity|].
    intros ni Hni. apply elem_of_cons in Hni as [->|Hni]; [cbn; lia|].
    apply list_elem_of_singleton in Hni as ->. cbn. lia.
Defined.

(** ** The detail report *)



Section Details.
Context {W : Type}.


End Details.

(** ** The names of the summary columns *)

Lemma has_char_app c s t : has_char c (s +:+ t) = has_char c s || has_char c t.
Proof.
  induction s as [|c' s IH]; [reflexivity|].
  change (String c' s +:+ t) with (String c' (s +:+ t)). cbn [has_char].
  now rewrite IH, orb_assoc.
Qed.

Lemma pretty_N_char_not_underscore x : pretty_N_char x <> "_"%char.
Proof. unfold pretty_N_char. repeat case_match; discriminate. Qed.

Lemma pretty_N_go_no_underscore x : forall s,
  has_char "_" s = false -> has_char "_" (pretty_N_go x s) = false.
Proof.
  induction (N.lt_wf_0 x) as [x _ IH]; intros s Hs.
  destruct (decide (0 < x)%N) as [Hx|Hx].
  - rewrite pretty_N_go_step by exact Hx. apply IH.
    + now apply N.div_lt.
    + cbn [has_char]. rewrite Hs, orb_false_r.
      apply bool_decide_eq_false_2, pretty_N_char_not_underscore.
  - assert (x = 0%N) as -> by lia. now rewrite pretty_N_go_0.
Qed.

(** [str(z)] holds digits and a sign, no underscore. *)
Lemma pretty_Z_no_underscore (z : Z) : has_char "_" (pretty z) = false.
Proof.
  assert (forall n : N, has_char "_" (pretty n) = false) as HN.
  { intros n. unfold pretty, pretty_N. destruct (decide (n = 0%N)); [reflexivity|].
    now apply pretty_N_go_no_underscore. }
  destruct z as [|p|p]; [reflexivity|apply HN|].
  change (pretty (Z.neg p)) with ("-" +:+ pretty (N.pos p)).
  rewrite has_char_app, HN. reflexivity.
Qed.

(** Two strings cut at their first underscore. *)
Lemma split_at_underscore a a' r r' :
  has_char "_" a = false -> has_char "_" a' = false ->
  a +:+ String "_" r = a' +:+ String "_" r' -> a = a' /\ r = r'.
Proof.
  revert a'. induction a as [|c a IH]; intros [|c' a'] Ha Ha'.
  - intros [= ->]. auto.
  - cbn [has_char] in Ha'. apply orb_false_elim in Ha' as [Hc _].
    apply bool_decide_eq_false in Hc. intros [= E _]. congruence.
  - cbn [has_char] in Ha. apply orb_false_elim in Ha as [Hc _].
    apply bool_decide_eq_false in Hc. intros [= E _]. congruence.
  - cbn [has_char] in Ha, Ha'.
    apply orb_false_elim in Ha as [_ Ha], Ha' as [_ Ha'].
    change (String c a +:+ String "_" r) with (String c (a +:+ String "_" r)).
    change (String c' a' +:+ String "_" r') with (String c' (a' +:+ String "_" r')).
    intros [= -> E]. destruct (IH a' Ha Ha' E) as [-> ->]. auto.
Qed.

(** The column name b<batch>_s<length> determines the batch size and the
    sequence length. *)
Lemma data_name_eq (b s b' s' : Z) :
  data_name b s = data_name b' s' -> b = b' /\ s = s'.
Proof.
  unfold data_name.
  change ("b" +:+ ?x) with (String "b" x).
  intros [= E].
  change ("_s" +:+ ?x) with (String "_" (String "s" x)) in E.
  apply split_at_underscore in E as [Eb [= Es]];
    try apply pretty_Z_no_underscore.
  split; now apply (inj pretty).
Qed.

(** X16. When no batch size and no sequence length is given twice, the
    columns of the summary are pairwise distinct: no two cells of the grid
    share a column, and none is named like an identifying column. *)
Theorem summary_columns_distinct (args : Args.t) :
  NoDup (Args.batch_sizes args) -> NoDup (Args.sequence_lengths args) ->
  NoDup (header_names ++ summary_data_names args).
Proof.
  intros Hb Hs. apply NoDup_app. repeat split.
  - unfold header_names. apply (bool_decide_unpack _). vm_compute. exact I.
  - intros k Hk Hk'. now apply (data_names_not_header args k).
  - unfold summary_data_names.
    induction Hb as [|b bs Hnb Hbs IH]; cbn [flat_map]; [constructor|].
    apply NoDup_app. repeat split.
    + change (map ?f ?l) with (f <$> l).
      apply (NoDup_fmap_2_strong (data_name b)); [|exact Hs].
      intros s1 s2 _ _ E. now apply data_name_eq in E.
    + intros k Hk Hk'. apply list_elem_of_fmap in Hk as (s1 & -> & _).
      apply list_elem_of_In, in_flat_map in Hk' as (b' & Hb' & Hk').
      apply in_map_iff in Hk' as (s2 & E & _).
      apply data_name_eq in E as [-> _]. now apply list_elem_of_In in Hb'.
    + exact IH.
Qed.

(** Batch sizes 1 and 2, lengths 8 and 32: eleven distinct columns. *)
Lemma summary_columns_distinct_witness :
  NoDup (header_names
         ++ summary_data_names (ex_args ["onnxruntime"] false false [1; 2] [8; 32])).
Proof.
  apply (summary_columns_distinct
           (ex_args ["onnxruntime"] false false [1; 2] [8; 32]));
    apply (bool_decide_unpack _); vm_compute; exact I.
Defined.

(** ** The cells of the summary *)

Lemma blank_cells_lookup (data_names : list string) (k : string) :
  (list_to_map (map (fun k => (k, VStr "")) data_names) : gmap string PyVal) !! k
  = if bool_decide (k ∈ data_names) then Some (VStr "") else None.
Proof.
  induction data_names as [|k0 dn IH]; cbn [map list_to_map foldr].
  - now rewrite lookup_empty.
  - cbn [fst snd]. destruct (decide (k0 = k)) as [->|Hne].
    + rewrite lookup_insert_eq.
      now rewrite bool_decide_eq_true_2 by apply list_elem_of_here.
    + rewrite lookup_insert_ne by exact Hne. rewrite IH.
      destruct (bool_decide_reflect (k ∈ dn)) as [Hk|Hk].
      * now rewrite bool_decide_eq_true_2 by (now apply list_elem_of_further).
      * rewrite bool_decide_eq_false_2; [reflexivity|].
        intros Hin. apply elem_of_cons in Hin as [->|Hin]; congruence.
Qed.

Section SummaryCells.
Variables (data_names : list string) (model : string) (ic : Z) (en : string).

Local Abbreviation cell_text :=
  (fun (row : gmap string PyVal) (b s : Z) =>
     default "" (py_str <$> row !! data_name b s)).

(** One record of the loop changes at most the cell of its own batch size
    and sequence length. *)
Lemma summary_update_cell r row row' b s :
  summary_update data_names model ic en r row = Ok row' ->
  cell_text row' b s
  = if matches model ic en r
       && (Result.batch_size r =? b) && (Result.sequence_length r =? s)
    then lr_average_latency_ms (Result.stats r)
    else cell_text row b s.
Proof.
  destruct (matches model ic en r) eqn:Hm.
  2:{ rewrite (step_skip data_names model ic en r row Hm). now intros [= <-]. }
  unfold summary_update. unfold matches in Hm. rewrite Hm. cbv zeta.
  cbn [andb].
  assert (forall base : gmap string PyVal,
             cell_text
               (<[data_name (Result.batch_size r) (Result.sequence_length r)
                  := VStr (lr_average_latency_ms (Result.stats r))]> base) b s
             = if (Result.batch_size r =? b) && (Result.sequence_length r =? s)
               then lr_average_latency_ms (Result.stats r)
               else cell_text base b s) as Hins.
  { intros base.
    destruct (Z.eqb_spec (Result.batch_size r) b) as [->|Hb];
      [destruct (Z.eqb_spec (Result.sequence_length r) s) as [->|Hs]|]; cbn [andb].
    - now rewrite lookup_insert_eq.
    - rewrite lookup_insert_ne; [reflexivity|].
      intros E. apply data_name_eq in E as [_ E]. congruence.
    - rewrite lookup_insert_ne; [reflexivity|].
      intros E. apply data_name_eq in E as [E _]. congruence. }
  destruct (bool_decide_reflect (row = ∅)) as [->|Hne].
  - rewrite res_bind_Ok. intros [= <-]. rewrite Hins.
    destruct ((Result.batch_size r =? b) && (Result.sequence_length r =? s));
      [reflexivity|]. rewrite lookup_empty. cbn [fmap option_fmap option_map default].
    rewrite (right_id_L ∅ (∪)).
    destruct (bool_decide_reflect (data_name b s ∈ data_names)) as [Hk|Hk].
    + rewrite (lookup_union_Some_l _ _ _ (VStr ""))
        by (now rewrite blank_cells_lookup, bool_decide_eq_true_2).
      reflexivity.
    + rewrite lookup_union_r
        by (now rewrite blank_cells_lookup, bool_decide_eq_false_2).
      destruct (result_headers r !! data_name b s) as [v|] eqn:Hv; [|reflexivity].
      exfalso. apply (data_name_not_header b s).
      apply (result_headers_keys r). now rewrite Hv.
  - destruct (assert_headers header_names row (result_headers r)) as [[]|e];
      [|discriminate].
    rewrite !res_bind_Ok. intros [= <-]. apply Hins.
Qed.

Lemma summary_fold_cell results : forall row0 row b s,
  fold_res (summary_update data_names model ic en) results row0 = Ok row ->
  cell_text row b s
  = fold_left (fun cell r =>
                 if matches model ic en r
                    && (Result.batch_size r =? b) && (Result.sequence_length r =? s)
                 then lr_average_latency_ms (Result.stats r) else cell)
              results (cell_text row0 b s).
Proof.
  induction results as [|r results IH]; intros row0 row b s; cbn [fold_res fold_left].
  - now intros [= <-].
  - destruct (summary_update data_names model ic en r row0) as [row1|e] eqn:Hstep;
      [|discriminate].
    rewrite res_bind_Ok. intros Hrest.
    rewrite (IH row1 row b s Hrest). f_equal.
    now apply summary_update_cell.
Qed.

End SummaryCells.

(** X17. In the row of a triple, the cell of the column b<batch>_s<length>
    holds the average latency of the last record of that triple with this
    batch size and sequence length, and nothing when there is none: a later
    record overwrites an earlier one of the same cell, and no record of
    another cell does. *)
Theorem summary_cell_is_latest_latency (results : list Result.t) (args : Args.t)
  (model : string) (ic : Z) (en : string) (cells : list string)
  (i : nat) (b s : Z) :
  summary_cells results args (model, ic, en) = Ok cells ->
  (header_names ++ summary_data_names args) !! i = Some (data_name b s) ->
  cells !! i = Some (latest_latency model ic en b s results).
Proof.
  unfold summary_cells. cbn [fst snd].
  destruct (summary_row results (summary_data_names args) model ic en)
    as [row|e] eqn:Hrow; [|discriminate].
  rewrite res_bind_Ok. unfold dictwriter_cells.
  generalize (header_names ++ summary_data_names args). intros cols.
  destruct (bool_decide _); [|discriminate]. intros [= <-] Hi.
  change (map ?f ?l) with (f <$> l). rewrite list_lookup_fmap, Hi. cbn [fmap option_fmap option_map].
  f_equal. unfold summary_row in Hrow.
  rewrite (summary_fold_cell _ _ _ _ results ∅ row b s Hrow).
  now rewrite lookup_empty.
Qed.

(** Two records of one cell: the second is the one reported. *)
Lemma summary_cell_is_latest_latency_witness :
  ["gpt2"; "1"; "onnxruntime"; "1.3.0"; "cpu"; "False"; "False"; "10.00"] !! 7%nat
  = Some (latest_latency "gpt2" 1 "onnxruntime" 1 8
            [ex_result "1.3.0" 1 8; ex_result "1.3.0" 1 8]).
Proof.
  apply (summary_cell_is_latest_latency
           [ex_result "1.3.0" 1 8; ex_result "1.3.0" 1 8]
           (ex_args ["onnxruntime"] false false [1] [8])
           "gpt2" 1 "onnxruntime" _ 7%nat 1 8); reflexivity.
Defined.

(** ** The summary of what the engines return *)


Section EngineResults.
Context {W Session : Type} `{Numpy} (ext : Externals W Session).



End EngineResults.


(** ** The inputs fed to a session *)

(** X19. For every model of [MODELS] and every input count from 1 to the
    number of its inputs, the dictionary [create_onnxruntime_input] builds
    has exactly the input names the model was exported with, in their
    order: the first [num_inputs] names of the model. *)
Theorem onnxruntime_inputs_are_the_exported_names (model_name : string)
  (all_input_names : list string) (opset : Z) (model_type : string)
  (num_inputs vocab_size batch_size sequence_length : Z) :
  MODELS model_name = Some (all_input_names, opset, model_type) ->
  1 <= num_inputs <= Z.of_nat (length all_input_names) ->
  od_keys (onnxruntime_inputs vocab_size batch_size sequence_length
             (py_slice_to all_input_names num_inputs))
  = py_slice_to all_input_names num_inputs.
Proof.
  unfold MODELS. intros Hm Hn.
  repeat match type of Hm with
         | (if ?c then _ else _) = _ => destruct c
         end;
    try discriminate; injection Hm as <- _ _; cbn [length] in Hn;
    assert (num_inputs = 1 \/ num_inputs = 2 \/ num_inputs = 3) as [->|[->| ->]]
      by lia;
    try lia; reflexivity.
Qed.

(** BERT with two of its three inputs. *)
Lemma onnxruntime_inputs_are_the_exported_names_witness :
  od_keys (onnxruntime_inputs 28996 1 8
             (py_slice_to ["input_ids"; "attention_mask"; "token_type_ids"] 2))
  = py_slice_to ["input_ids"; "attention_mask"; "token_type_ids"] 2.
Proof.
  apply (onnxruntime_inputs_are_the_exported_names "bert-base-cased"
           ["input_ids"; "attention_mask"; "token_type_ids"] 11 "bert" 2 28996 1 8);
    [reflexivity|cbn; lia].
Defined.

(** ** The order of the records *)

Section EngineOrder.
Context {W Session : Type} `{Numpy} (ext : Externals W Session).

Lemma torch_emitted_engine use_gpu fp16 ts ms bs ss r :
  torch_emitted ext use_gpu fp16 ts ms bs ss r ->
  Result.engine r = if ts then "torchscript" else "torch".
Proof. now intros (m & b & s & stat & mx & -> & _). Qed.

Lemma ort_emitted_engine use_gpu fp16 opt ms ics bs ss r :
  ort_emitted ext use_gpu fp16 opt ms ics bs ss r ->
  Result.engine r = "onnxruntime".
Proof. now intros (m & ni & b & s & stat & mx & -> & _). Qed.

Lemma run_pytorch_engine use_gpu ms fp16 bs ss n ts cache verbose (st : State W)
  rs st' :
  run_pytorch ext use_gpu ms fp16 bs ss n ts cache verbose st = (Ok rs, st') ->
  Forall (fun r => Result.engine r = if ts then "torchscript" else "torch") rs.
Proof.
  intros Hrun. apply run_pytorch_emitted in Hrun.
  eapply Forall_impl; [exact Hrun|]. intros r. apply torch_emitted_engine.
Qed.

Lemma main_pytorch_order args (st : State W) rs st' :
  main_pytorch ext args st = (Ok (Some rs), st') ->
  exists traced eager,
    rs = traced ++ eager
    /\ Forall (fun r => Result.engine r = "torchscript") traced
    /\ Forall (fun r => Result.engine r = "torch") eager.
Proof.
  unfold main_pytorch.
  destruct (bool_decide ("torch" ∈ _)) eqn:Et;
    destruct (bool_decide ("torchscript" ∈ _)) eqn:Es; cbn [orb];
    try (intros [= <- _]; exists [], []; repeat split; constructor);
    (destruct (is_torch_available ext); cbn [negb];
     [|intros Hrun; apply bind_Ok_inv in Hrun as ([] & ? & _ & Hrun); discriminate]);
    intros Hrun;
    apply bind_Ok_inv in Hrun as ([] & st1 & _ & Hrun);
    apply bind_Ok_inv in Hrun as (r1 & st2 & H1 & Hrun);
    apply bind_Ok_inv in Hrun as (r2 & st3 & H2 & Hrun);
    injection Hrun as <- _.
  - apply run_pytorch_engine in H1.
    apply bind_Ok_inv in H2 as (more & st4 & H2 & Hret). injection Hret as <- _.
    apply run_pytorch_engine in H2. exists r1, more. auto.
  - injection H1 as <- _.
    apply bind_Ok_inv in H2 as (more & st4 & H2 & Hret). injection Hret as <- _.
    apply run_pytorch_engine in H2. exists [], more. repeat split; auto.
  - injection H2 as <- _. apply run_pytorch_engine in H1.
    exists r1, []. rewrite app_nil_r. repeat split; auto.
Qed.

Lemma main_onnxruntime_order args results (st : State W) rs st' :
  main_onnxruntime ext args results st = (Ok rs, st') ->
  exists more,
    rs = results ++ more /\ Forall (fun r => Result.engine r = "onnxruntime") more.
Proof.
  unfold main_onnxruntime.
  destruct (bool_decide ("onnxruntime" ∈ _)).
  2:{ intros [= <- _]. exists []. rewrite app_nil_r. split; [reflexivity|constructor]. }
  intros Hrun. apply try_except_Ok_inv in Hrun as [Hrun|(e & st1 & _ & _ & Hh)].
  - apply bind_Ok_inv in Hrun as (more & st1 & Hrun & Hret). injection Hret as <- _.
    apply run_onnxruntime_emitted in Hrun. exists more. split; [reflexivity|].
    eapply Forall_impl; [exact Hrun|]. intros r. apply ort_emitted_engine.
  - apply bind_Ok_inv in Hh as ([] & st2 & _ & Hh). injection Hh as <- _.
    exists []. rewrite app_nil_r. split; [reflexivity|constructor].
Qed.

(** X20. The records [main] collects are grouped by engine in a fixed
    order, whatever the order of the engines on the command line: first
    those of torchscript, then those of torch, then those of onnxruntime. *)
Theorem results_are_grouped_by_engine (args : Args.t) (st : State W)
  (results : list Result.t) (st' : State W) :
  main_engines ext args st = (Ok (Some results), st') ->
  exists traced eager ort,
    results = traced ++ eager ++ ort
    /\ Forall (fun r => Result.engine r = "torchscript") traced
    /\ Forall (fun r => Result.engine r = "torch") eager
    /\ Forall (fun r => Result.engine r = "onnxruntime") ort.
Proof.
  unfold main_engines. intros Hrun.
  apply bind_Ok_inv in Hrun as ([r0|] & st1 & H0 & Hrun); [|discriminate].
  apply bind_Ok_inv in Hrun as (r1 & st2 & H1 & Hrun). injection Hrun as <- _.
  apply main_pytorch_order in H0 as (traced & eager & -> & Ht & He).
  apply main_onnxruntime_order in H1 as (ort & -> & Ho).
  exists traced, eager, ort. rewrite <- app_assoc. auto.
Qed.

End EngineOrder.

(** The concrete world with onnxruntime named before torch: the record of
    torch comes first. *)
Lemma results_are_grouped_by_engine_witness :
  exists traced eager ort,
    engine_results
      (main_engines (H := numpy_reference) (ex_ext [] false)
         (ex_args ["onnxruntime"; "torch"] false false [1] [8]) ex_state)
    = traced ++ eager ++ ort
    /\ Forall (fun r => Result.engine r = "torchscript") traced
    /\ Forall (fun r => Result.engine r = "torch") eager
    /\ Forall (fun r => Result.engine r = "onnxruntime") ort.
Proof.
  eapply (results_are_grouped_by_engine (H := numpy_reference) (ex_ext [] false)
            (ex_args ["onnxruntime"; "torch"] false false [1] [8]) ex_state).
  vm_compute. reflexivity.
Defined.

(** ** The name of the optimized model *)

Lemma append_assoc (a b c : string) : (a +:+ b) +:+ c = a +:+ (b +:+ c).
Proof.
  induction a as [|x a IH]; [reflexivity|].
  change (String x a +:+ b) with (String x (a +:+ b)).
  change (String x (a +:+ b) +:+ c) with (String x ((a +:+ b) +:+ c)).
  now rewrite IH.
Qed.

Lemma append_nil_r (a : string) : a +:+ "" = a.
Proof.
  induction a as [|x a IH]; [reflexivity|].
  change (String x a +:+ "") with (String x (a +:+ "")). now rewrite IH.
Qed.

Lemma pretty_N_go_lacks (c : ascii) (x : N) :
  (forall d, pretty_N_char d <> c) ->
  forall s, has_char c s = false -> has_char c (pretty_N_go x s) = false.
Proof.
  intros Hc. induction (N.lt_wf_0 x) as [x _ IH]; intros s Hs.
  destruct (decide (0 < x)%N) as [Hx|Hx].
  - rewrite pretty_N_go_step by exact Hx. apply IH.
    + now apply N.div_lt.
    + cbn [has_char]. rewrite Hs, orb_false_r.
      apply bool_decide_eq_false_2, Hc.
  - assert (x = 0%N) as -> by lia. now rewrite pretty_N_go_0.
Qed.

(** [str(z)] holds nothing but digits and a sign. *)
Lemma pretty_Z_lacks (c : ascii) (z : Z) :
  (forall d, pretty_N_char d <> c) -> c <> "-"%char ->
  has_char c (pretty z) = false.
Proof.
  intros Hc Hdash.
  assert (forall n : N, has_char c (pretty n) = false) as HN.
  { intros n. unfold pretty, pretty_N. destruct (decide (n = 0%N)).
    - cbn [has_char]. rewrite orb_false_r. apply bool_decide_eq_false_2.
      apply (Hc 0%N).
    - now apply pretty_N_go_lacks. }
  destruct z as [|p|p].
  - apply (HN 0%N).
  - apply HN.
  - change (pretty (Z.neg p)) with ("-" +:+ pretty (N.pos p)).
    rewrite has_char_app, HN. cbn [has_char]. rewrite !orb_false_r.
    apply bool_decide_eq_false_2. congruence.
Qed.

(** A stem without a dot keeps its place when the extension is replaced. *)
Lemma py_replace_extension (stem new : string) :
  has_char "." stem = false ->
  py_replace (stem +:+ ".onnx") ".onnx" new = stem +:+ new.
Proof.
  unfold py_replace. induction stem as [|c stem IH]; intros Hs.
  - change ("" +:+ ".onnx") with ".onnx". change ("" +:+ new) with new.
    cbn. now rewrite append_nil_r.
  - cbn [has_char] in Hs. apply orb_false_elim in Hs as [Hc Hs].
    apply bool_decide_eq_false in Hc.
    change (String c stem +:+ ".onnx") with (String c (stem +:+ ".onnx")).
    change (String c stem +:+ new) with (String c (stem +:+ new)).
    cbn [replace_from String.prefix].
    destruct (ascii_dec "." c) as [E|_]; [congruence|].
    now rewrite IH.
Qed.

(** A stem without the letter f holds no "_fp16" that starts inside it. *)
Lemma str_contains_fp16_skip (stem rest : string) :
  has_char "f" stem = false ->
  str_contains "_fp16" (stem +:+ String "_" rest)
  = str_contains "_fp16" (String "_" rest).
Proof.
  induction stem as [|c stem IH]; intros Hs; [reflexivity|].
  cbn [has_char] in Hs. apply orb_false_elim in Hs as [Hc Hs].
  apply bool_decide_eq_false in Hc.
  change (String c stem +:+ String "_" rest)
    with (String c (stem +:+ String "_" rest)).
  cbn [str_contains]. rewrite (IH Hs).
  assert (String.prefix "_fp16" (String c (stem +:+ String "_" rest)) = false) as ->.
  { cbn [String.prefix]. destruct (ascii_dec "_" c) as [_|_]; [|reflexivity].
    destruct stem as [|c2 stem]; [reflexivity|].
    change (String c2 stem +:+ String "_" rest)
      with (String c2 (stem +:+ String "_" rest)).
    cbn [String.prefix has_char] in *. apply orb_false_elim in Hs as [Hc2 _].
    apply bool_decide_eq_false in Hc2.
    destruct (ascii_dec "f" c2); [congruence|reflexivity]. }
  reflexivity.
Qed.

(** Without the letter f there is no "_fp16" at all. *)
Lemma str_contains_fp16_lacks (s : string) :
  has_char "f" s = false -> str_contains "_fp16" s = false.
Proof.
  induction s as [|c s IH]; intros Hs; [reflexivity|].
  cbn [has_char] in Hs. apply orb_false_elim in Hs as [Hc Hs].
  apply bool_decide_eq_false in Hc.
  cbn [str_contains]. rewrite (IH Hs), orb_false_r.
  cbn [String.prefix]. destruct (ascii_dec "_" c) as [_|_]; [|reflexivity].
  destruct s as [|c2 s]; [reflexivity|].
  cbn [has_char] in Hs. apply orb_false_elim in Hs as [Hc2 _].
  apply bool_decide_eq_false in Hc2. cbn [String.prefix].
  destruct (ascii_dec "f" c2); [congruence|reflexivity].
Qed.

(** X21. For a model of [MODELS] exported as <model>_<n>.onnx, the optimized
    model is named <model>_<n>_fp16.onnx with fp16 and <model>_<n>_fp32.onnx
    without, and "_fp16" occurs in the name of the fp16 model only: so
    [validate_onnx_model] opens a GPU session for the fp16 model, and a CPU
    session for the exported and the fp32 model. *)
Theorem optimized_model_name_and_device (model_name : string)
  (input_names : list string) (opset : Z) (model_type : string) (n : Z)
  (fp16 : bool) :
  MODELS model_name = Some (input_names, opset, model_type) ->
  py_replace (model_name +:+ "_" +:+ pretty n +:+ ".onnx") ".onnx"
             (if fp16 then "_fp16.onnx" else "_fp32.onnx")
  = model_name +:+ "_" +:+ pretty n
    +:+ (if fp16 then "_fp16.onnx" else "_fp32.onnx")
  /\ str_contains "_fp16" (model_name +:+ "_" +:+ pretty n +:+ ".onnx") = false
  /\ str_contains "_fp16"
       (py_replace (model_name +:+ "_" +:+ pretty n +:+ ".onnx") ".onnx"
                   (if fp16 then "_fp16.onnx" else "_fp32.onnx"))
     = fp16.
Proof.
  intros Hm.
  assert (has_char "." model_name = false /\ has_char "f" model_name = false)
    as [Hdot Hf].
  { unfold MODELS in Hm.
    repeat match type of Hm with
           | (if bool_decide (?a = ?b) then _ else _) = _ =>
               destruct (bool_decide_reflect (a = b)) as [->|_]
           end;
      try discriminate; split; reflexivity. }
  assert (forall c, (forall d, pretty_N_char d <> c) -> c <> "-"%char ->
                    c <> "_"%char -> has_char c model_name = false ->
                    has_char c ((model_name +:+ "_") +:+ pretty n) = false) as Hstem.
  { intros c Hd Hdash Hund Hmodel. rewrite !has_char_app, Hmodel, pretty_Z_lacks by assumption.
    cbn [has_char]. rewrite !orb_false_r. apply bool_decide_eq_false_2. congruence. }
  assert (has_char "." ((model_name +:+ "_") +:+ pretty n) = false) as Hsdot.
  { apply Hstem; try discriminate; [|exact Hdot].
    intros d. unfold pretty_N_char. repeat case_match; discriminate. }
  assert (has_char "f" ((model_name +:+ "_") +:+ pretty n) = false) as Hsf.
  { apply Hstem; try discriminate; [|exact Hf].
    intros d. unfold pretty_N_char. repeat case_match; discriminate. }
  assert (forall ext : string,
             model_name +:+ "_" +:+ pretty n +:+ ext
             = ((model_name +:+ "_") +:+ pretty n) +:+ ext) as Hassoc
    by (intros ext; now rewrite !append_assoc).
  rewrite !Hassoc, py_replace_extension by exact Hsdot.
  split; [reflexivity|]. split.
  - apply str_contains_fp16_lacks. rewrite has_char_app, Hsf. reflexivity.
  - destruct fp16.
    + change "_fp16.onnx" with (String "_" "fp16.onnx").
      rewrite str_contains_fp16_skip by exact Hsf. reflexivity.
    + change "_fp32.onnx" with (String "_" "fp32.onnx").
      rewrite str_contains_fp16_skip by exact Hsf. reflexivity.
Qed.

(** GPT-2 with one input. *)
Lemma optimized_model_name_and_device_witness :
  py_replace ("gpt2" +:+ "_" +:+ pretty 1 +:+ ".onnx") ".onnx" "_fp16.onnx"
  = "gpt2" +:+ "_" +:+ pretty 1 +:+ "_fp16.onnx"
  /\ str_contains "_fp16" ("gpt2" +:+ "_" +:+ pretty 1 +:+ ".onnx") = false
  /\ str_contains "_fp16"
       (py_replace ("gpt2" +:+ "_" +:+ pretty 1 +:+ ".onnx") ".onnx" "_fp16.onnx")
     = true.
Proof.
  exact (optimized_model_name_and_device "gpt2" ["input_ids"] 11 "gpt2" 1 true
           eq_refl).
Defined.

(** ** How many records a run returns *)

Lemma extends_by_refl {B} k (acc : list B) : extends_by k acc acc.
Proof. exists []. split; [now rewrite app_nil_r|cbn; lia]. Qed.

Lemma extends_by_trans {B} k1 k2 (a b c : list B) :
  extends_by k1 a b -> extends_by k2 b c -> extends_by (k1 + k2) a c.
Proof.
  intros (n1 & -> & H1) (n2 & -> & H2). exists (n1 ++ n2).
  split; [now rewrite app_assoc|rewrite length_app; lia].
Qed.

Lemma extends_by_le {B} k k' (a b : list B) :
  (k <= k')%nat -> extends_by k a b -> extends_by k' a b.
Proof. intros Hk (n & -> & Hn). exists n. split; [reflexivity|lia]. Qed.

(** A loop whose every iteration appends at most [k] elements. *)
Lemma for_acc_extends {W A B} (k : nat) (body : A -> list B -> M W (list B)) xs :
  (forall x acc st acc' st',
      body x acc st = (Ok acc', st') -> extends_by k acc acc') ->
  forall acc st acc' st',
    for_acc xs body acc st = (Ok acc', st') ->
    extends_by (length xs * k) acc acc'.
Proof.
  intros Hbody. induction xs as [|x xs IH]; intros acc st acc' st' Hrun.
  - cbn in Hrun. injection Hrun as <- _. apply extends_by_refl.
  - rewrite for_acc_cons in Hrun.
    apply bind_Ok_inv in Hrun as (acc1 & st1 & Hx & Hrest).
    cbn [length]. replace (S (length xs) * k)%nat with (k + length xs * k)%nat by lia.
    eapply extends_by_trans; [eapply Hbody; exact Hx|eapply IH; exact Hrest].
Qed.

Section RecordCount.
Context {W Session : Type} `{Numpy} (ext : Externals W Session).
Variables (use_gpu fp16 opt val : bool) (model_names : list string)
  (input_counts batch_sizes seqs : list Z) (n : Z) (cache : string).

Lemma ort_batch_extends model ni names vs mx sess b results (st : State W) rs st' :
  ort_batch ext use_gpu fp16 opt n seqs model ni names vs mx sess b results st
    = (Ok rs, st') ->
  extends_by (length seqs * 1) results rs.
Proof.
  unfold ort_batch. destruct (b <=? 0); [intros [= <- _]; apply extends_by_refl|].
  apply for_acc_extends. intros s acc st0 acc' st0' Hcell.
  apply ort_cell_Ok in Hcell as [->|(_ & stat & ->)]; [apply extends_by_refl|].
  eexists. split; [reflexivity|cbn; lia].
Qed.

Lemma ort_inputs_extends model all ni results (st : State W) rs st' :
  ort_inputs ext use_gpu fp16 batch_sizes seqs n opt val cache model all ni
             results st = (Ok rs, st') ->
  extends_by (length batch_sizes * (length seqs * 1)) results rs.
Proof.
  unfold ort_inputs.
  destruct (_ <? ni); [intros [= <- _]; apply extends_by_refl|].
  intros Hrun.
  apply bind_Ok_inv in Hrun as ([] & st1 & _ & Hrun).
  apply bind_Ok_inv in Hrun as ([[[f v] vs] mx] & st2 & _ & Hrun).
  destruct v; cbn [negb] in Hrun;
    [|injection Hrun as <- _; apply extends_by_refl].
  apply bind_Ok_inv in Hrun as (sess & st3 & _ & Hrun).
  destruct sess as [sess|]; [|injection Hrun as <- _; apply extends_by_refl].
  revert Hrun. apply for_acc_extends.
  intros b acc st0 acc' st0'. apply ort_batch_extends.
Qed.

Lemma run_onnxruntime_extends verbose (st : State W) rs st' :
  run_onnxruntime ext use_gpu model_names fp16 batch_sizes seqs n input_counts
                  opt val cache verbose st = (Ok rs, st') ->
  extends_by (length model_names
              * (length input_counts * (length batch_sizes * (length seqs * 1))))
             [] rs.
Proof.
  unfold run_onnxruntime. destruct (use_gpu && _).
  - intros Hrun. apply bind_Ok_inv in Hrun as ([] & st1 & _ & Hrun).
    injection Hrun as <- _. apply extends_by_refl.
  - intros Hrun. apply bind_Ok_inv in Hrun as ([] & st1 & _ & Hrun).
    revert Hrun. apply for_acc_extends.
    intros model acc st0 acc' st0'. unfold ort_model.
    destruct (MODELS model) as [[[all ?] ?]|]; [|discriminate].
    apply for_acc_extends. intros ni acc1 st2 acc2 st3. apply ort_inputs_extends.
Qed.

Lemma torch_batch_extends ts model cfg mx b results (st : State W) rs st' :
  torch_batch ext use_gpu fp16 ts n seqs model cfg mx b results st = (Ok rs, st') ->
  extends_by (length seqs * 1) results rs.
Proof.
  unfold torch_batch. destruct (b <=? 0); [intros [= <- _]; apply extends_by_refl|].
  intros Hrun. apply bind_Ok_inv in Hrun as ([] & st1 & _ & Hrun). revert Hrun.
  apply for_acc_extends. intros s acc st0 acc' st0' Hcell.
  apply torch_cell_Ok in Hcell as [->|(_ & stat & ->)]; [apply extends_by_refl|].
  eexists. split; [reflexivity|cbn; lia].
Qed.

Lemma run_pytorch_extends ts verbose (st : State W) rs st' :
  run_pytorch ext use_gpu model_names fp16 batch_sizes seqs n ts cache verbose st
    = (Ok rs, st') ->
  extends_by (length model_names * (length batch_sizes * (length seqs * 1))) [] rs.
Proof.
  unfold run_pytorch. destruct (use_gpu && _).
  - intros Hrun. apply bind_Ok_inv in Hrun as ([] & st1 & _ & Hrun).
    injection Hrun as <- _. apply extends_by_refl.
  - apply for_acc_extends. intros model acc st0 acc' st0'. unfold torch_model.
    intros Hrun.
    apply bind_Ok_inv in Hrun as (cfg & st1 & _ & Hrun).
    apply bind_Ok_inv in Hrun as (mx & st2 & _ & Hrun).
    apply bind_Ok_inv in Hrun as ([] & st3 & _ & Hrun).
    apply bind_Ok_inv in Hrun as ([] & st4 & _ & Hrun). revert Hrun.
    apply for_acc_extends. intros b acc1 st5 acc2 st6. apply torch_batch_extends.
Qed.

(** X22. A run returns at most one record for each cell of the grid it
    visits: [run_onnxruntime] at most models x input counts x batch sizes x
    sequence lengths records, [run_pytorch] at most models x batch sizes x
    sequence lengths. *)
Theorem runs_return_at_most_one_record_per_cell (torchscript verbose : bool)
  (st : State W) :
  (forall rs st',
      run_onnxruntime ext use_gpu model_names fp16 batch_sizes seqs n input_counts
                      opt val cache verbose st = (Ok rs, st') ->
      (length rs <= length model_names * length input_counts
                    * length batch_sizes * length seqs)%nat)
  /\ (forall rs st',
         run_pytorch ext use_gpu model_names fp16 batch_sizes seqs n torchscript
                     cache verbose st = (Ok rs, st') ->
         (length rs <= length model_names * length batch_sizes * length seqs)%nat).
Proof.
  split; intros rs st' Hrun.
  - apply run_onnxruntime_extends in Hrun as (new & -> & Hn). cbn [app]. nia.
  - apply run_pytorch_extends in Hrun as (new & -> & Hn). cbn [app]. nia.
Qed.

End RecordCount.

(** The concrete world on two batch sizes, one of them 0, and two sequence
    lengths: two records from a grid of four cells. *)
Lemma runs_return_at_most_one_record_per_cell_witness :
  Nat.le (length (match (ex_ort_run [] [0; 1] [8; 32]).1 with
                  | Ok rs => rs
                  | Raise _ => []
                  end))
         (1 * 1 * 2 * 2)%nat.
Proof.
  destruct (ex_ort_run [] [0; 1] [8; 32]) as [[rs|e] st'] eqn:Hrun;
    cbn [fst]; [|cbn; lia].
  exact (proj1 (runs_return_at_most_one_record_per_cell (H := numpy_reference)
                  (ex_ext [] false) false false false false ["gpt2"] [1] [0; 1]
                  [8; 32] 3 "./cache_models" false false ex_state) rs st' Hrun).
Defined.

(** ** The verdict of validate_onnx_model *)

Section Validation.
Context {W Session : Type} `{Numpy} (ext : Externals W Session).

(** X23. [validate_onnx_model] returns [True] exactly when the session, on the
    GPU if and only if "_fp16" occurs in the file name, is created and the
    outputs of its run are all close to the expected ones; a model that
    onnxruntime fails to load does not raise: the failure is logged and the
    verdict is [False]. *)
Theorem validate_onnx_model_verdict (onnx_model_filename : string) (st : State W) :
  (forall st',
      validate_onnx_model ext onnx_model_filename st = (Ok true, st')
      <-> exists session w1 w2,
          InferenceSession ext onnx_model_filename
            (str_contains "_fp16" onnx_model_filename) (world st) = (Ok session, w1)
          /\ validation_run ext session w1 = (Ok AllClose, w2)
          /\ st' = Build_State w2
                     (trace st
                      ++ [Log INFO (Text (onnx_model_filename
                                          +:+ " is a valid ONNX model"));
                          Log INFO (Text ("inference result of onnxruntime is validated on "
                                          +:+ onnx_model_filename))])
                     (optimize_model_statistics st) (csv st))
  /\ (forall e w1,
         InferenceSession ext onnx_model_filename
           (str_contains "_fp16" onnx_model_filename) (world st) = (Raise e, w1) ->
         is_OrtFail e = true ->
         validate_onnx_model ext onnx_model_filename st
         = (Ok false,
            Build_State w1
              (trace st
               ++ [Log ERROR (TextExc "Failed to load model: " e);
                   Log ERROR (Text (onnx_model_filename
                                    +:+ " is an invalid ONNX model"))])
              (optimize_model_statistics st) (csv st))).
Proof.
  unfold validate_onnx_model, create_onnxruntime_session. cbv zeta.
  unfold try_except, mbind, M_bind, bind, logger, emit, call, mret, M_ret, ret.
  destruct (InferenceSession ext onnx_model_filename
              (str_contains "_fp16" onnx_model_filename) (world st))
    as [[session|e] w1] eqn:Hs; cbn.
  - split; [|intros ? ? [=]].
    intros st'. destruct (validation_run ext session w1) as [[[a b|i|]|e] w2] eqn:Hv;
      cbn; (split; [intros [= <-]|intros (s' & w1' & w2' & [= <- <-] & Hv' & ->)]);
      try discriminate; try (rewrite Hv in Hv'; discriminate).
    + exists session, w1, w2. rewrite <- app_assoc. auto.
    + rewrite Hv in Hv'. injection Hv' as <-. now rewrite <- app_assoc.
  - split.
    + intros st'. destruct (is_OrtFail e); cbn;
        (split; [discriminate|intros (s' & w1' & w2' & [=] & _)]).
    + intros e' w1' [= <- <-] ->. cbn. now rewrite <- app_assoc.
Qed.

End Validation.

(** In the concrete world every model loads and validates. *)
Lemma validate_onnx_model_verdict_witness :
  exists st',
    validate_onnx_model (ex_ext [] false) "gpt2_1_fp16.onnx" ex_state = (Ok true, st').
Proof.
  eexists.
  apply (proj1 (validate_onnx_model_verdict (ex_ext [] false) "gpt2_1_fp16.onnx"
                  ex_state) _).
  exists tt, 0%nat, 0%nat. repeat split.
Defined.
